(** * pywemo: the subscription registry ([pywemo/subscribe.py])

    A shallow embedding of the subscription registry of pywemo: the
    resubscription protocol ([_resubscribe], [_url_resubscribe],
    [_schedule]), the registry operations ([register], [unregister], [on],
    [event], [start], [stop]) and the HTTP request handlers of the embedded
    listener ([do_NOTIFY], [do_GET], [do_POST], [do_SUBSCRIBE]); and of the
    exception [SOAPFault] of [pywemo/exceptions.py].

    How the Python program is represented:
    - the dictionaries keyed by host or serial number are finite maps
      ([gmap]); the small dictionaries whose order is visible (request
      headers, the timers of one device) keep their insertion order;
    - an exception is a value of [exn], and a function that may raise
      returns a [result];
    - the registry, its scheduler and the outside world form one state,
      [World], threaded through a state and exception monad;
    - the calls to external collaborators ([requests.request],
      [sched.scheduler], the device object, the user's callbacks) are
      recorded in a chronological [trace]; the answers of the network come
      from an oracle indexed by the number of the request;
    - a [sched.Event] carries a sequence number that makes it unique, as
      in Python 3.10 and later; of its time only the delay is kept;
    - strings are sequences of code points below 256 (header values are
      decoded as Latin-1, bodies are bytes);
    - [int(timeout * 0.75)] is computed in binary64, after the
      specification of IEEE 754 arithmetic of the standard library.

    The threads and the condition variable are represented by the order
    of their steps.  In the runs of [perform_all] an operation runs to its
    end before the next one starts: a fired timer is one operation,
    [run_event].  In the runs of [run_steps] the calls of the other
    threads come between the steps of the event thread: an event leaves
    the queue, the requests of the attempt are made, the block that holds
    the lock runs.

    Not represented: logging, the time a blocking call takes, a peer that
    stops sending without closing the connection (the handler's read then
    ends with the timeout of 10 seconds), the end of the event thread when
    an attempt raises, the changes that [reconnect_with_device] makes to a
    device, and what a callback does when it is called (it is assumed to
    return). *)

From Stdlib Require Import ZArith String Ascii List Lia Bool.
From Stdlib Require Import Decimal DecimalString.
From Stdlib Require Import Floats.SpecFloat.
From stdpp Require Import gmap strings list fin_maps.

Local Open Scope string_scope.
Local Open Scope Z_scope.

(** ** Exceptions and results *)

Inductive exn : Type :=
  | RequestException
  | ValueError
  | OverflowError
  | KeyError
  | AttributeError
  | XMLSyntaxError
  | MemoryError
  | RecursionError
  | SubscriptionRegistryFailed.

Inductive result (A : Type) : Type :=
  | Ok (a : A)
  | Raise (e : exn).

Arguments Ok {A} a.
Arguments Raise {A} e.

#[global] Instance exn_eq_dec : EqDecision exn.
Proof. solve_decision. Defined.

(** ** The Python builtins used by the module *)

Module Py.

(** Code points that [int()] strips as whitespace.  Header values reach the
  code decoded as Latin-1, so a character is a code point below 256.
  [int()] turns the Unicode whitespace above 126 (here U+0085 and U+00A0)
  into spaces and then strips the ASCII whitespace: the separators U+001C
  to U+001F, which [str.isspace] accepts, are not stripped. *)
Definition is_int_space (c : ascii) : bool :=
let n := nat_of_ascii c in
((9 <=? n) && (n <=? 13) || (n =? 32) || (n =? 133) || (n =? 160))%nat.

(** The whitespace of [bytes.strip()]: space, \t, \n, \r, \x0b, \x0c. *)
Definition is_ascii_space (c : ascii) : bool :=
let n := nat_of_ascii c in
((9 <=? n) && (n <=? 13) || (n =? 32))%nat.

Fixpoint lstrip (p : ascii -> bool) (s : string) : string :=
match s with
| EmptyString => EmptyString
| String c r => if p c then lstrip p r else s
end.

Fixpoint rstrip (p : ascii -> bool) (s : string) : string :=
match s with
| EmptyString => EmptyString
| String c r =>
    match rstrip p r with
    | EmptyString => if p c then EmptyString else String c EmptyString
    | r' => String c r'
    end
end.

Definition strip (p : ascii -> bool) (s : string) : string :=
rstrip p (lstrip p s).

Definition digit_of (c : ascii) : option Z :=
let n := nat_of_ascii c in
if ((48 <=? n) && (n <=? 57))%nat then Some (Z.of_nat n - 48) else None.

(** The digits of a decimal literal after a first digit has been read:
  digits, with single underscores allowed between two digits. *)
Fixpoint int_digits (acc : Z) (s : string) : option Z :=
match s with
| EmptyString => Some acc
| String c r =>
    match digit_of c with
    | Some d => int_digits (10 * acc + d) r
    | None =>
        if Ascii.eqb c "_" then
          match r with
          | String c' r' =>
              match digit_of c' with
              | Some d => int_digits (10 * acc + d) r'
              | None => None
              end
          | EmptyString => None
          end
        else None
    end
end.

(** The number of digits of a literal, its underscores apart. *)
Fixpoint count_digits (s : string) : nat :=
match s with
| EmptyString => O
| String c r =>
    match digit_of c with
    | Some _ => S (count_digits r)
    | None => count_digits r
    end
end.

(** [sys.get_int_max_str_digits()], as the interpreter sets it: a decimal
  literal of more digits, leading zeros counted, is refused. *)
Definition max_str_digits : nat := 4300.

Definition int_literal (s : string) : option Z :=
match s with
| String c r =>
    match digit_of c with
    | Some d =>
        match int_digits d r with
        | Some n =>
            if (count_digits s <=? max_str_digits)%nat then Some n else None
        | None => None
        end
    | None => None
    end
| EmptyString => None
end.

(** [int(s)] for a string [s], base 10: [ValueError] when [s] is not a
  decimal literal, and when it has too many digits. *)
Definition int (s : string) : result Z :=
let body :=
  match strip is_int_space s with
  | String "-" r => option_map Z.opp (int_literal r)
  | String "+" r => int_literal r
  | t => int_literal t
  end in
match body with
| Some n => Ok n
| None => Raise ValueError
end.

(** [s.startswith(prefix)] *)
Fixpoint startswith (s prefix : string) {struct prefix} : bool :=
match prefix with
| EmptyString => true
| String a prefix' =>
    match s with
    | String b s' => Ascii.eqb a b && startswith s' prefix'
    | EmptyString => false
    end
end.

(** [s.replace(old, new)]; [skip] counts the characters of a match of [old]
  that remain to be dropped. *)
Fixpoint replace_from (old new : string) (skip : nat) (s : string) : string :=
match s with
| EmptyString =>
    match old with EmptyString => new | _ => EmptyString end
| String c r =>
    match skip with
    | S k => replace_from old new k r
    | O =>
        if startswith s old then
          match old with
          | EmptyString =>
              String.append new (String c (replace_from old new 0 r))
          | String _ old' =>
              String.append new (replace_from old new (String.length old') r)
          end
        else String c (replace_from old new 0 r)
    end
end.

Definition replace (old new s : string) : string := replace_from old new 0 s.

(** [s.endswith(suffix)] *)
Definition endswith (s suffix : string) : bool :=
let n := String.length s in
let k := String.length suffix in
((k <=? n)%nat && String.eqb (String.substring (n - k) k s) suffix).

(** [s.split(sep)] for a one-character separator; [s.rsplit(sep)] without
  a split limit returns the same list. *)
Fixpoint split (sep : ascii) (s : string) : list string :=
match s with
| EmptyString => [EmptyString]
| String c r =>
    if Ascii.eqb c sep then EmptyString :: split sep r
    else
      match split sep r with
      | h :: t => String c h :: t
      | [] => [String c EmptyString]
      end
end.

Definition rsplit (sep : ascii) (s : string) : list string := split sep s.

(** [l[-1]] on a list of strings known to be non-empty. *)
Definition last_item (l : list string) : string := List.last l EmptyString.

(** ['%d' % n] *)
Definition str_of_int (n : Z) : string := NilZero.string_of_int (Z.to_int n).

(** *** Binary64 arithmetic, after the specification of IEEE 754 floats
  of the standard library ([SpecFloat]). *)

Definition prec : Z := 53.
Definition emax : Z := 1024.

(** [float(n)] for an integer [n]: correctly rounded, [OverflowError] when
  the integer is too large for a double. *)
Definition float_of_int (n : Z) : result spec_float :=
match binary_normalize prec emax n 0 false with
| S754_infinity _ => Raise OverflowError
| f => Ok f
end.

(** The literal [0.75] = 3 * 2^-2, with a 53 bit mantissa. *)
Definition float_0_75 : spec_float := S754_finite false 6755399441055744 (-53).

Definition float_mul (x y : spec_float) : spec_float := SFmul prec emax x y.

(** [int(x)] for a float [x]: truncation towards zero. *)
Definition int_of_float (x : spec_float) : result Z :=
match x with
| S754_zero _ => Ok 0
| S754_finite s m e =>
    let a := if 0 <=? e then Z.pos m * 2 ^ e else Z.pos m / 2 ^ (- e) in
    Ok (if s then - a else a)
| S754_infinity _ => Raise OverflowError
| S754_nan => Raise ValueError
end.

(** [n * x] for an integer [n] and a float [x]: the integer is converted
  first. *)
Definition int_times_float (n : Z) (x : spec_float) : result spec_float :=
match float_of_int n with
| Ok f => Ok (float_mul f x)
| Raise e => Raise e
end.

End Py.

(** ** Data model *)

(** A Python dictionary with its insertion order: the inner dictionaries of
    [_events] and the header dictionaries of a request. *)
Module Dict.
Section Dict.
Context {K V : Type} `{EqDecision K}.

Fixpoint set (k : K) (v : V) (d : list (K * V)) : list (K * V) :=
  match d with
  | [] => [(k, v)]
  | (k', v') :: r =>
      if decide (k = k') then (k, v) :: r else (k', v') :: set k v r
  end.

Fixpoint get (k : K) (d : list (K * V)) : option V :=
  match d with
  | [] => None
  | (k', v') :: r => if decide (k = k') then Some v' else get k r
  end.

Definition mem (k : K) (d : list (K * V)) : bool :=
  match get k d with Some _ => true | None => false end.

Definition values (d : list (K * V)) : list V := map snd d.
End Dict.
End Dict.

(** What the registry consumes from a device object.  [insight] is the
    [eventSubURL] of the insight service when the device has the attribute
    [insight], and [None] when [hasattr(device, 'insight')] is false. *)
Record Device : Type := {
  host : string;
  serialnumber : string;
  basicevent : string;
  insight : option string;
  rediscovery_enabled : bool
}.

(** The two endpoint resolvers of the module; they are the keys of the
    per-device timer dictionary. *)
Inductive SubscribeUrlFn : Type :=
  | _basic_event_subscription_url
  | _insight_event_subscription_url.

Definition call_url_fn (f : SubscribeUrlFn) (device : Device) : result string :=
  match f with
  | _basic_event_subscription_url => Ok (basicevent device)
  | _insight_event_subscription_url =>
      match insight device with
      | Some u => Ok u
      | None => Raise AttributeError
      end
  end.

(** A [sched.Event]: the delay given to [enter], the sequence number that
    makes the event unique, and the arguments of the scheduled call
    [_resubscribe(device, url_fn, sid=..., retry=...)] (an absent keyword
    takes its default, [None] and [0]). *)
Record Event : Type := {
  ev_delay : Z;
  ev_seq : nat;
  ev_device : Device;
  ev_url_fn : SubscribeUrlFn;
  ev_sid : option string;
  ev_retry : Z
}.

#[global] Instance Device_eq_dec : EqDecision Device.
Proof. solve_decision. Defined.
#[global] Instance SubscribeUrlFn_eq_dec : EqDecision SubscribeUrlFn.
Proof. solve_decision. Defined.
#[global] Instance Event_eq_dec : EqDecision Event.
Proof. solve_decision. Defined.

(** A user callback is an opaque callable; it is identified by a number. *)
Definition callback : Type := nat.

(** The answer of [requests.request]; [response.headers] is a
    case-insensitive dictionary. *)
Record Response : Type := {
  status_code : Z;
  response_headers : list (string * string)
}.

Inductive net_outcome : Type :=
  | Responds (r : Response)
  | Fails.  (* raises a [requests.exceptions.RequestException] *)

(** Calls to external collaborators, in the order they are made. *)
Inductive action : Type :=
  | HttpRequest (method url : string) (hdrs : list (string * string))
  | Reconnect (device : Device)
  | SchedEnter (e : Event)
  | SchedCancel (e : Event)
  | Callback (cb : callback) (device : Device) (type_ : string)
      (value : option string).

(** The state of a [SubscriptionRegistry], of its scheduler and of the
    world around it. *)
Record World : Type := {
  devices : gmap string Device;
  _callbacks : gmap string (list (option string * callback));
  _events : gmap string (list (SubscribeUrlFn * Event));
  _httpd : option Z;              (* the bound port, once started *)
  sched_queue : list Event;       (* pending events of [_sched] *)
  sched_counter : nat;            (* next sequence number *)
  network : nat -> net_outcome;   (* answer to the n-th request *)
  requests_made : nat;
  trace : list action
}.

(** ** A state and exception monad *)

Definition M (A : Type) : Type := World -> result A * World.

Definition ret {A} (a : A) : M A := fun w => (Ok a, w).

Definition raise {A} (e : exn) : M A := fun w => (Raise e, w).

Definition bind {A B} (m : M A) (k : A -> M B) : M B :=
  fun w =>
    match m w with
    | (Ok a, w') => k a w'
    | (Raise e, w') => (Raise e, w')
    end.

Notation "'let*' x := m 'in' k" := (bind m (fun x => k))
  (at level 10, x name, m at level 100, k at level 200).
Notation "m ;; k" := (bind m (fun _ => k))
  (at level 100, k at level 200, right associativity).

Definition lift {A} (r : result A) : M A := fun w => (r, w).

(** [try: m except e: handler] *)
Definition try_except {A} (m : M A) (e : exn) (handler : M A) : M A :=
  fun w =>
    match m w with
    | (Raise e', w') => if decide (e' = e) then handler w' else (Raise e', w')
    | r => r
    end.

Definition get_world : M World := fun w => (Ok w, w).

(** Field updates of the world. *)
Definition with_devices (f : gmap string Device -> gmap string Device)
    (w : World) : World :=
  {| devices := f (devices w); _callbacks := _callbacks w;
     _events := _events w; _httpd := _httpd w;
     sched_queue := sched_queue w; sched_counter := sched_counter w;
     network := network w; requests_made := requests_made w;
     trace := trace w |}.

Definition with_callbacks
    (f : gmap string (list (option string * callback)) ->
         gmap string (list (option string * callback)))
    (w : World) : World :=
  {| devices := devices w; _callbacks := f (_callbacks w);
     _events := _events w; _httpd := _httpd w;
     sched_queue := sched_queue w; sched_counter := sched_counter w;
     network := network w; requests_made := requests_made w;
     trace := trace w |}.

Definition with_events
    (f : gmap string (list (SubscribeUrlFn * Event)) ->
         gmap string (list (SubscribeUrlFn * Event)))
    (w : World) : World :=
  {| devices := devices w; _callbacks := _callbacks w;
     _events := f (_events w); _httpd := _httpd w;
     sched_queue := sched_queue w; sched_counter := sched_counter w;
     network := network w; requests_made := requests_made w;
     trace := trace w |}.

Definition with_httpd (p : option Z) (w : World) : World :=
  {| devices := devices w; _callbacks := _callbacks w;
     _events := _events w; _httpd := p;
     sched_queue := sched_queue w; sched_counter := sched_counter w;
     network := network w; requests_made := requests_made w;
     trace := trace w |}.

Definition with_sched (q : list Event) (n : nat) (w : World) : World :=
  {| devices := devices w; _callbacks := _callbacks w;
     _events := _events w; _httpd := _httpd w;
     sched_queue := q; sched_counter := n;
     network := network w; requests_made := requests_made w;
     trace := trace w |}.

Definition with_requests_made (n : nat) (w : World) : World :=
  {| devices := devices w; _callbacks := _callbacks w;
     _events := _events w; _httpd := _httpd w;
     sched_queue := sched_queue w; sched_counter := sched_counter w;
     network := network w; requests_made := n;
     trace := trace w |}.

Definition with_trace (t : list action) (w : World) : World :=
  {| devices := devices w; _callbacks := _callbacks w;
     _events := _events w; _httpd := _httpd w;
     sched_queue := sched_queue w; sched_counter := sched_counter w;
     network := network w; requests_made := requests_made w;
     trace := t |}.

Definition modify (f : World -> World) : M unit := fun w => (Ok tt, f w).

Definition log_action (a : action) : M unit :=
  modify (fun w => with_trace (trace w ++ [a])%list w).

(** ** The external collaborators *)

(** [requests.request(method=..., url=..., headers=..., timeout=10)] *)
Definition requests_request (method url : string)
    (hdrs : list (string * string)) : M Response :=
  log_action (HttpRequest method url hdrs) ;;
  let* w := get_world in
  modify (with_requests_made (S (requests_made w))) ;;
  match network w (requests_made w) with
  | Responds r => ret r
  | Fails => raise RequestException
  end.

(** [response.headers.get(name, default)]: header names compare without
    regard to case. *)
Definition lower (c : ascii) : ascii :=
  let n := nat_of_ascii c in
  if ((65 <=? n) && (n <=? 90))%nat then ascii_of_nat (n + 32) else c.

Fixpoint lowercase (s : string) : string :=
  match s with
  | EmptyString => EmptyString
  | String c r => String (lower c) (lowercase r)
  end.

Fixpoint header_get (name : string) (hs : list (string * string))
    : option string :=
  match hs with
  | [] => None
  | (k, v) :: r =>
      if String.eqb (lowercase k) (lowercase name) then Some v
      else header_get name r
  end.

(** [device.reconnect_with_device()] *)
Definition reconnect_with_device (device : Device) : M unit :=
  log_action (Reconnect device).

(** [scheduler.enter(delay, 0, self._resubscribe, argument=(device, url_fn),
    kwargs=...)]: the new event joins the queue and is returned. *)
Definition sched_enter (delay : Z) (device : Device) (url_fn : SubscribeUrlFn)
    (sid : option string) (retry : Z) : M Event :=
  let* w := get_world in
  let e := {| ev_delay := delay; ev_seq := sched_counter w;
              ev_device := device; ev_url_fn := url_fn;
              ev_sid := sid; ev_retry := retry |} in
  modify (with_sched (sched_queue w ++ [e])%list (S (sched_counter w))) ;;
  log_action (SchedEnter e) ;;
  ret e.

(** [l.remove(x)]: drops the first occurrence. *)
Fixpoint list_remove (e : Event) (q : list Event) : option (list Event) :=
  match q with
  | [] => None
  | x :: r =>
      if decide (x = e) then Some r
      else option_map (cons x) (list_remove e r)
  end.

(** [scheduler.cancel(event)]: [ValueError] when the event is not in the
    queue. *)
Definition sched_cancel (e : Event) : M unit :=
  log_action (SchedCancel e) ;;
  let* w := get_world in
  match list_remove e (sched_queue w) with
  | Some q => modify (with_sched q (sched_counter w))
  | None => raise ValueError
  end.

(** ** The module's functions *)

Definition SUBSCRIPTION_RETRY : Z := 60.

Fixpoint _cancel_events (events : list Event) : M unit :=
  match events with
  | [] => ret tt
  | event :: rest =>
      try_except (sched_cancel event) ValueError (ret tt) ;;
      _cancel_events rest
  end.

Section Registry.

(** [pywemo.util.get_ip_address]: the local address facing a host. *)
Variable get_ip_address : string -> string.

(** Whether [ThreadingHTTPServer(('', port), RequestHandler)] succeeds. *)
Variable bindable : Z -> bool.

Fixpoint first_bindable (ports : list Z) : option Z :=
  match ports with
  | [] => None
  | port :: rest => if bindable port then Some port else first_bindable rest
  end.

(** The value is the port of the server that was started. *)
Definition _start_server : option Z :=
  first_bindable (map (fun i => 8989 + Z.of_nat i) (seq 0 128)).

(** The property [port]: [self._httpd.server_address[1]]. *)
Definition port : M Z :=
  let* w := get_world in
  match _httpd w with
  | Some p => ret p
  | None => raise AttributeError
  end.

Definition _schedule (delay : Z) (device : Device) (url_fn : SubscribeUrlFn)
    (sid : option string) (retry : Z) : M unit :=
  let* e := sched_enter delay device url_fn sid retry in
  let* w := get_world in
  match _events w !! serialnumber device with
  | Some d =>
      modify (with_events (insert (serialnumber device) (Dict.set url_fn e d)))
  | None => raise KeyError
  end.

(** [url_fn in self._events.get(device.serialnumber, {})] *)
Definition timer_entry_exists (device : Device) (url_fn : SubscribeUrlFn)
    : M bool :=
  let* w := get_world in
  ret (Dict.mem url_fn (default [] (_events w !! serialnumber device))).

(** The value of [sid] where Python tests it for truth: a string that is
    not empty. *)
Definition truthy (sid : option string) : option string :=
  match sid with
  | Some (String c r) => Some (String c r)
  | _ => None
  end.

(** [int(timeout * 0.75)] *)
Definition three_quarters (timeout : Z) : result Z :=
  match Py.int_times_float timeout Py.float_0_75 with
  | Ok x => Py.int_of_float x
  | Raise e => Raise e
  end.

Definition _url_resubscribe
    (_resubscribe : Device -> SubscribeUrlFn -> option string -> Z -> M unit)
    (device : Device) (headers : list (string * string))
    (sid : option string)
    (url_fn : SubscribeUrlFn) : M unit :=
  let request_headers := headers in
  let* url := lift (call_url_fn url_fn device) in
  let* response := requests_request "SUBSCRIBE" url request_headers in
  match (if status_code response =? 412 then truthy sid else None) with
  | Some stale =>
      requests_request "UNSUBSCRIBE" url [("SID", stale)] ;;
      _resubscribe device url_fn None 0
  | None =>
      let* granted :=
        match header_get "TIMEOUT" (response_headers response) with
        | Some v => ret v
        | None =>
            match Dict.get "TIMEOUT" headers with
            | Some v => ret v
            | None => raise AttributeError
            end
        end in
      let* timeout := lift (Py.int (Py.replace "Second-" "" granted)) in
      let sid :=
        match header_get "sid" (response_headers response) with
        | Some v => Some v
        | None => sid
        end in
      let* present := timer_entry_exists device url_fn in
      if present then
        let* delay := lift (three_quarters timeout) in
        _schedule delay device url_fn sid 0
      else ret tt
  end.

(** The recursion of [_resubscribe] through [_url_resubscribe] is bounded
    by the interpreter's recursion limit, here [fuel]. *)
Fixpoint _resubscribe (fuel : nat) (device : Device)
    (url_fn : SubscribeUrlFn) (sid : option string) (retry : Z) : M unit :=
  match fuel with
  | O => raise RecursionError
  | S fuel' =>
      let* url := lift (call_url_fn url_fn device) in
      let path := Py.last_item (Py.rsplit "/" url) in
      let headers := [("TIMEOUT", "Second-300")] in
      let* headers :=
        match sid with
        | Some s => ret (Dict.set "SID" s headers)
        | None =>
            let host_ := get_ip_address (host device) in
            let* port_ := port in
            ret (Dict.set "NT" "upnp:event"
                   (Dict.set "CALLBACK"
                      (String.concat ""
                         ["<http://"; host_; ":"; Py.str_of_int port_;
                          "/"; path; ">"])
                      headers))
        end in
      try_except
        (_url_resubscribe (_resubscribe fuel') device headers sid url_fn)
        RequestException
        (let retry := retry + 1 in
         (if 1 <? retry then
            if rediscovery_enabled device
            then reconnect_with_device device else ret tt
          else ret tt) ;;
         let* present := timer_entry_exists device url_fn in
         if present
         then _schedule SUBSCRIPTION_RETRY device url_fn sid retry
         else ret tt)
  end.

(** *** The two parts of an attempt

    [_resubscribe] sends its requests without holding
    [self._event_thread_cond] and takes the lock only for its last
    statement, the [with] block that tests the timer entry and schedules.
    Between the two, [register] and [unregister] can run in another thread.
    The attempt is therefore also given in two parts: the statements up to
    the [with] block, whose value says which block is reached and with what,
    and the block. *)

(** The [with] block that an attempt has reached: the one of
    [_url_resubscribe], with the granted timeout and the SID to carry, or
    the one of the [except] clause of [_resubscribe], with the SID and the
    count of failures. *)
Inductive Rescheduling : Type :=
  | Renew (timeout : Z) (sid : option string)
  | Retry (sid : option string) (retry : Z).

(** [_url_resubscribe] up to its [with] block. *)
Definition _url_resubscribe_requests
    (_resubscribe_requests :
       Device -> SubscribeUrlFn -> option string -> Z -> M Rescheduling)
    (device : Device) (headers : list (string * string))
    (sid : option string)
    (url_fn : SubscribeUrlFn) : M Rescheduling :=
  let request_headers := headers in
  let* url := lift (call_url_fn url_fn device) in
  let* response := requests_request "SUBSCRIBE" url request_headers in
  match (if status_code response =? 412 then truthy sid else None) with
  | Some stale =>
      requests_request "UNSUBSCRIBE" url [("SID", stale)] ;;
      _resubscribe_requests device url_fn None 0
  | None =>
      let* granted :=
        match header_get "TIMEOUT" (response_headers response) with
        | Some v => ret v
        | None =>
            match Dict.get "TIMEOUT" headers with
            | Some v => ret v
            | None => raise AttributeError
            end
        end in
      let* timeout := lift (Py.int (Py.replace "Second-" "" granted)) in
      let sid :=
        match header_get "sid" (response_headers response) with
        | Some v => Some v
        | None => sid
        end in
      ret (Renew timeout sid)
  end.

(** [_resubscribe] up to the [with] block that the attempt reaches. *)
Fixpoint _resubscribe_requests (fuel : nat) (device : Device)
    (url_fn : SubscribeUrlFn) (sid : option string) (retry : Z)
    : M Rescheduling :=
  match fuel with
  | O => raise RecursionError
  | S fuel' =>
      let* url := lift (call_url_fn url_fn device) in
      let path := Py.last_item (Py.rsplit "/" url) in
      let headers := [("TIMEOUT", "Second-300")] in
      let* headers :=
        match sid with
        | Some s => ret (Dict.set "SID" s headers)
        | None =>
            let host_ := get_ip_address (host device) in
            let* port_ := port in
            ret (Dict.set "NT" "upnp:event"
                   (Dict.set "CALLBACK"
                      (String.concat ""
                         ["<http://"; host_; ":"; Py.str_of_int port_;
                          "/"; path; ">"])
                      headers))
        end in
      try_except
        (_url_resubscribe_requests (_resubscribe_requests fuel')
           device headers sid url_fn)
        RequestException
        (let retry := retry + 1 in
         (if 1 <? retry then
            if rediscovery_enabled device
            then reconnect_with_device device else ret tt
          else ret tt) ;;
         ret (Retry sid retry))
  end.

(** The [with self._event_thread_cond:] block at the end of an attempt. *)
Definition _resubscribe_locked (device : Device) (url_fn : SubscribeUrlFn)
    (r : Rescheduling) : M unit :=
  let* present := timer_entry_exists device url_fn in
  if present then
    match r with
    | Renew timeout sid =>
        let* delay := lift (three_quarters timeout) in
        _schedule delay device url_fn sid 0
    | Retry sid retry =>
        _schedule SUBSCRIPTION_RETRY device url_fn sid retry
    end
  else ret tt.

(** [register(device)]; a device that is not truthy is [None]. *)
Definition register (device : option Device) : M unit :=
  match device with
  | None => ret tt
  | Some device =>
      modify (with_devices (insert (host device) device)) ;;
      modify (with_events (insert (serialnumber device) [])) ;;
      _schedule 0 device _basic_event_subscription_url None 0 ;;
      match insight device with
      | Some _ => _schedule 0 device _insight_event_subscription_url None 0
      | None => ret tt
      end
  end.

(** [self._callbacks[key]] on the [defaultdict(list)]: a missing key is
    inserted with an empty list. *)
Definition callbacks_getitem (key : string)
    : M (list (option string * callback)) :=
  let* w := get_world in
  match _callbacks w !! key with
  | Some l => ret l
  | None => modify (with_callbacks (insert key [])) ;; ret []
  end.

(** [self.devices[key]] on the plain dictionary. *)
Definition devices_getitem (key : string) : M Device :=
  let* w := get_world in
  match devices w !! key with
  | Some d => ret d
  | None => raise KeyError
  end.

Definition unregister (device : option Device) : M unit :=
  match device with
  | None => ret tt
  | Some device =>
      callbacks_getitem (serialnumber device) ;;
      modify (with_callbacks (delete (serialnumber device))) ;;
      let* w := get_world in
      match _events w !! serialnumber device with
      | Some events =>
          _cancel_events (Dict.values events) ;;
          modify (with_events (delete (serialnumber device)))
      | None => ret tt
      end ;;
      devices_getitem (host device) ;;
      modify (with_devices (delete (host device)))
  end.

Fixpoint invoke_matching (device : Device) (type_ : string)
    (value : option string) (cbs : list (option string * callback))
    : M unit :=
  match cbs with
  | [] => ret tt
  | (type_filter, cb) :: rest =>
      (if match type_filter with
          | None => true
          | Some f => String.eqb type_ f
          end
       then log_action (Callback cb device type_ value)
       else ret tt) ;;
      invoke_matching device type_ value rest
  end.

Definition event (device : Device) (type_ : string) (value : option string)
    : M unit :=
  let* w := get_world in
  invoke_matching device type_ value
    (default [] (_callbacks w !! serialnumber device)).

Definition on (device : Device) (type_filter : option string)
    (cb : callback) : M unit :=
  let* l := callbacks_getitem (serialnumber device) in
  modify (with_callbacks
            (insert (serialnumber device) (l ++ [(type_filter, cb)])%list)).

Definition start : M unit :=
  match _start_server with
  | Some p => modify (with_httpd (Some p))
  | None => raise SubscriptionRegistryFailed
  end.

(** One step of [self._sched.run()]: a pending event leaves the queue and
    its action is called with its arguments.  The attempt runs to its end:
    no other thread acts between its requests and its locked block (for
    the runs in which they do, see [run_step]). *)
Definition run_event (fuel : nat) (e : Event) : M unit :=
  let* w := get_world in
  match list_remove e (sched_queue w) with
  | Some q =>
      modify (with_sched q (sched_counter w)) ;;
      _resubscribe fuel (ev_device e) (ev_url_fn e) (ev_sid e) (ev_retry e)
  | None => ret tt
  end.

End Registry.

(** ** The HTTP request handlers *)

Set Warnings "-register-all".

(** An element of a parsed XML document: tag, text, children.  The
    children are elements: comments and processing instructions, which
    lxml also lists among the children of an element, are not
    represented. *)
Inductive element : Type :=
  | Element (tag : string) (text : option string) (children : list element).

Definition tag (e : element) : string :=
  match e with Element t _ _ => t end.
Definition text (e : element) : option string :=
  match e with Element _ t _ => t end.
Definition children (e : element) : list element :=
  match e with Element _ _ cs => cs end.

(** The descendants of an element in document order. *)
Fixpoint descendants (e : element) : list element :=
  match e with
  | Element _ _ cs => List.flat_map (fun c => c :: descendants c) cs
  end.

(** [doc.findall('./' + name)]: the children with that tag. *)
Definition findall_children (name : string) (doc : element) : list element :=
  List.filter (fun c => String.eqb (tag c) name) (children doc).

(** [doc.find('.//' + name)]: the first descendant with that tag. *)
Definition find_descendant (name : string) (doc : element) : option element :=
  List.find (fun c => String.eqb (tag c) name) (descendants doc).

(** A request as the handler sees it: the peer's address, the request path,
    the headers, and the bytes that follow the headers on the connection
    until the peer closes its side. *)
Record Request : Type := {
  client_address : string;
  path : string;
  request_headers : list (string * string);
  rfile : string
}.

(** What a handler sends: status code, the headers it sets (the server
    adds its own [Server] and [Date]), and the body. *)
Record HttpResponse : Type := {
  code : Z;
  sent_headers : list (string * string);
  body : string
}.

Definition dq : string := String "034"%char EmptyString.

Definition EVENT_TYPE_LONG_PRESS : string := "LongPress".
Definition NS : string := "{urn:schemas-upnp-org:event-1-0}".
Definition RESPONSE_SUCCESS : string :=
  "<html><body><h1>200 OK</h1></body></html>".
Definition RESPONSE_NOT_FOUND : string :=
  "<html><body><h1>404 Not Found</h1></body></html>".

Section Handlers.

(** Whether the interpreter can allocate a [bytes] object of the given
    length. *)
Variable allocates : Z -> bool.

(** [lxml.etree.fromstring]: [None] stands for an [XMLSyntaxError]. *)
Variable fromstring : string -> option element.

(** [pywemo.ouimeaux_device.api.long_press.VIRTUAL_DEVICE_UDN] *)
Variable VIRTUAL_DEVICE_UDN : string.

Definition VIRTUAL_SETUP_XML : string :=
  String.concat "" [
"<?xml version="; dq; "1.0"; dq; "?>
<root xmlns="; dq; "urn:Belkin:device-1-0"; dq; ">
  <specVersion>
    <major>1</major>
    <minor>0</minor>
  </specVersion>
  <device>
    <deviceType>urn:Belkin:device:switch:1</deviceType>
    <friendlyName>pywemo virtual device</friendlyName>
    <manufacturer>pywemo</manufacturer>
    <manufacturerURL>https://github.com/pavoni/pywemo</manufacturerURL>
    <modelDescription>pywemo virtual device</modelDescription>
    <modelName>LightSwitch</modelName>
    <modelNumber>1.0</modelNumber>
    <hwVersion>v1</hwVersion>
    <modelURL>http://www.belkin.com/plugin/</modelURL>
    <serialNumber>VirtualDevice</serialNumber>
    <UDN>"; VIRTUAL_DEVICE_UDN; "</UDN>
    <binaryState>0</binaryState>
    <serviceList>
      <service>
        <serviceType>urn:Belkin:service:basicevent:1</serviceType>
        <serviceId>urn:Belkin:serviceId:basicevent1</serviceId>
        <controlURL>/upnp/control/basicevent1</controlURL>
        <eventSubURL>/upnp/event/basicevent1</eventSubURL>
        <SCPDURL>/eventservice.xml</SCPDURL>
      </service>
    </serviceList>
</device>
</root>"].

Definition _send_response (code_ : Z) (body_ : string)
    (content_type : string) : M HttpResponse :=
  ret {| code := code_;
         sent_headers :=
           [("Content-Type", content_type);
            ("Content-Length",
             Py.str_of_int (Z.of_nat (String.length body_)));
            ("Connection", "close")];
         body := body_ |}.

(** [self.rfile.read(n)] on the buffered reader of the connection, whose
    remaining bytes are [r]: the length is converted to a [Py_ssize_t] (64
    bits), which raises [OverflowError] when it does not fit; [-1] reads
    to the end of the stream and another negative length is a
    [ValueError]; otherwise a [bytes] object of [n] bytes is allocated,
    which raises [OverflowError] when [n] is too large for a [bytes]
    object and [MemoryError] when the memory is not there, and at most [n]
    bytes are read. *)
Definition rfile_read (n : Z) (r : string) : result string :=
  if (n <? - 2 ^ 63) || (2 ^ 63 - 33 <=? n) then Raise OverflowError
  else if n <? -1 then Raise ValueError
  else if n =? -1 then Ok r
  else if allocates n then
    Ok (String.substring 0
          (Z.to_nat (Z.min n (Z.of_nat (String.length r)))) r)
  else Raise MemoryError.

Definition _get_xml_from_http_body (req : Request) : M element :=
  let* content_len :=
    match header_get "content-length" (request_headers req) with
    | Some v => lift (Py.int v)
    | None => ret 0
    end in
  let* data := lift (rfile_read content_len (rfile req)) in
  let data := Py.strip Py.is_ascii_space data in
  match fromstring data with
  | Some doc => ret doc
  | None => raise XMLSyntaxError
  end.

Fixpoint for_each {A} (l : list A) (f : A -> M unit) : M unit :=
  match l with
  | [] => ret tt
  | x :: r => f x ;; for_each r f
  end.

Definition do_NOTIFY (req : Request) : M HttpResponse :=
  let sender_ip := client_address req in
  let* outer := get_world in
  match devices outer !! sender_ip with
  | None => ret tt
  | Some device =>
      let* doc := _get_xml_from_http_body req in
      for_each (findall_children (String.append NS "property") doc)
        (fun propnode =>
           for_each (children propnode)
             (fun property_ =>
                event device (tag property_) (text property_)))
  end ;;
  _send_response 200 RESPONSE_SUCCESS "text/html".

Definition do_GET (req : Request) : M HttpResponse :=
  if Py.endswith (path req) "/setup.xml"
  then _send_response 200 VIRTUAL_SETUP_XML "text/xml"
  else _send_response 404 RESPONSE_NOT_FOUND "text/html".

Definition do_POST (req : Request) : M HttpResponse :=
  if Py.endswith (path req) "/upnp/control/basicevent1" then
    let sender_ip := client_address req in
    let* outer := get_world in
    match devices outer !! sender_ip with
    | None => ret tt
    | Some device =>
        let* doc := _get_xml_from_http_body req in
        match find_descendant "BinaryState" doc with
        | Some binary_state =>
            event device EVENT_TYPE_LONG_PRESS (text binary_state)
        | None => ret tt
        end
    end ;;
    _send_response 200 RESPONSE_SUCCESS "text/html"
  else _send_response 404 RESPONSE_NOT_FOUND "text/html".

Definition do_SUBSCRIBE (req : Request) : M HttpResponse :=
  if Py.endswith (path req) "/upnp/event/basicevent1" then
    ret {| code := 200;
           sent_headers :=
             [("CONTENT-LENGTH", "0");
              ("TIMEOUT", "Second-1801");
              ("SID", "uuid:a74b23d5-34b9-4f71-9f87-bed24353f304");
              ("Connection", "close")];
           body := "" |}
  else _send_response 404 RESPONSE_NOT_FOUND "text/html".

End Handlers.

(** * Vocabulary of the statements, and example data *)

(** The test [type_filter is None or type_ == type_filter]. *)
Definition matches (type_ : string) (entry : option string * callback)
    : bool :=
  match fst entry with
  | None => true
  | Some f => String.eqb type_ f
  end.

(** [self._callbacks.get(device.serialnumber, ())] *)
Definition callbacks_of (w : World) (device : Device)
    : list (option string * callback) :=
  default [] (_callbacks w !! serialnumber device).

(** A sequence of calls of [on], in order. *)
Fixpoint on_all (regs : list (Device * option string * callback)) : M unit :=
  match regs with
  | [] => ret tt
  | (device, type_filter, cb) :: rest =>
      on device type_filter cb ;; on_all rest
  end.

(** The entries that a sequence of [on] calls appends for one serial
    number. *)
Definition appended_for (serial : string)
    (regs : list (Device * option string * callback))
    : list (option string * callback) :=
  map (fun r => (snd (fst r), snd r))
    (List.filter
       (fun r => bool_decide (serialnumber (fst (fst r)) = serial)) regs).

(** The value of a decimal numeral read from the left with an
    accumulator. *)
Fixpoint uint_value (acc : Z) (u : uint) : Z :=
  match u with
  | Nil => acc
  | D0 u => uint_value (10 * acc + 0) u
  | D1 u => uint_value (10 * acc + 1) u
  | D2 u => uint_value (10 * acc + 2) u
  | D3 u => uint_value (10 * acc + 3) u
  | D4 u => uint_value (10 * acc + 4) u
  | D5 u => uint_value (10 * acc + 5) u
  | D6 u => uint_value (10 * acc + 6) u
  | D7 u => uint_value (10 * acc + 7) u
  | D8 u => uint_value (10 * acc + 8) u
  | D9 u => uint_value (10 * acc + 9) u
  end.

(** Whether the timer dictionary of the device has the endpoint as a key. *)
Definition timer_entry (w : World) (device : Device)
    (url_fn : SubscribeUrlFn) : bool :=
  Dict.mem url_fn (default [] (_events w !! serialnumber device)).

(** The event that [enter] creates in a given state. *)
Definition next_event (w : World) (delay : Z) (device : Device)
    (url_fn : SubscribeUrlFn) (sid : option string) (retry : Z) : Event :=
  {| ev_delay := delay; ev_seq := sched_counter w; ev_device := device;
     ev_url_fn := url_fn; ev_sid := sid; ev_retry := retry |}.

(** The headers [_resubscribe] builds, on a registry listening on port
    [p]. *)
Definition subscribe_headers (get_ip_address : string -> string) (p : Z)
    (device : Device) (url : string) (sid : option string)
    : list (string * string) :=
  match sid with
  | Some s => [("TIMEOUT", "Second-300"); ("SID", s)]
  | None =>
      [("TIMEOUT", "Second-300");
       ("CALLBACK",
        String.concat ""
          ["<http://"; get_ip_address (host device); ":"; Py.str_of_int p;
           "/"; Py.last_item (Py.rsplit "/" url); ">"]);
       ("NT", "upnp:event")]
  end.

(** The state once a request was sent. *)
Definition after_request (a : action) (w : World) : World :=
  with_requests_made (S (requests_made w)) (with_trace (trace w ++ [a])%list w).

(** The state once [_schedule] entered and recorded the event [e]. *)
Definition after_schedule (e : Event) (w : World) : World :=
  with_events
    (insert (serialnumber (ev_device e))
       (Dict.set (ev_url_fn e) e
          (default [] (_events w !! serialnumber (ev_device e)))))
    (with_trace (trace w ++ [SchedEnter e])%list
       (with_sched (sched_queue w ++ [e])%list (S (sched_counter w)) w)).

(** The [except] clause of [_resubscribe]. *)
Definition retry_handler (device : Device) (url_fn : SubscribeUrlFn)
    (sid : option string) (retry : Z) : M unit :=
  (let retry := retry + 1 in
   (if 1 <? retry then
      if rediscovery_enabled device
      then reconnect_with_device device else ret tt
    else ret tt) ;;
   let* present := timer_entry_exists device url_fn in
   if present
   then _schedule SUBSCRIPTION_RETRY device url_fn sid retry
   else ret tt).

(** The header value that [_url_resubscribe] parses: the response's
    [TIMEOUT], else the request's. *)
Definition granted_timeout (hdrs : list (string * string)) (r : Response)
    : option string :=
  match header_get "TIMEOUT" (response_headers r) with
  | Some v => Some v
  | None => Dict.get "TIMEOUT" hdrs
  end.

(** [response.headers.get('sid', sid)] *)
Definition carried_sid (r : Response) (sid : option string) : option string :=
  match header_get "sid" (response_headers r) with
  | Some v => Some v
  | None => sid
  end.

(** The response takes the path after the test
    [response.status_code == 412 and sid]. *)
Definition accepted (r : Response) (sid : option string) : Prop :=
  (if status_code r =? 412 then truthy sid else None) = None.

(** The state once the reconnect operation of the device was called. *)
Definition after_reconnect (device : Device) (w : World) : World :=
  with_trace (trace w ++ [Reconnect device])%list w.

(** The ways in which an attempt meets a transport error, with the
    requests made until then: the SUBSCRIBE request fails, or it is answered
    412 while a SID is held and the UNSUBSCRIBE request fails. *)
Inductive transport_failure (w : World) (sid : option string)
    (url : string) (hdrs : list (string * string)) : list action -> Prop :=
  | subscribe_fails :
      network w (requests_made w) = Fails ->
      transport_failure w sid url hdrs [HttpRequest "SUBSCRIBE" url hdrs]
  | unsubscribe_fails (r : Response) (stale : string) :
      network w (requests_made w) = Responds r ->
      status_code r = 412 ->
      truthy sid = Some stale ->
      network w (S (requests_made w)) = Fails ->
      transport_failure w sid url hdrs
        [HttpRequest "SUBSCRIBE" url hdrs;
         HttpRequest "UNSUBSCRIBE" url [("SID", stale)]].

(** The request methods the handler class serves; the HTTP server calls
    [do_<METHOD>]. *)
Inductive verb : Type := NOTIFY | GET | POST | SUBSCRIBE.

(** The handler for a request method. *)
Definition handle (allocates : Z -> bool)
    (fromstring : string -> option element)
    (VIRTUAL_DEVICE_UDN : string) (v : verb) : Request -> M HttpResponse :=
  match v with
  | NOTIFY => do_NOTIFY allocates fromstring
  | GET => do_GET VIRTUAL_DEVICE_UDN
  | POST => do_POST allocates fromstring
  | SUBSCRIBE => do_SUBSCRIBE
  end.

(** The content type that the handlers give to a response. *)
Definition content_type_of (v : verb) (resp : HttpResponse) : option string :=
  match v with
  | SUBSCRIBE => if code resp =? 200 then None else Some "text/html"
  | GET => if code resp =? 200 then Some "text/xml" else Some "text/html"
  | _ => Some "text/html"
  end.

(** [_send_response(200, RESPONSE_SUCCESS)] *)
Definition success_response : HttpResponse :=
  {| code := 200;
     sent_headers :=
       [("Content-Type", "text/html"); ("Content-Length", "41");
        ("Connection", "close")];
     body := RESPONSE_SUCCESS |}.

(** The state after [SubscriptionRegistry()]. *)
Definition new_registry (net : nat -> net_outcome) : World :=
  {| devices := ∅; _callbacks := ∅; _events := ∅; _httpd := None;
     sched_queue := []; sched_counter := 0;
     network := net; requests_made := 0; trace := [] |}.

(** A registry whose listener is bound to port 8989. *)
Definition started (net : nat -> net_outcome) : World :=
  with_httpd (Some 8989) (new_registry net).

(** A switch without the insight service. *)
Definition plug : Device :=
  {| host := "192.168.1.20"; serialnumber := "221517K0101769";
     basicevent := "http://192.168.1.20:49153/upnp/event/basicevent1";
     insight := None; rediscovery_enabled := true |}.

(** The local address, whatever the host. *)
Definition local_ip (h : string) : string := "192.168.1.2".

(** The started registry after [register(plug)]. *)
Definition registered (net : nat -> net_outcome) : World :=
  snd (register (Some plug) (started net)).

(** No request gets through. *)
Definition unreachable : nat -> net_outcome := fun _ => Fails.

(** An answer granting 400 seconds under a new SID. *)
Definition response_400 : Response :=
  {| status_code := 200;
     response_headers :=
       [("TIMEOUT", "Second-400"); ("SID", "uuid:new")] |}.

Definition grants_400 : nat -> net_outcome := fun _ => Responds response_400.

(** The pending events of the scheduler that resubscribe one endpoint of
    one serial number. *)
Definition pending (w : World) (serial : string) (url_fn : SubscribeUrlFn)
    : list Event :=
  List.filter
    (fun e => bool_decide (serialnumber (ev_device e) = serial)
              && bool_decide (ev_url_fn e = url_fn))
    (sched_queue w).

(** A SUBSCRIBE answer that grants 2^1024 seconds. *)
Definition huge_timeout : Response :=
  {| status_code := 200;
     response_headers :=
       [("TIMEOUT",
         String.append "Second-"
           (NilEmpty.string_of_uint (N.to_uint (2 ^ 1024))))] |}.

Definition grants_huge : nat -> net_outcome := fun _ => Responds huge_timeout.

(** The device answers 412 to the first request; the second request does
    not get through. *)
Definition stale_then_down : nat -> net_outcome :=
  fun n =>
    match n with
    | O => Responds {| status_code := 412; response_headers := [] |}
    | _ => Fails
    end.

(** The device answers 412 to the first request and 200 afterwards. *)
Definition stale_then_up : nat -> net_outcome :=
  fun n =>
    match n with
    | O => Responds {| status_code := 412; response_headers := [] |}
    | _ => Responds response_400
    end.

(** An answer whose [TIMEOUT] is not a number. *)
Definition response_not_integer : Response :=
  {| status_code := 200;
     response_headers := [("TIMEOUT", "Second-abc")] |}.

(** An answer without [TIMEOUT]. *)
Definition response_no_timeout : Response :=
  {| status_code := 200; response_headers := [("SID", "uuid:new")] |}.

(** A machine that allocates up to 2^30 bytes at a time. *)
Definition roomy : Z -> bool := fun n => n <=? 2 ^ 30.

(** The parser on a body that is not well-formed. *)
Definition no_document : string -> option element := fun _ => None.

(** A parser that knows one document: an empty property set. *)
Definition empty_propertyset : element :=
  Element "{urn:schemas-upnp-org:event-1-0}propertyset" None [].

Definition one_document (data : string) : option element :=
  if String.eqb data "<e:propertyset/>" then Some empty_propertyset else None.

(** A NOTIFY from the plug whose body is not XML. *)
Definition notify_garbage : Request :=
  {| client_address := "192.168.1.20"; path := "/";
     request_headers := [("Content-Length", "7")];
     rfile := "not xml" |}.

(** A NOTIFY from the plug with an empty property set. *)
Definition notify_empty : Request :=
  {| client_address := "192.168.1.20"; path := "/";
     request_headers := [("Content-Length", "16")];
     rfile := "<e:propertyset/>" |}.

(** A SUBSCRIBE to the virtual device. *)
Definition subscribe_virtual : Request :=
  {| client_address := "192.168.1.20";
     path := "/upnp/event/basicevent1";
     request_headers := []; rfile := "" |}.

(** A NOTIFY from the plug with an empty property set and the given
    [Content-Length]. *)
Definition notify_of_length (length_ : string) : Request :=
  {| client_address := "192.168.1.20"; path := "/";
     request_headers := [("Content-Length", length_)];
     rfile := "<e:propertyset/>" |}.

(** What [do_SUBSCRIBE] sends for the event path of the virtual device. *)
Definition subscribed_response : HttpResponse :=
  {| code := 200;
     sent_headers :=
       [("CONTENT-LENGTH", "0");
        ("TIMEOUT", "Second-1801");
        ("SID", "uuid:a74b23d5-34b9-4f71-9f87-bed24353f304");
        ("Connection", "close")];
     body := "" |}.

(** The registry after [register(plug)] was called twice. *)
Definition registered_twice : World :=
  snd ((register (Some plug) ;; register (Some plug)) (started grants_400)).

(** The event that the first [register(plug)] entered. *)
Definition first_timer : Event :=
  {| ev_delay := 0; ev_seq := 0; ev_device := plug;
     ev_url_fn := _basic_event_subscription_url;
     ev_sid := None; ev_retry := 0 |}.

(** The event that the second [register(plug)] entered. *)
Definition second_timer : Event :=
  {| ev_delay := 0; ev_seq := 1; ev_device := plug;
     ev_url_fn := _basic_event_subscription_url;
     ev_sid := None; ev_retry := 0 |}.

(** The event is the one recorded in [_events] for its serial number and
    endpoint. *)
Definition recorded (w : World) (e : Event) : Prop :=
  exists d,
    _events w !! serialnumber (ev_device e) = Some d
    /\ Dict.get (ev_url_fn e) d = Some e.

(** The timers are in order: every pending event is the recorded one of
    its device and endpoint, carries a sequence number that was given out,
    and is in the queue once. *)
Record timers_ok (w : World) : Prop := {
  pending_recorded : forall e, e ∈ sched_queue w -> recorded w e;
  pending_numbered :
    forall e, e ∈ sched_queue w -> (ev_seq e < sched_counter w)%nat;
  pending_once : NoDup (sched_queue w)
}.

(** Two states with the same registry and scheduler. *)
Definition same_registry (w1 w : World) : Prop :=
  devices w1 = devices w /\ _callbacks w1 = _callbacks w
  /\ _httpd w1 = _httpd w /\ _events w1 = _events w
  /\ sched_queue w1 = sched_queue w /\ sched_counter w1 = sched_counter w.

(** What a call of [_resubscribe] for a device and an endpoint does to the
    registry and the scheduler: nothing, or it enters and records one event
    for that device and endpoint, whose timer entry exists. *)
Definition enters_at_most_one (device : Device) (url_fn : SubscribeUrlFn)
    (w w' : World) : Prop :=
  same_registry w' w
  \/ exists delay sid retry,
      timer_entry w device url_fn = true
      /\ devices w' = devices w /\ _callbacks w' = _callbacks w
      /\ _httpd w' = _httpd w
      /\ sched_queue w'
         = (sched_queue w
            ++ [next_event w delay device url_fn sid retry])%list
      /\ _events w'
         = <[serialnumber device :=
               Dict.set url_fn (next_event w delay device url_fn sid retry)
                 (default [] (_events w !! serialnumber device))]>
             (_events w)
      /\ sched_counter w' = S (sched_counter w).

(** The operations on a registry: the public methods, and the scheduler
    running a pending event. *)
Inductive operation : Type :=
  | Register (device : Device)
  | Unregister (device : Device)
  | On (device : Device) (type_filter : option string) (cb : callback)
  | EventFor (device : Device) (type_ : string) (value : option string)
  | Start
  | RunEvent (e : Event).

Definition perform (get_ip_address : string -> string)
    (bindable : Z -> bool) (fuel : nat) (op : operation) : M unit :=
  match op with
  | Register device => register (Some device)
  | Unregister device => unregister (Some device)
  | On device type_filter cb => on device type_filter cb
  | EventFor device type_ value => event device type_ value
  | Start => start bindable
  | RunEvent e => run_event get_ip_address fuel e
  end.

(** [register] is called for a serial number that has no timer
    dictionary. *)
Definition first_registration (w : World) (op : operation) : Prop :=
  match op with
  | Register device => _events w !! serialnumber device = None
  | _ => True
  end.

(** The state after a sequence of operations that follow one another,
    whether they raise or not. *)
Fixpoint perform_all (get_ip_address : string -> string)
    (bindable : Z -> bool) (fuel : nat) (ops : list operation) (w : World)
    : World :=
  match ops with
  | [] => w
  | op :: rest =>
      perform_all get_ip_address bindable fuel rest
        (snd (perform get_ip_address bindable fuel op w))
  end.

(** Every [register] of the sequence is a first registration. *)
Fixpoint first_registrations (get_ip_address : string -> string)
    (bindable : Z -> bool) (fuel : nat) (ops : list operation) (w : World)
    : Prop :=
  match ops with
  | [] => True
  | op :: rest =>
      first_registration w op
      /\ first_registrations get_ip_address bindable fuel rest
           (snd (perform get_ip_address bindable fuel op w))
  end.

(** * The rest of the module *)

(** ** [stop] *)

(** The registry with the flag [self._exiting], which [stop] sets for the
    event thread. *)
Record RegistryState : Type := {
  world : World;
  _exiting : bool
}.

(** The state after [SubscriptionRegistry()], with its flag. *)
Definition new_registry_state (net : nat -> net_outcome) : RegistryState :=
  {| world := new_registry net; _exiting := false |}.

(** [stop()] up to [self.join()], which waits for the two threads.
    [visited] is [self._events.values()]: the timer dictionaries, in the
    order in which the outer dictionary yields them (its insertion order,
    which the finite map does not keep).  [self._httpd.shutdown()] is an
    attribute lookup on [None] when the registry was not started. *)
Definition stop (visited : list (list (SubscribeUrlFn * Event)))
    (r : RegistryState) : result unit * RegistryState :=
  match _httpd (world r) with
  | None => (Raise AttributeError, r)
  | Some _ =>
      let out :=
        for_each visited
          (fun device_events => _cancel_events (Dict.values device_events))
          (world r) in
      (fst out, {| world := snd out; _exiting := true |})
  end.

(** ** [SOAPFault] ([pywemo/exceptions.py]) *)

(** The elements that a path of child steps selects from a list of context
    elements, in document order. *)
Fixpoint select (steps : list string) (context : list element)
    : list element :=
  match steps with
  | [] => context
  | step :: rest => select rest (List.flat_map (findall_children step) context)
  end.

(** [element.findtext(path)] for a path of child steps [a/b/c]: the text of
    the first element selected, the empty string when it has no text, and
    [None] when nothing is selected. *)
Definition findtext (path_ : string) (e : element) : option string :=
  match select (Py.split "/" path_) [e] with
  | [] => None
  | el :: _ => Some (default "" (text el))
  end.

(** [str(x)] in an f-string, for a value that is a string or [None]. *)
Definition format_value (x : option string) : string := default "None" x.

(** The attributes of a [SOAPFault]; [args] is the message given to
    [Exception.__init__]. *)
Record SOAPFault : Type := {
  fault_code : option string;
  fault_string : option string;
  error_code : option string;
  error_description : option string;
  args : string
}.

Definition upnp_error_prefix : string :=
  String.concat ""
    ["detail";
     "/{urn:schemas-upnp-org:control-1-0}UPnPError/";
     "{urn:schemas-upnp-org:control-1-0}"].

(** [SOAPFault.__init__(fault_element)] *)
Definition SOAPFault_init (fault_element : element) : SOAPFault :=
  let fault_code_ := findtext "faultcode" fault_element in
  let fault_string_ := findtext "faultstring" fault_element in
  let error_code_ :=
    findtext (String.append upnp_error_prefix "errorCode") fault_element in
  let error_description_ :=
    findtext (String.append upnp_error_prefix "errorDescription")
      fault_element in
  {| fault_code := fault_code_;
     fault_string := fault_string_;
     error_code := error_code_;
     error_description := error_description_;
     args :=
       String.concat ""
         ["SOAP Fault "; format_value fault_code_; ":";
          format_value fault_string_; ", ";
          format_value error_code_; ":";
          format_value error_description_] |}.

(** ** Vocabulary of the further statements *)

(** [_send_response(404, RESPONSE_NOT_FOUND)] *)
Definition not_found_response : HttpResponse :=
  {| code := 404;
     sent_headers :=
       [("Content-Type", "text/html"); ("Content-Length", "48");
        ("Connection", "close")];
     body := RESPONSE_NOT_FOUND |}.

(** The calls that [event(device, type_, value)] makes in a state. *)
Definition calls_for (w : World) (device : Device) (type_ : string)
    (value : option string) : list action :=
  map (fun entry => Callback (snd entry) device type_ value)
    (List.filter (matches type_) (callbacks_of w device)).

(** The calls that a NOTIFY with the document [doc] leads to: for each
    [property] child of the root, for each of its children, the calls of
    the event whose type is the child's tag and whose value is its text. *)
Definition notify_calls (w : World) (device : Device) (doc : element)
    : list action :=
  List.flat_map
    (fun propnode =>
       List.flat_map
         (fun property_ =>
            calls_for w device (tag property_) (text property_))
         (children propnode))
    (findall_children (String.append NS "property") doc).

(** The path suffix under which a request method is served; NOTIFY is
    served under every path. *)
Definition served_suffix (v : verb) : string :=
  match v with
  | NOTIFY => ""
  | GET => "/setup.xml"
  | POST => "/upnp/control/basicevent1"
  | SUBSCRIBE => "/upnp/event/basicevent1"
  end.

(** The action is a call of a callback with the given device. *)
Definition is_callback_for (device : Device) (a : action) : Prop :=
  exists cb type_ value, a = Callback cb device type_ value.

(** The character occurs in the string. *)
Fixpoint occurs (c : ascii) (s : string) : bool :=
  match s with
  | EmptyString => false
  | String a r => Ascii.eqb a c || occurs c r
  end.

(** A SOAP fault as a device sends it: fault code, fault string, and the
    UPnP error with its code and description, followed by whatever other
    elements. *)
Definition upnp_fault (code_ string_ error_code_ error_description_
    : option string) (others : list element) : element :=
  Element "{http://schemas.xmlsoap.org/soap/envelope/}Fault" None
    (Element "faultcode" code_ []
     :: Element "faultstring" string_ []
     :: Element "detail" None
          [Element "{urn:schemas-upnp-org:control-1-0}UPnPError" None
             [Element "{urn:schemas-upnp-org:control-1-0}errorCode"
                error_code_ [];
              Element "{urn:schemas-upnp-org:control-1-0}errorDescription"
                error_description_ []]]
     :: others).

(** Every event of a timer dictionary is an event of the serial number
    the dictionary is kept under. *)
Definition filed_by_serial (w : World) : Prop :=
  forall serial d e,
    _events w !! serial = Some d ->
    e ∈ Dict.values d ->
    serialnumber (ev_device e) = serial.

(** The queue of the scheduler once [cancel] was called for each of the
    listed events: an event that is in the queue leaves it, another one
    changes nothing. *)
Fixpoint without_events (events : list Event) (q : list Event) : list Event :=
  match events with
  | [] => q
  | e :: rest => without_events rest (default q (list_remove e q))
  end.

(** ** The threads of a registry, step by step

    The calls of the public methods come from the threads of the
    application and, for [event], from the HTTP thread; the event thread
    runs the scheduler: it takes a pending event from the queue, makes the
    requests of the attempt, and runs the block that holds the lock.  The
    event thread is one thread as long as [start] succeeds once, so that
    one attempt at a time is under way; the calls of the other threads can
    come between its steps.  The
    part of [register] and of [unregister] that holds the lock does not
    overlap with the locked block of an attempt; the queue of the scheduler
    has a lock of its own, under which an event is taken from it: taking an
    event while [register] or [unregister] runs comes to the same as taking
    it just before or just after.  The requests of an attempt are one step:
    they read the registry once, for the port. *)

(** What the event thread is doing: nothing, about to call the action of an
    event it took from the queue, or before the locked block of that
    attempt. *)
Inductive Attempt : Type :=
  | Idle
  | Popped (e : Event)
  | Answered (e : Event) (r : Rescheduling).

Record Threads : Type := {
  registry : World;
  event_thread : Attempt
}.

(** A step of one of the threads: a call of a method, or a step of the
    event thread. *)
Inductive thread_step : Type :=
  | Call (op : operation)
  | Pop (e : Event)
  | Requests
  | Finish.

(** The state after a step; a step of the event thread that is not the
    next one of its attempt, and taking an event that is not pending,
    leave the state as it is. *)
Definition run_step (get_ip_address : string -> string)
    (bindable : Z -> bool) (fuel : nat) (s : thread_step) (t : Threads)
    : Threads :=
  let w := registry t in
  match s, event_thread t with
  | Call op, a =>
      {| registry := snd (perform get_ip_address bindable fuel op w);
         event_thread := a |}
  | Pop e, Idle =>
      match list_remove e (sched_queue w) with
      | Some q =>
          {| registry := with_sched q (sched_counter w) w;
             event_thread := Popped e |}
      | None => t
      end
  | Requests, Popped e =>
      match _resubscribe_requests get_ip_address fuel (ev_device e)
              (ev_url_fn e) (ev_sid e) (ev_retry e) w with
      | (Ok r, w') => {| registry := w'; event_thread := Answered e r |}
      | (Raise _, w') => {| registry := w'; event_thread := Idle |}
      end
  | Finish, Answered e r =>
      {| registry :=
           snd (_resubscribe_locked (ev_device e) (ev_url_fn e) r w);
         event_thread := Idle |}
  | _, _ => t
  end.

Fixpoint run_steps (get_ip_address : string -> string)
    (bindable : Z -> bool) (fuel : nat) (steps : list thread_step)
    (t : Threads) : Threads :=
  match steps with
  | [] => t
  | s :: rest =>
      run_steps get_ip_address bindable fuel rest
        (run_step get_ip_address bindable fuel s t)
  end.

(** The serial number that the attempt under way resubscribes. *)
Definition attempt_serial (a : Attempt) : option string :=
  match a with
  | Idle => None
  | Popped e | Answered e _ => Some (serialnumber (ev_device e))
  end.

(** [register] is called for a serial number that has no timer dictionary
    and for which no attempt is under way; [start] is called on a registry
    that is not listening, so that there is one event thread; a whole
    attempt as one operation is for an event thread that is idle. *)
Definition in_turn (t : Threads) (s : thread_step) : Prop :=
  match s with
  | Call (Register device) =>
      _events (registry t) !! serialnumber device = None
      /\ attempt_serial (event_thread t) <> Some (serialnumber device)
  | Call Start => _httpd (registry t) = None
  | Call (RunEvent _) => event_thread t = Idle
  | _ => True
  end.

(** Every step of the sequence is in turn. *)
Fixpoint all_in_turn (get_ip_address : string -> string)
    (bindable : Z -> bool) (fuel : nat) (steps : list thread_step)
    (t : Threads) : Prop :=
  match steps with
  | [] => True
  | s :: rest =>
      in_turn t s
      /\ all_in_turn get_ip_address bindable fuel rest
           (run_step get_ip_address bindable fuel s t)
  end.

(** The threads of a new registry. *)
Definition new_threads (net : nat -> net_outcome) : Threads :=
  {| registry := new_registry net; event_thread := Idle |}.

(** No pending event is for the device and endpoint of the attempt under
    way. *)
Definition attempt_alone (t : Threads) : Prop :=
  match event_thread t with
  | Idle => True
  | Popped e | Answered e _ =>
      forall x, x ∈ sched_queue (registry t) ->
        serialnumber (ev_device x) = serialnumber (ev_device e) ->
        ev_url_fn x <> ev_url_fn e
  end.

(** *** Example data of the further statements *)

(** The device answers 412 and grants 1800 seconds, whatever the
    request. *)
Definition response_412 : Response :=
  {| status_code := 412;
     response_headers := [("TIMEOUT", "Second-1800")] |}.

Definition answers_412 : nat -> net_outcome := fun _ => Responds response_412.

(** The registered plug with three callbacks: one for every event, one for
    [BinaryState], one for [LongPress]. *)
Definition listening : World :=
  snd ((on plug None 1%nat ;;
        on plug (Some "BinaryState") 2%nat ;;
        on plug (Some "LongPress") 3%nat) (registered unreachable)).

(** A parser that knows one document. *)
Definition parses (data : string) (doc : element) : string -> option element :=
  fun s => if String.eqb s data then Some doc else None.

(** A property set with two state changes, and a NOTIFY from the plug that
    carries it. *)
Definition state_change : element :=
  Element "{urn:schemas-upnp-org:event-1-0}propertyset" None
    [Element "{urn:schemas-upnp-org:event-1-0}property" None
       [Element "BinaryState" (Some "1") []];
     Element "{urn:schemas-upnp-org:event-1-0}property" None
       [Element "Brightness" (Some "80") []]].

Definition state_change_body : string :=
  String.concat ""
    ["<e:propertyset xmlns:e="; dq; "urn:schemas-upnp-org:event-1-0"; dq; ">";
     "<e:property><BinaryState>1</BinaryState></e:property>";
     "<e:property><Brightness>80</Brightness></e:property>";
     "</e:propertyset>"].

Definition notify_state_change : Request :=
  {| client_address := "192.168.1.20"; path := "/";
     request_headers :=
       [("Content-Length",
         Py.str_of_int (Z.of_nat (String.length state_change_body)))];
     rfile := state_change_body |}.

(** The request by which a device sets the state of the virtual device
    after a long press. *)
Definition long_press : element :=
  Element "{http://schemas.xmlsoap.org/soap/envelope/}Envelope" None
    [Element "{http://schemas.xmlsoap.org/soap/envelope/}Body" None
       [Element "{urn:Belkin:service:basicevent:1}SetBinaryState" None
          [Element "BinaryState" (Some "1") []]]].

Definition long_press_body : string :=
  String.concat ""
    ["<s:Envelope xmlns:s="; dq; "http://schemas.xmlsoap.org/soap/envelope/";
     dq; "><s:Body><u:SetBinaryState xmlns:u="; dq;
     "urn:Belkin:service:basicevent:1"; dq;
     "><BinaryState>1</BinaryState></u:SetBinaryState></s:Body>";
     "</s:Envelope>"].

Definition post_long_press : Request :=
  {| client_address := "192.168.1.20";
     path := "/upnp/control/basicevent1";
     request_headers :=
       [("Content-Length",
         Py.str_of_int (Z.of_nat (String.length long_press_body)))];
     rfile := long_press_body |}.

(** A GET for the description of the virtual device. *)
Definition get_setup_xml : Request :=
  {| client_address := "192.168.1.20"; path := "/setup.xml";
     request_headers := []; rfile := "" |}.

(** The registered plug, with the flag of a registry that runs. *)
Definition running : RegistryState :=
  {| world := registered unreachable; _exiting := false |}.

(** A run of the threads: the plug is registered and its first timer is
    taken from the queue; a callback is added and the plug is unregistered
    while the attempt is under way; the plug is registered again when the
    attempt is over. *)
Definition interleaved_run : list thread_step :=
  [Call Start; Call (Register plug); Pop first_timer; Requests;
   Call (On plug None 1%nat); Call (Unregister plug); Finish;
   Call (Register plug)].

(** The same calls, with the second [register] before the locked block of
    the attempt. *)
Definition racing_run : list thread_step :=
  [Call Start; Call (Register plug); Pop first_timer; Requests;
   Call (Unregister plug); Call (Register plug); Finish].

(** * Properties *)

(** ** Reasoning about the monad *)

Lemma with_trace_id (w : World) : with_trace (trace w) w = w.
Proof. destruct w; reflexivity. Qed.

Lemma with_trace_app_nil (w : World) : with_trace (trace w ++ [])%list w = w.
Proof. rewrite app_nil_r. apply with_trace_id. Qed.

Lemma bind_ok {A B} (m : M A) (k : A -> M B) w a w' :
  m w = (Ok a, w') -> bind m k w = k a w'.
Proof. intros H. unfold bind. rewrite H. reflexivity. Qed.

Lemma bind_raise {A B} (m : M A) (k : A -> M B) w e w' :
  m w = (Raise e, w') -> bind m k w = (Raise e, w').
Proof. intros H. unfold bind. rewrite H. reflexivity. Qed.

(** ** [start] and the port scan *)

Section PortScan.
Variable bindable : Z -> bool.




End PortScan.


(** ** [on] and [event] *)

Lemma invoke_matching_trace device type_ value cbs w :
  invoke_matching device type_ value cbs w
  = (Ok tt,
     with_trace
       (trace w ++
          map (fun entry => Callback (snd entry) device type_ value)
            (List.filter (matches type_) cbs))%list w).
Proof.
  revert w. induction cbs as [|[f cb] rest IH]; intros w.
  - simpl. rewrite with_trace_app_nil. reflexivity.
  - simpl. unfold matches at 1. simpl.
    destruct (match f with None => true | Some f0 => (type_ =? f0)%string end).
    + unfold bind, log_action, modify. rewrite IH. simpl.
      rewrite <- app_assoc. reflexivity.
    + unfold bind, ret. rewrite IH. reflexivity.
Qed.

Lemma on_appends device type_filter cb w :
  exists w',
    on device type_filter cb w = (Ok tt, w')
    /\ trace w' = trace w
    /\ forall serial,
        default [] (_callbacks w' !! serial)
        = (default [] (_callbacks w !! serial)
           ++ (if bool_decide (serialnumber device = serial)
               then [(type_filter, cb)] else []))%list.
Proof.
  unfold on, callbacks_getitem, bind, get_world.
  destruct (_callbacks w !! serialnumber device) as [l|] eqn:E; simpl.
  - eexists. split; [reflexivity|]. split; [reflexivity|].
    intros serial. simpl. case_bool_decide as Hs.
    + subst serial. rewrite lookup_insert_eq, E. reflexivity.
    + rewrite lookup_insert_ne by assumption. rewrite app_nil_r. reflexivity.
  - eexists. split; [reflexivity|]. split; [reflexivity|].
    intros serial. simpl. case_bool_decide as Hs.
    + subst serial. rewrite lookup_insert_eq, E. reflexivity.
    + rewrite !lookup_insert_ne by assumption. rewrite app_nil_r.
      reflexivity.
Qed.

Lemma on_all_appends regs w :
  exists w',
    on_all regs w = (Ok tt, w')
    /\ trace w' = trace w
    /\ forall serial,
        default [] (_callbacks w' !! serial)
        = (default [] (_callbacks w !! serial)
           ++ appended_for serial regs)%list.
Proof.
  revert w. induction regs as [|[[d f] cb] rest IH]; intros w.
  - exists w. split; [reflexivity|]. split; [reflexivity|].
    intros serial. unfold appended_for. simpl. rewrite app_nil_r. reflexivity.
  - destruct (on_appends d f cb w) as (w1 & H1 & T1 & L1).
    destruct (IH w1) as (w2 & H2 & T2 & L2).
    exists w2. split.
    + simpl. rewrite (bind_ok _ _ _ _ _ H1). exact H2.
    + split; [congruence|]. intros serial. rewrite L2, L1.
      rewrite <- app_assoc. f_equal. unfold appended_for. simpl.
      case_bool_decide; reflexivity.
Qed.

(** C7: [event(device, type, value)] calls, in the order in which [on]
    appended them, exactly the callbacks registered for the serial number of
    the device whose filter is [None] or equals the type, each with
    [(device, type, value)]. *)
Theorem event_calls_matching_callbacks_in_order
    (w : World) (regs : list (Device * option string * callback))
    (device : Device) (type_ : string) (value : option string) :
  exists w',
    on_all regs w = (Ok tt, w')
    /\ event device type_ value w'
       = (Ok tt,
          with_trace
            (trace w' ++
               map (fun entry => Callback (snd entry) device type_ value)
                 (List.filter (matches type_)
                    (callbacks_of w device
                     ++ appended_for (serialnumber device) regs)))%list
            w').
Proof.
  destruct (on_all_appends regs w) as (w' & H & _ & Hcb).
  exists w'. split; [exact H|].
  unfold event, bind, get_world. rewrite invoke_matching_trace.
  rewrite Hcb. reflexivity.
Qed.

(** ** [register] and [unregister] *)

Lemma cancel_events_ok events w :
  exists w',
    _cancel_events events w = (Ok tt, w')
    /\ devices w' = devices w
    /\ _callbacks w' = _callbacks w
    /\ _events w' = _events w.
Proof.
  revert w. induction events as [|e rest IH]; intros w.
  - exists w. repeat split; reflexivity.
  - simpl. unfold bind at 1. unfold try_except, sched_cancel.
    unfold bind at 1. unfold log_action, modify. unfold bind at 1.
    unfold get_world. simpl.
    destruct (list_remove e (sched_queue w)) as [q|].
    + destruct (IH (with_sched q (sched_counter w)
                      (with_trace (trace w ++ [SchedCancel e])%list w)))
        as (w' & H & Hd & Hc & He).
      exists w'. simpl in *. rewrite H. repeat split; assumption.
    + unfold raise. rewrite decide_True by reflexivity. unfold ret.
      destruct (IH (with_trace (trace w ++ [SchedCancel e])%list w))
        as (w' & H & Hd & Hc & He).
      exists w'. simpl in *. rewrite H. repeat split; assumption.
Qed.

(** [unregister] up to the lookup of the device: the callbacks and the
    timer entries of the serial number are gone, the device table is as it
    was. *)
Lemma unregister_prefix device w :
  exists w1,
    unregister (Some device) w
    = (devices_getitem (host device) ;;
       modify (with_devices (delete (host device)))) w1
    /\ devices w1 = devices w
    /\ _callbacks w1 = delete (serialnumber device) (_callbacks w)
    /\ _events w1 = delete (serialnumber device) (_events w).
Proof.
  unfold unregister.
  assert (H1 : exists wa,
    callbacks_getitem (serialnumber device) w
    = (Ok (default [] (_callbacks w !! serialnumber device)), wa)
    /\ devices wa = devices w /\ _events wa = _events w
    /\ delete (serialnumber device) (_callbacks wa)
       = delete (serialnumber device) (_callbacks w)).
  { unfold callbacks_getitem, bind, get_world.
    destruct (_callbacks w !! serialnumber device) as [l|] eqn:E.
    - exists w. repeat split; reflexivity.
    - eexists. split; [reflexivity|]. simpl. repeat split; try reflexivity.
      apply delete_insert_eq. }
  destruct H1 as (wa & Ha & Hda & Hea & Hca).
  rewrite (bind_ok _ _ _ _ _ Ha).
  unfold bind at 1. unfold modify at 1.
  unfold bind at 1. unfold get_world at 1.
  unfold bind at 1.
  change (_events (with_callbacks (delete (serialnumber device)) wa))
    with (_events wa).
  rewrite Hea.
  destruct (_events w !! serialnumber device) as [events|] eqn:Ee.
  - unfold bind at 1.
    destruct (cancel_events_ok (Dict.values events)
                (with_callbacks (delete (serialnumber device)) wa))
      as (wb & Hb & Hdb & Hcb & Heb).
    rewrite Hb. unfold modify at 1.
    eexists. split; [reflexivity|]. simpl in *.
    rewrite Hdb, Hcb, Heb, Hda, Hea, Hca. repeat split; reflexivity.
  - unfold ret at 1. eexists. split; [reflexivity|]. simpl.
    rewrite Hda, Hea, Hca. repeat split; try reflexivity.
    symmetry. apply delete_id. exact Ee.
Qed.

(** X1: on a device whose host is in the device table, [unregister]
    returns normally and removes the entries of the device from the three
    tables: the device under its host, the callbacks and the timer
    dictionary under its serial number. *)
Lemma unregister_removes device w known :
  devices w !! host device = Some known ->
  exists w',
    unregister (Some device) w = (Ok tt, w')
    /\ devices w' = delete (host device) (devices w)
    /\ _callbacks w' = delete (serialnumber device) (_callbacks w)
    /\ _events w' = delete (serialnumber device) (_events w).
Proof.
  intros Hk. destruct (unregister_prefix device w) as (w1 & -> & Hd & Hc & He).
  unfold bind, devices_getitem, get_world, bind. rewrite Hd, Hk.
  eexists. split; [reflexivity|]. simpl. rewrite Hd, Hc, He.
  repeat split; reflexivity.
Qed.

(** On a device whose host is not in the device table, [unregister] ends
    with [KeyError], after it removed the callbacks and the timer
    entries. *)
Lemma unregister_absent device w :
  devices w !! host device = None ->
  exists w',
    unregister (Some device) w = (Raise KeyError, w')
    /\ devices w' = devices w
    /\ _callbacks w' = delete (serialnumber device) (_callbacks w)
    /\ _events w' = delete (serialnumber device) (_events w).
Proof.
  intros Hk. destruct (unregister_prefix device w) as (w1 & -> & Hd & Hc & He).
  unfold bind, devices_getitem, get_world, bind. rewrite Hd, Hk.
  eexists. split; [reflexivity|]. repeat split; assumption.
Qed.

(** C3: [unregister(d)] on a registry that does not hold [d] is not a
    no-op: the lookup [self.devices[device.host]] raises [KeyError], both on
    a new registry and when [d] was unregistered before. *)
Theorem unregister_absent_device_raises_KeyError :
  fst (unregister (Some plug) (new_registry unreachable)) = Raise KeyError
  /\ fst ((register (Some plug) ;; unregister (Some plug))
            (new_registry unreachable)) = Ok tt
  /\ fst ((register (Some plug) ;; unregister (Some plug) ;;
           unregister (Some plug)) (new_registry unreachable))
     = Raise KeyError.
Proof. repeat split; vm_compute; reflexivity. Qed.

(** ** Parsing the granted timeout *)

Example int_accepts_spaces_and_underscores :
  Py.int " 1_800 " = Ok 1800 /\ Py.int "-5" = Ok (-5)
  /\ Py.int "" = Raise ValueError /\ Py.int "1__0" = Raise ValueError
  /\ Py.int "0x10" = Raise ValueError.
Proof. repeat split; reflexivity. Qed.

Example replace_drops_every_occurrence :
  Py.replace "Second-" "" "Second-1801" = "1801"
  /\ Py.replace "Second-" "" "Second-Second-7" = "7"
  /\ Py.replace "Second-" "" "infinite" = "infinite".
Proof. repeat split; reflexivity. Qed.

Lemma Pos_of_uint_acc_value (u : uint) (acc : positive) :
  Z.pos (Pos.of_uint_acc u acc) = uint_value (Z.pos acc) u.
Proof.
  revert acc. induction u; intros acc; simpl; try reflexivity;
    rewrite IHu; f_equal; lia.
Qed.

Lemma Z_of_uint_value (u : uint) : Z.of_uint u = uint_value 0 u.
Proof.
  unfold Z.of_uint. induction u; simpl; try reflexivity; try exact IHu;
    rewrite Pos_of_uint_acc_value; reflexivity.
Qed.

Lemma int_digits_uint (u : uint) (acc : Z) :
  Py.int_digits acc (NilEmpty.string_of_uint u) = Some (uint_value acc u).
Proof.
  revert acc. induction u; intros acc; simpl; try reflexivity; apply IHu.
Qed.

Lemma count_digits_uint (u : uint) :
  Py.count_digits (NilEmpty.string_of_uint u) = Decimal.nb_digits u.
Proof. induction u; simpl; try reflexivity; rewrite IHu; reflexivity. Qed.

Lemma int_literal_uint (u : uint) :
  u <> Nil ->
  (Decimal.nb_digits u <= Py.max_str_digits)%nat ->
  Py.int_literal (NilEmpty.string_of_uint u) = Some (Z.of_uint u).
Proof.
  intros Hu Hn. rewrite Z_of_uint_value.
  assert (Hc : (Py.count_digits (NilEmpty.string_of_uint u)
                <=? Py.max_str_digits)%nat = true)
    by (rewrite count_digits_uint; apply Nat.leb_le; exact Hn).
  destruct u; try congruence; unfold Py.int_literal;
    cbn [NilEmpty.string_of_uint] in Hc |- *;
    match goal with
    | |- context [Py.digit_of ?c] =>
        let d := eval vm_compute in (Py.digit_of c) in
        change (Py.digit_of c) with d
    end;
    cbv beta iota; rewrite int_digits_uint, Hc; reflexivity.
Qed.

Lemma rstrip_uint (u : uint) :
  Py.rstrip Py.is_int_space (NilEmpty.string_of_uint u)
  = NilEmpty.string_of_uint u.
Proof.
  induction u; simpl; try reflexivity; rewrite IHu;
    destruct (NilEmpty.string_of_uint u); reflexivity.
Qed.

Lemma replace_uint (u : uint) :
  Py.replace_from "Second-" "" 0 (NilEmpty.string_of_uint u)
  = NilEmpty.string_of_uint u.
Proof.
  induction u; simpl; try reflexivity; rewrite IHu; reflexivity.
Qed.

Lemma int_of_granted_timeout (u : uint) :
  u <> Nil ->
  (Decimal.nb_digits u <= Py.max_str_digits)%nat ->
  Py.int (Py.replace "Second-" ""
            (String.append "Second-" (NilEmpty.string_of_uint u)))
  = Ok (Z.of_uint u).
Proof.
  intros Hu Hn.
  change (Py.replace "Second-" ""
            (String.append "Second-" (NilEmpty.string_of_uint u)))
    with (Py.replace_from "Second-" "" 0 (NilEmpty.string_of_uint u)).
  rewrite replace_uint.
  unfold Py.int, Py.strip.
  assert (Hl : Py.lstrip Py.is_int_space (NilEmpty.string_of_uint u)
               = NilEmpty.string_of_uint u)
    by (destruct u; reflexivity).
  rewrite Hl, rstrip_uint.
  pose proof (int_literal_uint u Hu Hn) as HL.
  destruct u; try congruence;
    simpl NilEmpty.string_of_uint in *; cbv beta iota;
    rewrite HL; reflexivity.
Qed.

Lemma Py_int_raises s e : Py.int s = Raise e -> e = ValueError.
Proof.
  unfold Py.int.
  destruct (match Py.strip Py.is_int_space s with
            | String "-" r => option_map Z.opp (Py.int_literal r)
            | String "+" r => Py.int_literal r
            | t => Py.int_literal t
            end); congruence.
Qed.

Lemma default_timeout_parses :
  Py.int (Py.replace "Second-" "" "Second-300") = Ok 300.
Proof. reflexivity. Qed.

(** ** The delay [int(timeout * 0.75)] in binary64 arithmetic *)

Example three_quarters_of_some_timeouts :
  three_quarters 400 = Ok 300 /\ three_quarters 1801 = Ok 1350
  /\ three_quarters 7 = Ok 5 /\ three_quarters (-7) = Ok (-5)
  /\ three_quarters (2 ^ 53 + 3) = Ok (3 * 2 ^ 51 + 3)
  /\ 3 * (2 ^ 53 + 3) / 4 = 3 * 2 ^ 51 + 2
  /\ (exists delay, three_quarters (2 ^ 1024 - 2 ^ 970 - 1) = Ok delay)
  /\ three_quarters (2 ^ 1024 - 2 ^ 970) = Raise OverflowError.
Proof.
  repeat split; try (vm_compute; reflexivity).
  eexists. vm_compute. reflexivity.
Qed.

Lemma three_quarters_300 : three_quarters 300 = Ok 225.
Proof. reflexivity. Qed.

Lemma three_quarters_raises n e :
  three_quarters n = Raise e -> e = OverflowError \/ e = ValueError.
Proof.
  unfold three_quarters, Py.int_times_float, Py.float_of_int.
  destruct (binary_normalize Py.prec Py.emax n 0 false);
    try (intros [= <-]; auto);
    unfold Py.int_of_float;
    match goal with
    | |- context [Py.float_mul ?a ?b] => destruct (Py.float_mul a b)
    end; intros [= <-]; auto.
Qed.

Lemma iter_pos_nat {A} (f : A -> A) p x :
  SpecFloat.iter_pos f p x = Nat.iter (Pos.to_nat p) f x.
Proof.
  revert x. induction p as [p IH|p IH|]; intros x.
  - cbn [SpecFloat.iter_pos]. rewrite !IH. rewrite Pos2Nat.inj_xI.
    replace (S (2 * Pos.to_nat p))%nat
      with (S (Pos.to_nat p + Pos.to_nat p))%nat by lia.
    rewrite Nat.iter_succ_r, Nat.iter_add. reflexivity.
  - cbn [SpecFloat.iter_pos]. rewrite !IH. rewrite Pos2Nat.inj_xO.
    replace (2 * Pos.to_nat p)%nat
      with (Pos.to_nat p + Pos.to_nat p)%nat by lia.
    rewrite Nat.iter_add. reflexivity.
  - reflexivity.
Qed.

Lemma pos_iter_nat {A} (f : A -> A) p x :
  Pos.iter f x p = Nat.iter (Pos.to_nat p) f x.
Proof.
  revert x. induction p as [p IH|p IH|]; intros x.
  - cbn [Pos.iter]. rewrite !IH. rewrite Pos2Nat.inj_xI.
    replace (S (2 * Pos.to_nat p))%nat
      with (S (Pos.to_nat p + Pos.to_nat p))%nat by lia.
    rewrite <- Nat.iter_add. reflexivity.
  - cbn [Pos.iter]. rewrite !IH. rewrite Pos2Nat.inj_xO.
    replace (2 * Pos.to_nat p)%nat
      with (Pos.to_nat p + Pos.to_nat p)%nat by lia.
    rewrite <- Nat.iter_add. reflexivity.
  - reflexivity.
Qed.

Lemma shr_1_iter_exact k x :
  Nat.iter k shr_1
    {| shr_m := Z.pos (Nat.iter k xO x); shr_r := false; shr_s := false |}
  = {| shr_m := Z.pos x; shr_r := false; shr_s := false |}.
Proof.
  induction k as [|k IH]; [reflexivity|].
  rewrite Nat.iter_succ_r. simpl. exact IH.
Qed.

Lemma iter_xO_value k x : Z.pos (Nat.iter k xO x) = Z.pos x * 2 ^ Z.of_nat k.
Proof.
  induction k as [|k IH].
  - simpl. lia.
  - rewrite Nat2Z.inj_succ, Z.pow_succ_r by lia. simpl Nat.iter.
    rewrite Pos2Z.inj_xO, IH. lia.
Qed.

Lemma iter_xO_digits k x :
  Z.pos (digits2_pos (Nat.iter k xO x)) = Z.pos (digits2_pos x) + Z.of_nat k.
Proof.
  induction k as [|k IH].
  - simpl. lia.
  - simpl Nat.iter. simpl digits2_pos. rewrite Pos2Z.inj_succ, IH. lia.
Qed.

Lemma digits2_pos_bounds p :
  2 ^ (Z.pos (digits2_pos p) - 1) <= Z.pos p < 2 ^ Z.pos (digits2_pos p).
Proof.
  induction p as [p IH|p IH|]; simpl digits2_pos.
  - rewrite Pos2Z.inj_succ.
    replace (Z.succ (Z.pos (digits2_pos p)) - 1)
      with (Z.succ (Z.pos (digits2_pos p) - 1)) by lia.
    rewrite !Z.pow_succ_r by lia. lia.
  - rewrite Pos2Z.inj_succ.
    replace (Z.succ (Z.pos (digits2_pos p)) - 1)
      with (Z.succ (Z.pos (digits2_pos p) - 1)) by lia.
    rewrite !Z.pow_succ_r by lia. lia.
  - simpl. lia.
Qed.

Lemma digits2_pos_unique p k :
  2 ^ (k - 1) <= Z.pos p < 2 ^ k -> Z.pos (digits2_pos p) = k.
Proof.
  intros [Hlo Hhi]. pose proof (digits2_pos_bounds p) as [Dlo Dhi].
  set (d := Z.pos (digits2_pos p)) in *.
  assert (0 < d) by (unfold d; lia).
  assert (0 < k).
  { destruct (Z_lt_le_dec 0 k); [assumption|].
    assert (2 ^ k <= 2 ^ 0) by (destruct (Z_lt_le_dec k 0);
      [rewrite Z.pow_neg_r by lia; simpl; lia | apply Z.pow_le_mono_r; lia]).
    simpl in *. lia. }
  destruct (Z_lt_le_dec d k) as [Hlt|Hge].
  - assert (2 ^ d <= 2 ^ (k - 1)) by (apply Z.pow_le_mono_r; lia). lia.
  - destruct (Z_lt_le_dec k d) as [Hlt|Hge']; [|lia].
    assert (2 ^ k <= 2 ^ (d - 1)) by (apply Z.pow_le_mono_r; lia). lia.
Qed.

(** Rounding a mantissa whose excess bits are all zero is exact. *)
Lemma binary_round_aux_exact sx x k ex :
  Z.pos (digits2_pos x) = 53 ->
  -1074 <= ex + Z.of_nat k <= 971 ->
  binary_round_aux 53 1024 sx (Z.pos (Nat.iter k xO x)) ex loc_Exact
  = S754_finite sx x (ex + Z.of_nat k).
Proof.
  intros Hd He. unfold binary_round_aux.
  assert (H1 : shr_fexp 53 1024 (Z.pos (Nat.iter k xO x)) ex loc_Exact
               = ({| shr_m := Z.pos x; shr_r := false; shr_s := false |},
                  ex + Z.of_nat k)).
  { unfold shr_fexp, Zdigits2. rewrite iter_xO_digits, Hd.
    replace (fexp 53 1024 (53 + Z.of_nat k + ex) - ex) with (Z.of_nat k)
      by (unfold fexp, emin; lia).
    unfold shr, shr_record_of_loc. destruct k as [|k].
    - simpl. f_equal. lia.
    - change (Z.of_nat (S k)) with (Z.pos (Pos.of_succ_nat k)).
      cbv iota beta. rewrite iter_pos_nat, SuccNat2Pos.id_succ.
      rewrite shr_1_iter_exact. reflexivity. }
  rewrite H1. simpl loc_of_shr_record. simpl round_nearest_even.
  assert (H2 : shr_fexp 53 1024 (Z.pos x) (ex + Z.of_nat k) loc_Exact
               = ({| shr_m := Z.pos x; shr_r := false; shr_s := false |},
                  ex + Z.of_nat k)).
  { unfold shr_fexp, Zdigits2. rewrite Hd.
    replace (fexp 53 1024 (53 + (ex + Z.of_nat k)) - (ex + Z.of_nat k)) with 0
      by (unfold fexp, emin; lia).
    reflexivity. }
  simpl shr_m. rewrite H2. simpl shr_m.
  replace (ex + Z.of_nat k <=? 1024 - 53) with true
    by (symmetry; apply Z.leb_le; lia).
  reflexivity.
Qed.

(** An integer of at most 53 bits converts without rounding. *)
Lemma float_of_int_53 (m : positive) :
  Z.pos (digits2_pos m) <= 53 ->
  binary_normalize 53 1024 (Z.pos m) 0 false
  = S754_finite false
      (Nat.iter (Z.to_nat (53 - Z.pos (digits2_pos m))) xO m)
      (Z.pos (digits2_pos m) - 53).
Proof.
  intros Hd. unfold binary_normalize, binary_round.
  set (d := Z.pos (digits2_pos m)) in *.
  replace (fexp 53 1024 (d + 0)) with (d - 53) by (unfold fexp, emin; lia).
  unfold shl_align.
  destruct (d - 53 - 0) as [|q|q] eqn:Eq; [| lia |].
  - replace (Z.to_nat (53 - d)) with 0%nat by lia.
    pose proof (binary_round_aux_exact false m 0 0) as H.
    cbn [Nat.iter nat_rect] in H. rewrite H; [|unfold d in *; lia|lia].
    f_equal. lia.
  - rewrite pos_iter_nat.
    replace (Z.to_nat (53 - d)) with (Pos.to_nat q) by lia.
    pose proof (binary_round_aux_exact false
                  (Nat.iter (Pos.to_nat q) xO m) 0 (d - 53)) as H.
    cbn [Nat.iter nat_rect] in H. fold (Nat.iter (Pos.to_nat q) xO m) in H.
    rewrite H.
    + f_equal. lia.
    + rewrite iter_xO_digits. fold d. lia.
    + unfold d. lia.
Qed.

Lemma pow2_split (a b c e : nat) :
  (a + b = c + e)%nat ->
  2 ^ Z.of_nat a * 2 ^ Z.of_nat b = 2 ^ Z.of_nat c * 2 ^ Z.of_nat e.
Proof.
  intros H. rewrite <- !Z.pow_add_r by lia. f_equal. lia.
Qed.

(** [int(n * 0.75)] is the integer part of 3n/4 for every n below 2^51:
    neither the conversion nor the product is rounded. *)
Lemma three_quarters_exact (n : Z) :
  0 <= n < 2 ^ 51 -> three_quarters n = Ok (3 * n / 4).
Proof.
  intros [Hlo Hhi]. destruct n as [|m|m]; [reflexivity| |lia].
  pose proof (digits2_pos_bounds m) as [Dlo Dhi].
  set (d := Z.pos (digits2_pos m)) in *.
  assert (Hd : 1 <= d <= 51).
  { split; [unfold d; lia|].
    destruct (Z_lt_le_dec 51 d) as [Hgt|]; [|lia].
    assert (2 ^ 51 <= 2 ^ (d - 1)) by (apply Z.pow_le_mono_r; lia). lia. }
  unfold three_quarters, Py.int_times_float, Py.float_of_int,
    Py.prec, Py.emax.
  rewrite float_of_int_53 by (fold d; lia). fold d.
  unfold Py.float_mul, Py.float_0_75, SFmul, Py.prec, Py.emax. simpl xorb.
  set (t := (m * 3)%positive).
  pose proof (digits2_pos_bounds t) as [Tlo Thi].
  set (D3 := Z.pos (digits2_pos t)) in *.
  assert (Ht : Z.pos t = 3 * Z.pos m) by (unfold t; lia).
  assert (HD3 : d + 1 <= D3 <= d + 2).
  { split.
    - destruct (Z_lt_le_dec D3 (d + 1)) as [Hlt|]; [|lia].
      assert (2 ^ D3 <= 2 ^ d) by (apply Z.pow_le_mono_r; unfold D3; lia).
      assert (2 ^ d = 2 * 2 ^ (d - 1)).
      { rewrite <- Z.pow_succ_r by lia. f_equal. lia. }
      lia.
    - destruct (Z_lt_le_dec (d + 2) D3) as [Hgt|]; [|lia].
      assert (2 ^ (d + 2) <= 2 ^ (D3 - 1)) by (apply Z.pow_le_mono_r; lia).
      assert (2 ^ (d + 2) = 4 * 2 ^ d).
      { replace (d + 2) with (Z.succ (Z.succ d)) by lia.
        rewrite !Z.pow_succ_r by lia. lia. }
      lia. }
  set (a := Z.to_nat (53 - D3)).
  set (k := Z.to_nat (51 - d + D3)).
  assert (Hprod :
    (Nat.iter (Z.to_nat (53 - d)) xO m * 6755399441055744)%positive
    = Nat.iter k xO (Nat.iter a xO t)).
  { apply Pos2Z.inj. rewrite Pos2Z.inj_mul, !iter_xO_value, Ht.
    change (Z.pos 6755399441055744) with (3 * 2 ^ Z.of_nat 51).
    pose proof (pow2_split (Z.to_nat (53 - d)) 51 a k) as Hp.
    rewrite <- Z.mul_assoc.
    transitivity (3 * Z.pos m * (2 ^ Z.of_nat (Z.to_nat (53 - d))
                                 * 2 ^ Z.of_nat 51)); [ring|].
    rewrite Hp by (unfold a, k; lia). ring. }
  rewrite Hprod.
  rewrite binary_round_aux_exact.
  - unfold Py.int_of_float.
    replace (0 <=? d - 53 + -53 + Z.of_nat k) with false
      by (symmetry; apply Z.leb_gt; unfold k; lia).
    rewrite iter_xO_value, Ht. f_equal.
    replace (- (d - 53 + -53 + Z.of_nat k)) with (Z.of_nat a + 2)
      by (unfold a, k; lia).
    rewrite Z.pow_add_r by lia. change (2 ^ 2) with 4.
    rewrite (Z.mul_comm (2 ^ Z.of_nat a) 4).
    rewrite Z.div_mul_cancel_r; [reflexivity|lia|].
    apply Z.pow_nonzero; lia.
  - rewrite iter_xO_digits. fold D3. unfold a. lia.
  - unfold k. lia.
Qed.

(** ** The resubscription protocol *)

Lemma requests_request_eval method url hdrs w :
  requests_request method url hdrs w
  = (match network w (requests_made w) with
     | Responds r => Ok r
     | Fails => Raise RequestException
     end, after_request (HttpRequest method url hdrs) w).
Proof.
  unfold requests_request, bind, log_action, modify, get_world. simpl.
  destruct (network w (requests_made w)); reflexivity.
Qed.

Lemma timer_entry_lookup w device url_fn :
  timer_entry w device url_fn = true ->
  exists d, _events w !! serialnumber device = Some d.
Proof.
  unfold timer_entry. destruct (_events w !! serialnumber device) as [d|].
  - eauto.
  - discriminate.
Qed.

Lemma schedule_eval delay device url_fn sid retry w :
  timer_entry w device url_fn = true ->
  _schedule delay device url_fn sid retry w
  = (Ok tt, after_schedule (next_event w delay device url_fn sid retry) w).
Proof.
  intros H. destruct (timer_entry_lookup _ _ _ H) as [d Hd].
  unfold _schedule, sched_enter, bind, get_world, modify, log_action, ret.
  simpl. rewrite Hd. unfold after_schedule. simpl. rewrite Hd. reflexivity.
Qed.

Lemma timer_entry_after_request a w device url_fn :
  timer_entry (after_request a w) device url_fn = timer_entry w device url_fn.
Proof. reflexivity. Qed.

Lemma after_schedule_trace e w :
  trace (after_schedule e w) = (trace w ++ [SchedEnter e])%list.
Proof. reflexivity. Qed.

Lemma retry_handler_eval device url_fn sid retry w :
  retry_handler device url_fn sid retry w
  = (Ok tt,
     let w1 := if (1 <? retry + 1) && rediscovery_enabled device
               then after_reconnect device w else w in
     if timer_entry w device url_fn
     then after_schedule
            (next_event w1 SUBSCRIPTION_RETRY device url_fn sid (retry + 1)) w1
     else w1).
Proof.
  unfold retry_handler. cbv zeta.
  assert (Hstep :
    (if 1 <? retry + 1
     then if rediscovery_enabled device
          then reconnect_with_device device else ret tt
     else ret tt) w
    = (Ok tt, if (1 <? retry + 1) && rediscovery_enabled device
              then after_reconnect device w else w)).
  { destruct (1 <? retry + 1), (rediscovery_enabled device); reflexivity. }
  rewrite (bind_ok _ _ _ _ _ Hstep).
  set (w1 := if (1 <? retry + 1) && rediscovery_enabled device
             then after_reconnect device w else w).
  assert (Ht : timer_entry w1 device url_fn = timer_entry w device url_fn).
  { unfold w1. destruct ((1 <? retry + 1) && rediscovery_enabled device);
      reflexivity. }
  unfold timer_entry_exists, bind, get_world, ret.
  fold (timer_entry w1 device url_fn). rewrite <- Ht.
  destruct (timer_entry w1 device url_fn) eqn:E; [|reflexivity].
  apply schedule_eval. exact E.
Qed.

Lemma subscribe_headers_timeout get_ip_address p device url sid :
  Dict.get "TIMEOUT" (subscribe_headers get_ip_address p device url sid)
  = Some "Second-300".
Proof. destruct sid; reflexivity. Qed.

Lemma url_resubscribe_accepted rec device hdrs sid url_fn w url r granted :
  call_url_fn url_fn device = Ok url ->
  network w (requests_made w) = Responds r ->
  accepted r sid ->
  granted_timeout hdrs r = Some granted ->
  _url_resubscribe rec device hdrs sid url_fn w
  = let w1 := after_request (HttpRequest "SUBSCRIBE" url hdrs) w in
    match Py.int (Py.replace "Second-" "" granted) with
    | Raise e => (Raise e, w1)
    | Ok timeout =>
        if timer_entry w device url_fn then
          match three_quarters timeout with
          | Raise e => (Raise e, w1)
          | Ok delay =>
              (Ok tt,
               after_schedule
                 (next_event w1 delay device url_fn (carried_sid r sid) 0) w1)
          end
        else (Ok tt, w1)
    end.
Proof.
  intros Hu Hn Ha Hg. unfold _url_resubscribe.
  unfold bind at 1. unfold lift at 1. rewrite Hu.
  unfold bind at 1. rewrite requests_request_eval, Hn.
  unfold accepted in Ha. rewrite Ha.
  unfold granted_timeout in Hg.
  unfold bind at 1.
  destruct (header_get "TIMEOUT" (response_headers r)) as [v|] eqn:Ev.
  - injection Hg as ->. unfold ret at 1.
    unfold bind at 1. unfold lift at 1.
    destruct (Py.int (Py.replace "Second-" "" granted)) as [timeout|e];
      [|reflexivity].
    unfold bind at 1. unfold timer_entry_exists, bind, get_world, ret.
    fold (timer_entry (after_request (HttpRequest "SUBSCRIBE" url hdrs) w)
            device url_fn).
    rewrite timer_entry_after_request.
    destruct (timer_entry w device url_fn) eqn:Et; [|reflexivity].
    unfold lift. destruct (three_quarters timeout) as [delay|e]; [|reflexivity].
    apply schedule_eval. exact Et.
  - rewrite Hg. unfold ret at 1.
    unfold bind at 1. unfold lift at 1.
    destruct (Py.int (Py.replace "Second-" "" granted)) as [timeout|e];
      [|reflexivity].
    unfold bind at 1. unfold timer_entry_exists, bind, get_world, ret.
    fold (timer_entry (after_request (HttpRequest "SUBSCRIBE" url hdrs) w)
            device url_fn).
    rewrite timer_entry_after_request.
    destruct (timer_entry w device url_fn) eqn:Et; [|reflexivity].
    unfold lift. destruct (three_quarters timeout) as [delay|e]; [|reflexivity].
    apply schedule_eval. exact Et.
Qed.

Lemma url_resubscribe_fails rec device hdrs sid url_fn w url :
  call_url_fn url_fn device = Ok url ->
  network w (requests_made w) = Fails ->
  _url_resubscribe rec device hdrs sid url_fn w
  = (Raise RequestException,
     after_request (HttpRequest "SUBSCRIBE" url hdrs) w).
Proof.
  intros Hu Hn. unfold _url_resubscribe.
  unfold bind at 1. unfold lift at 1. rewrite Hu.
  unfold bind at 1. rewrite requests_request_eval, Hn. reflexivity.
Qed.

Lemma url_resubscribe_stale rec device hdrs sid url_fn w url r stale :
  call_url_fn url_fn device = Ok url ->
  network w (requests_made w) = Responds r ->
  status_code r = 412 ->
  truthy sid = Some stale ->
  _url_resubscribe rec device hdrs sid url_fn w
  = (requests_request "UNSUBSCRIBE" url [("SID", stale)] ;;
     rec device url_fn None 0)
      (after_request (HttpRequest "SUBSCRIBE" url hdrs) w).
Proof.
  intros Hu Hn Hs Ht. unfold _url_resubscribe.
  unfold bind at 1. unfold lift at 1. rewrite Hu.
  unfold bind at 1. rewrite requests_request_eval, Hn.
  rewrite Hs, Ht. reflexivity.
Qed.

(** The recursion limit plays no role once it is at least 2: the call
    that [_url_resubscribe] makes has no SID, and a call without SID makes
    none. *)
Lemma url_resubscribe_ext rec rec' device hdrs sid url_fn w :
  (forall w', rec device url_fn None 0 w' = rec' device url_fn None 0 w') ->
  _url_resubscribe rec device hdrs sid url_fn w
  = _url_resubscribe rec' device hdrs sid url_fn w.
Proof.
  intros H. unfold _url_resubscribe, bind, lift.
  destruct (call_url_fn url_fn device); [|reflexivity].
  rewrite requests_request_eval.
  destruct (network w (requests_made w)); [|reflexivity].
  destruct (if status_code r =? 412 then truthy sid else None);
    [|reflexivity].
  rewrite requests_request_eval.
  destruct (network _ _); [|reflexivity].
  apply H.
Qed.

Lemma url_resubscribe_no_sid rec rec' device hdrs url_fn w :
  _url_resubscribe rec device hdrs None url_fn w
  = _url_resubscribe rec' device hdrs None url_fn w.
Proof.
  unfold _url_resubscribe, bind, lift.
  destruct (call_url_fn url_fn device); [|reflexivity].
  rewrite requests_request_eval.
  destruct (network w (requests_made w)); [|reflexivity].
  destruct (status_code r =? 412); reflexivity.
Qed.

Section Protocol.
Variable get_ip_address : string -> string.

Lemma resubscribe_unfold fuel device url_fn sid retry w url p :
  call_url_fn url_fn device = Ok url ->
  _httpd w = Some p ->
  _resubscribe get_ip_address (S fuel) device url_fn sid retry w
  = try_except
      (_url_resubscribe (_resubscribe get_ip_address fuel) device
         (subscribe_headers get_ip_address p device url sid) sid url_fn)
      RequestException (retry_handler device url_fn sid retry) w.
Proof.
  intros Hu Hp. simpl. unfold bind at 1. unfold lift. rewrite Hu.
  destruct sid as [s|].
  - reflexivity.
  - unfold bind at 1. unfold port, bind, get_world. rewrite Hp. reflexivity.
Qed.

Lemma resubscribe_no_sid_fuel fuel fuel' device url_fn retry w :
  _resubscribe get_ip_address (S fuel) device url_fn None retry w
  = _resubscribe get_ip_address (S fuel') device url_fn None retry w.
Proof.
  cbn [_resubscribe]. unfold port, get_world.
  unfold bind, lift, raise, ret, try_except.
  destruct (call_url_fn url_fn device); [|reflexivity].
  destruct (_httpd w); [|reflexivity].
  rewrite (url_resubscribe_no_sid _ (_resubscribe get_ip_address fuel')).
  reflexivity.
Qed.

Lemma resubscribe_fuel fuel device url_fn sid retry w :
  _resubscribe get_ip_address (S (S fuel)) device url_fn sid retry w
  = _resubscribe get_ip_address 2 device url_fn sid retry w.
Proof.
  cbn [_resubscribe]. unfold port, get_world.
  unfold bind, lift, raise, ret, try_except.
  destruct (call_url_fn url_fn device); [|reflexivity].
  destruct sid as [s|].
  - rewrite (url_resubscribe_ext _ (_resubscribe get_ip_address 1));
      [reflexivity|].
    intros w'. exact (resubscribe_no_sid_fuel fuel 0 device url_fn 0 w').
  - destruct (_httpd w); [|reflexivity].
    rewrite (url_resubscribe_ext _ (_resubscribe get_ip_address 1));
      [reflexivity|].
    intros w'. exact (resubscribe_no_sid_fuel fuel 0 device url_fn 0 w').
Qed.

(** C1 (amended): a response that is not a 412 and grants
    [TIMEOUT: Second-<n>], where [n] is a decimal numeral of at most 4300
    digits (leading zeros counted) and [int(n * 0.75)] evaluates to
    [delay], makes [_resubscribe] schedule the next call for the same device and
    endpoint at [delay], with the SID of the response (the SID held
    before when the response has none); nothing is scheduled when the
    timer entry of the device and endpoint is gone. *)
Theorem resubscribe_schedules_three_quarters_of_granted_timeout
    (fuel : nat) (w : World) (device : Device) (url_fn : SubscribeUrlFn)
    (sid : option string) (retry : Z) (url : string) (p : Z)
    (r : Response) (n : uint) (delay : Z) :
  call_url_fn url_fn device = Ok url ->
  _httpd w = Some p ->
  network w (requests_made w) = Responds r ->
  status_code r <> 412 ->
  n <> Nil ->
  (Decimal.nb_digits n <= Py.max_str_digits)%nat ->
  header_get "TIMEOUT" (response_headers r)
  = Some (String.append "Second-" (NilEmpty.string_of_uint n)) ->
  three_quarters (Z.of_uint n) = Ok delay ->
  let request :=
    HttpRequest "SUBSCRIBE" url
      (subscribe_headers get_ip_address p device url sid) in
  let e := {| ev_delay := delay; ev_seq := sched_counter w;
              ev_device := device; ev_url_fn := url_fn;
              ev_sid := carried_sid r sid; ev_retry := 0 |} in
  exists w',
    _resubscribe get_ip_address (S fuel) device url_fn sid retry w
    = (Ok tt, w')
    /\ devices w' = devices w
    /\ _callbacks w' = _callbacks w
    /\ if timer_entry w device url_fn
       then trace w' = (trace w ++ [request; SchedEnter e])%list
            /\ sched_queue w' = (sched_queue w ++ [e])%list
            /\ _events w'
               = <[serialnumber device :=
                     Dict.set url_fn e
                       (default [] (_events w !! serialnumber device))]>
                   (_events w)
       else trace w' = (trace w ++ [request])%list
            /\ sched_queue w' = sched_queue w
            /\ _events w' = _events w.
Proof.
  intros Hu Hp Hn Hs Hnil Hlen Ht Hd request e.
  rewrite (resubscribe_unfold _ _ _ _ _ _ _ _ Hu Hp).
  unfold try_except.
  rewrite (url_resubscribe_accepted _ _ _ _ _ _ _ _
             (String.append "Second-" (NilEmpty.string_of_uint n)) Hu Hn).
  - cbv zeta. rewrite (int_of_granted_timeout n Hnil Hlen).
    destruct (timer_entry w device url_fn) eqn:Et.
    + rewrite Hd. eexists. split; [reflexivity|].
      split; [reflexivity|]. split; [reflexivity|].
      split; [|split; reflexivity].
      simpl. rewrite <- app_assoc. reflexivity.
    + eexists. split; [reflexivity|]. repeat split; reflexivity.
  - unfold accepted. apply Z.eqb_neq in Hs. rewrite Hs. reflexivity.
  - unfold granted_timeout. rewrite Ht. reflexivity.
Qed.

(** C4: when an attempt meets a transport error, the same attempt is
    scheduled again after 60 time units, and only if the timer entry of
    the device and endpoint still exists; the first failure in a row
    (the counter becomes 1) triggers no rediscovery; a later one (counter
    above 1) on a device with [rediscovery_enabled] calls the device's
    reconnect operation before the attempt is scheduled again. *)
Theorem resubscribe_transport_failure_retries_after_60
    (fuel : nat) (w : World) (device : Device) (url_fn : SubscribeUrlFn)
    (sid : option string) (retry : Z) (url : string) (p : Z)
    (requests : list action) :
  call_url_fn url_fn device = Ok url ->
  _httpd w = Some p ->
  transport_failure w sid url
    (subscribe_headers get_ip_address p device url sid) requests ->
  let rediscover := (1 <? retry + 1) && rediscovery_enabled device in
  let e := {| ev_delay := 60; ev_seq := sched_counter w;
              ev_device := device; ev_url_fn := url_fn;
              ev_sid := sid; ev_retry := retry + 1 |} in
  exists w',
    _resubscribe get_ip_address (S fuel) device url_fn sid retry w
    = (Ok tt, w')
    /\ devices w' = devices w
    /\ _callbacks w' = _callbacks w
    /\ trace w'
       = (trace w ++ requests
          ++ (if rediscover then [Reconnect device] else [])
          ++ (if timer_entry w device url_fn then [SchedEnter e] else []))%list
    /\ sched_queue w'
       = (sched_queue w ++ if timer_entry w device url_fn then [e] else [])%list
    /\ _events w'
       = if timer_entry w device url_fn
         then <[serialnumber device :=
                  Dict.set url_fn e
                    (default [] (_events w !! serialnumber device))]>
                (_events w)
         else _events w.
Proof.
  intros Hu Hp Hf rediscover e.
  rewrite (resubscribe_unfold _ _ _ _ _ _ _ _ Hu Hp).
  unfold try_except.
  assert (Hraise : exists w1,
    _url_resubscribe (_resubscribe get_ip_address fuel) device
      (subscribe_headers get_ip_address p device url sid) sid url_fn w
    = (Raise RequestException, w1)
    /\ devices w1 = devices w /\ _callbacks w1 = _callbacks w
    /\ _events w1 = _events w /\ sched_queue w1 = sched_queue w
    /\ sched_counter w1 = sched_counter w
    /\ trace w1 = (trace w ++ requests)%list).
  { destruct Hf as [Hn | r stale Hn Hs Ht Hn2].
    - rewrite (url_resubscribe_fails _ _ _ _ _ _ _ Hu Hn).
      eexists. split; [reflexivity|]. repeat split; reflexivity.
    - rewrite (url_resubscribe_stale _ _ _ _ _ _ _ _ _ Hu Hn Hs Ht).
      unfold bind. rewrite requests_request_eval. simpl. rewrite Hn2.
      eexists. split; [reflexivity|]. simpl.
      repeat split; try reflexivity. rewrite <- app_assoc. reflexivity. }
  destruct Hraise as (w1 & -> & Hd & Hc & He & Hq & Hk & Htr).
  rewrite decide_True by reflexivity.
  rewrite retry_handler_eval. fold rediscover.
  assert (Ht : timer_entry w1 device url_fn = timer_entry w device url_fn)
    by (unfold timer_entry; rewrite He; reflexivity).
  rewrite Ht. eexists. split; [reflexivity|].
  subst e.
  destruct rediscover, (timer_entry w device url_fn);
    unfold next_event, after_schedule, after_reconnect; simpl;
    rewrite ?Hd, ?Hc, ?He, ?Hq, ?Hk, ?Htr, <- ?app_assoc, ?app_nil_r;
    repeat split; reflexivity.
Qed.

(** A subscribe attempt without a SID sends one SUBSCRIBE request and then
    at most enters one timer; a transport error does not escape it. *)
Lemma fresh_attempt fuel w device url_fn url p :
  call_url_fn url_fn device = Ok url ->
  _httpd w = Some p ->
  exists res w' rest,
    _resubscribe get_ip_address (S fuel) device url_fn None 0 w = (res, w')
    /\ res <> Raise RequestException
    /\ res <> Raise RecursionError
    /\ trace w'
       = (trace w
          ++ [HttpRequest "SUBSCRIBE" url
                (subscribe_headers get_ip_address p device url None)]
          ++ rest)%list
    /\ (rest = [] \/ exists e, rest = [SchedEnter e]).
Proof.
  intros Hu Hp.
  rewrite (resubscribe_unfold _ _ _ _ _ _ _ _ Hu Hp). unfold try_except.
  destruct (network w (requests_made w)) as [r|] eqn:Hn.
  - assert (Hg : exists g,
      granted_timeout (subscribe_headers get_ip_address p device url None) r
      = Some g).
    { unfold granted_timeout.
      destruct (header_get "TIMEOUT" (response_headers r)); eauto. }
    destruct Hg as [g Hg].
    rewrite (url_resubscribe_accepted _ _ _ _ _ _ _ _ g Hu Hn);
      [|unfold accepted; destruct (status_code r =? 412); reflexivity
       |exact Hg].
    cbv zeta.
    destruct (Py.int (Py.replace "Second-" "" g)) as [t|e] eqn:Ei.
    + destruct (timer_entry w device url_fn).
      * destruct (three_quarters t) as [d|e] eqn:Eq.
        -- do 3 eexists. split; [reflexivity|]. split; [discriminate|].
           split; [discriminate|].
           split; [|right; eauto]. simpl. rewrite <- ?app_assoc. reflexivity.
        -- destruct (three_quarters_raises _ _ Eq) as [-> | ->];
             (rewrite decide_False by discriminate);
             do 2 eexists; exists []; (split; [reflexivity|]);
             (split; [discriminate|]); (split; [discriminate|]);
             (split; [|left; reflexivity]);
             reflexivity.
      * do 2 eexists. exists []. split; [reflexivity|].
        split; [discriminate|]. split; [discriminate|].
        split; [reflexivity|left; reflexivity].
    + rewrite (Py_int_raises _ _ Ei). rewrite decide_False by discriminate.
      do 2 eexists. exists []. split; [reflexivity|].
      split; [discriminate|]. split; [discriminate|].
      split; [reflexivity|left; reflexivity].
  - rewrite (url_resubscribe_fails _ _ _ _ _ _ _ Hu Hn).
    rewrite decide_True by reflexivity. rewrite retry_handler_eval.
    change ((1 <? 0 + 1) && rediscovery_enabled device) with false.
    cbv beta iota zeta. rewrite timer_entry_after_request.
    destruct (timer_entry w device url_fn).
    + do 3 eexists. split; [reflexivity|]. split; [discriminate|].
      split; [discriminate|].
      split; [|right; eauto]. simpl. rewrite <- ?app_assoc. reflexivity.
    + do 2 eexists. exists []. split; [reflexivity|].
      split; [discriminate|]. split; [discriminate|].
      split; [reflexivity|left; reflexivity].
Qed.

(** C5 (amended): a 412 answer to a SUBSCRIBE made with a non-empty SID
    is followed by one UNSUBSCRIBE request with that SID; when that
    request is answered, whatever the answer, the next action is a
    SUBSCRIBE without SID, with [CALLBACK] and [NT: upnp:event]; no
    further request is made in the attempt, and the recursion ends
    there. *)
Theorem resubscribe_412_unsubscribes_then_starts_over
    (fuel : nat) (w : World) (device : Device) (url_fn : SubscribeUrlFn)
    (sid : string) (retry : Z) (url : string) (p : Z) (r r2 : Response) :
  call_url_fn url_fn device = Ok url ->
  _httpd w = Some p ->
  sid <> "" ->
  network w (requests_made w) = Responds r ->
  status_code r = 412 ->
  network w (S (requests_made w)) = Responds r2 ->
  exists res w' rest,
    _resubscribe get_ip_address (S (S fuel)) device url_fn (Some sid) retry w
    = (res, w')
    /\ res <> Raise RecursionError
    /\ trace w'
       = (trace w
          ++ [HttpRequest "SUBSCRIBE" url
                [("TIMEOUT", "Second-300"); ("SID", sid)];
              HttpRequest "UNSUBSCRIBE" url [("SID", sid)];
              HttpRequest "SUBSCRIBE" url
                [("TIMEOUT", "Second-300");
                 ("CALLBACK",
                  String.concat ""
                    ["<http://"; get_ip_address (host device); ":";
                     Py.str_of_int p; "/";
                     Py.last_item (Py.rsplit "/" url); ">"]);
                 ("NT", "upnp:event")]]
          ++ rest)%list
    /\ (rest = [] \/ exists e, rest = [SchedEnter e]).
Proof.
  intros Hu Hp Hs Hn H412 Hn2.
  rewrite (resubscribe_unfold _ _ _ _ _ _ _ _ Hu Hp). unfold try_except.
  assert (Ht : truthy (Some sid) = Some sid)
    by (destruct sid; [congruence|reflexivity]).
  rewrite (url_resubscribe_stale _ _ _ _ _ _ _ _ _ Hu Hn H412 Ht).
  unfold bind at 1. rewrite requests_request_eval. simpl network.
  simpl requests_made. rewrite Hn2.
  set (w2 := after_request _ (after_request _ w)).
  destruct (fresh_attempt fuel w2 device url_fn url p Hu Hp)
    as (res & w' & rest & Hr & Hne & Hrec & Htr & Hrest).
  rewrite Hr. exists res, w', rest. split.
  - destruct res as [[]|e]; [reflexivity|].
    rewrite decide_False by congruence. reflexivity.
  - split; [exact Hrec|]. split; [|exact Hrest]. rewrite Htr. unfold w2.
    simpl. rewrite <- !app_assoc. reflexivity.
Qed.

(** C10: when the [TIMEOUT] value of an accepted response, without its
    [Second-], is not a decimal integer (as for [Second-abc]), [int]
    raises [ValueError], which [_resubscribe] does not catch: the call
    ends with that error and nothing is scheduled.  When the response has
    no [TIMEOUT] header the request's [Second-300] is parsed instead, and
    the next attempt is scheduled at delay 225. *)
Theorem resubscribe_timeout_not_an_integer_or_absent
    (fuel : nat) (w : World) (device : Device) (url_fn : SubscribeUrlFn)
    (sid : option string) (retry : Z) (url : string) (p : Z)
    (r : Response) :
  call_url_fn url_fn device = Ok url ->
  _httpd w = Some p ->
  network w (requests_made w) = Responds r ->
  status_code r <> 412 ->
  let request :=
    HttpRequest "SUBSCRIBE" url
      (subscribe_headers get_ip_address p device url sid) in
  (forall v,
      header_get "TIMEOUT" (response_headers r) = Some v ->
      Py.int (Py.replace "Second-" "" v) = Raise ValueError ->
      exists w',
        _resubscribe get_ip_address (S fuel) device url_fn sid retry w
        = (Raise ValueError, w')
        /\ trace w' = (trace w ++ [request])%list
        /\ sched_queue w' = sched_queue w
        /\ _events w' = _events w)
  /\ (header_get "TIMEOUT" (response_headers r) = None ->
      timer_entry w device url_fn = true ->
      let e := {| ev_delay := 225; ev_seq := sched_counter w;
                  ev_device := device; ev_url_fn := url_fn;
                  ev_sid := carried_sid r sid; ev_retry := 0 |} in
      exists w',
        _resubscribe get_ip_address (S fuel) device url_fn sid retry w
        = (Ok tt, w')
        /\ trace w' = (trace w ++ [request; SchedEnter e])%list
        /\ sched_queue w' = (sched_queue w ++ [e])%list
        /\ _events w'
           = <[serialnumber device :=
                 Dict.set url_fn e
                   (default [] (_events w !! serialnumber device))]>
               (_events w)).
Proof.
  intros Hu Hp Hn Hs request.
  assert (Ha : accepted r sid).
  { unfold accepted. apply Z.eqb_neq in Hs. rewrite Hs. reflexivity. }
  split.
  - intros v Hv Hi.
    rewrite (resubscribe_unfold _ _ _ _ _ _ _ _ Hu Hp). unfold try_except.
    rewrite (url_resubscribe_accepted _ _ _ _ _ _ _ _ v Hu Hn Ha);
      [|unfold granted_timeout; rewrite Hv; reflexivity].
    cbv zeta. rewrite Hi. rewrite decide_False by discriminate.
    eexists. split; [reflexivity|]. repeat split; reflexivity.
  - intros Hv Ht e.
    rewrite (resubscribe_unfold _ _ _ _ _ _ _ _ Hu Hp). unfold try_except.
    rewrite (url_resubscribe_accepted _ _ _ _ _ _ _ _ "Second-300" Hu Hn Ha);
      [|unfold granted_timeout; rewrite Hv;
        apply subscribe_headers_timeout].
    cbv zeta. rewrite default_timeout_parses, Ht, three_quarters_300.
    eexists. split; [reflexivity|].
    split; [|split; reflexivity].
    simpl. rewrite <- app_assoc. reflexivity.
Qed.

End Protocol.

(** *** The protocol at concrete inputs *)

(** [TIMEOUT: Second-400] with a new SID: the next attempt is entered at
    delay 300 with that SID. *)
Lemma resubscribe_schedules_three_quarters_of_granted_timeout_witness :
  exists w',
    _resubscribe local_ip 1 plug _basic_event_subscription_url
      (Some "uuid:old") 0 (registered grants_400) = (Ok tt, w')
    /\ sched_queue w'
       = (sched_queue (registered grants_400)
          ++ [{| ev_delay := 300; ev_seq := 1; ev_device := plug;
                 ev_url_fn := _basic_event_subscription_url;
                 ev_sid := Some "uuid:new"; ev_retry := 0 |}])%list.
Proof.
  destruct (resubscribe_schedules_three_quarters_of_granted_timeout
              local_ip 0 (registered grants_400) plug
              _basic_event_subscription_url (Some "uuid:old") 0
              "http://192.168.1.20:49153/upnp/event/basicevent1" 8989
              response_400 (D4 (D0 (D0 Nil))) 300)
    as (w' & H & _ & _ & Hif);
    [reflexivity | reflexivity | reflexivity | discriminate | discriminate
    | apply Nat.leb_le; reflexivity | reflexivity | reflexivity |].
  exists w'. split; [exact H|]. exact (proj1 (proj2 Hif)).
Defined.

(** C1 as stated fails for a granted timeout of 2^1024 seconds:
    [timeout * 0.75] raises [OverflowError], and no timer is entered
    although the timer entry exists. *)
Lemma resubscribe_huge_timeout_overflows :
  network (registered grants_huge) 0 = Responds huge_timeout
  /\ timer_entry (registered grants_huge) plug _basic_event_subscription_url
     = true
  /\ fst (_resubscribe local_ip 1 plug _basic_event_subscription_url
            (Some "uuid:old") 0 (registered grants_huge))
     = Raise OverflowError
  /\ sched_queue
       (snd (_resubscribe local_ip 1 plug _basic_event_subscription_url
               (Some "uuid:old") 0 (registered grants_huge)))
     = sched_queue (registered grants_huge).
Proof. repeat split; vm_compute; reflexivity. Qed.

(** A first failure: retry in 60, no rediscovery.  *)
Lemma resubscribe_transport_failure_retries_after_60_witness :
  exists w',
    _resubscribe local_ip 1 plug _basic_event_subscription_url
      (Some "uuid:old") 0 (registered unreachable) = (Ok tt, w')
    /\ trace w'
       = (trace (registered unreachable)
          ++ [HttpRequest "SUBSCRIBE"
                "http://192.168.1.20:49153/upnp/event/basicevent1"
                [("TIMEOUT", "Second-300"); ("SID", "uuid:old")];
              SchedEnter
                {| ev_delay := 60; ev_seq := 1; ev_device := plug;
                   ev_url_fn := _basic_event_subscription_url;
                   ev_sid := Some "uuid:old"; ev_retry := 1 |}])%list.
Proof.
  destruct (resubscribe_transport_failure_retries_after_60
              local_ip 0 (registered unreachable) plug
              _basic_event_subscription_url (Some "uuid:old") 0
              "http://192.168.1.20:49153/upnp/event/basicevent1" 8989
              [HttpRequest "SUBSCRIBE"
                 "http://192.168.1.20:49153/upnp/event/basicevent1"
                 [("TIMEOUT", "Second-300"); ("SID", "uuid:old")]])
    as (w' & H & _ & _ & Htrace & _);
    [reflexivity | reflexivity | apply subscribe_fails; reflexivity |].
  exists w'. split; [exact H|]. exact Htrace.
Defined.

(** A 412 while a SID is held, the device answering afterwards. *)
Lemma resubscribe_412_unsubscribes_then_starts_over_witness :
  exists res w' rest,
    _resubscribe local_ip 2 plug _basic_event_subscription_url
      (Some "uuid:old") 0 (registered stale_then_up) = (res, w')
    /\ trace w'
       = (trace (registered stale_then_up)
          ++ [HttpRequest "SUBSCRIBE"
                "http://192.168.1.20:49153/upnp/event/basicevent1"
                [("TIMEOUT", "Second-300"); ("SID", "uuid:old")];
              HttpRequest "UNSUBSCRIBE"
                "http://192.168.1.20:49153/upnp/event/basicevent1"
                [("SID", "uuid:old")];
              HttpRequest "SUBSCRIBE"
                "http://192.168.1.20:49153/upnp/event/basicevent1"
                [("TIMEOUT", "Second-300");
                 ("CALLBACK", "<http://192.168.1.2:8989/basicevent1>");
                 ("NT", "upnp:event")]]
          ++ rest)%list.
Proof.
  destruct (resubscribe_412_unsubscribes_then_starts_over
              local_ip 0 (registered stale_then_up) plug
              _basic_event_subscription_url "uuid:old" 0
              "http://192.168.1.20:49153/upnp/event/basicevent1" 8989
              {| status_code := 412; response_headers := [] |} response_400)
    as (res & w' & rest & H & _ & Htrace & _);
    [reflexivity | reflexivity | discriminate | reflexivity | reflexivity
    | reflexivity |].
  exists res, w', rest. split; [exact H|]. exact Htrace.
Defined.

(** C5 as stated fails when the UNSUBSCRIBE request meets a transport
    error: the error is not ignored, no SUBSCRIBE without SID follows, and
    a retry with the stale SID is entered at delay 60. *)
Lemma unsubscribe_failure_is_not_ignored :
  trace (snd (_resubscribe local_ip 2 plug _basic_event_subscription_url
                (Some "uuid:old") 0 (registered stale_then_down)))
  = (trace (registered stale_then_down)
     ++ [HttpRequest "SUBSCRIBE"
           "http://192.168.1.20:49153/upnp/event/basicevent1"
           [("TIMEOUT", "Second-300"); ("SID", "uuid:old")];
         HttpRequest "UNSUBSCRIBE"
           "http://192.168.1.20:49153/upnp/event/basicevent1"
           [("SID", "uuid:old")];
         SchedEnter
           {| ev_delay := 60; ev_seq := 1; ev_device := plug;
              ev_url_fn := _basic_event_subscription_url;
              ev_sid := Some "uuid:old"; ev_retry := 1 |}])%list.
Proof. vm_compute. reflexivity. Qed.

(** [Second-abc] is not an integer; without [TIMEOUT] the delay is 225. *)
Lemma resubscribe_timeout_not_an_integer_or_absent_witness :
  (exists w',
      _resubscribe local_ip 1 plug _basic_event_subscription_url
        (Some "uuid:old") 0
        (registered (fun _ => Responds response_not_integer))
      = (Raise ValueError, w')
      /\ sched_queue w'
         = sched_queue (registered (fun _ => Responds response_not_integer)))
  /\ (exists w',
         _resubscribe local_ip 1 plug _basic_event_subscription_url
           (Some "uuid:old") 0
           (registered (fun _ => Responds response_no_timeout))
         = (Ok tt, w')
         /\ sched_queue w'
            = (sched_queue (registered (fun _ => Responds response_no_timeout))
               ++ [{| ev_delay := 225; ev_seq := 1; ev_device := plug;
                      ev_url_fn := _basic_event_subscription_url;
                      ev_sid := Some "uuid:new"; ev_retry := 0 |}])%list).
Proof.
  split.
  - destruct (proj1 (resubscribe_timeout_not_an_integer_or_absent
                local_ip 0
                (registered (fun _ => Responds response_not_integer)) plug
                _basic_event_subscription_url (Some "uuid:old") 0
                "http://192.168.1.20:49153/upnp/event/basicevent1" 8989
                response_not_integer eq_refl eq_refl eq_refl
                ltac:(discriminate))
              "Second-abc" eq_refl eq_refl)
      as (w' & H & _ & Hq & _).
    exists w'. split; assumption.
  - destruct (proj2 (resubscribe_timeout_not_an_integer_or_absent
                local_ip 0
                (registered (fun _ => Responds response_no_timeout)) plug
                _basic_event_subscription_url (Some "uuid:old") 0
                "http://192.168.1.20:49153/upnp/event/basicevent1" 8989
                response_no_timeout eq_refl eq_refl eq_refl
                ltac:(discriminate))
              eq_refl eq_refl)
      as (w' & H & _ & Hq & _).
    exists w'. split; assumption.
Defined.

(** ** One live timer for each device and endpoint *)

Lemma dict_get_set_eq {K V} `{EqDecision K} (k : K) (v : V) d :
  Dict.get k (Dict.set k v d) = Some v.
Proof.
  induction d as [|[k' v'] r IH]; simpl.
  - rewrite decide_True by reflexivity. reflexivity.
  - destruct (decide (k = k')) as [->|Hne]; simpl.
    + rewrite decide_True by reflexivity. reflexivity.
    + rewrite decide_False by assumption. exact IH.
Qed.

Lemma dict_get_set_ne {K V} `{EqDecision K} (k k0 : K) (v : V) d :
  k0 <> k -> Dict.get k0 (Dict.set k v d) = Dict.get k0 d.
Proof.
  intros Hne. induction d as [|[k' v'] r IH]; simpl.
  - rewrite decide_False by assumption. reflexivity.
  - destruct (decide (k = k')) as [->|Hk]; simpl.
    + rewrite !decide_False by assumption. reflexivity.
    + destruct (decide (k0 = k')); [reflexivity|exact IH].
Qed.

Lemma dict_get_values {K V} `{EqDecision K} (k : K) (v : V) d :
  Dict.get k d = Some v -> v ∈ Dict.values d.
Proof.
  induction d as [|[k' v'] r IH]; simpl; [discriminate|].
  destruct (decide (k = k')).
  - intros [= ->]. left.
  - intros H. right. apply IH. exact H.
Qed.

Lemma NoDup_list_filter {A} (P : A -> bool) (l : list A) :
  NoDup l -> NoDup (List.filter P l).
Proof.
  induction 1 as [|x l Hx Hl IH]; simpl; [constructor|].
  destruct (P x); [|exact IH]. constructor; [|exact IH].
  intros Hin. apply Hx.
  apply list_elem_of_In, List.filter_In in Hin as [Hin _].
  apply list_elem_of_In. exact Hin.
Qed.

(** At most one pending timer for a serial number and an endpoint. *)
Lemma timers_ok_at_most_one w serial url_fn :
  timers_ok w -> (length (pending w serial url_fn) <= 1)%nat.
Proof.
  intros [Hrec _ Hnd]. unfold pending.
  set (P := fun e => bool_decide (serialnumber (ev_device e) = serial)
                     && bool_decide (ev_url_fn e = url_fn)).
  assert (Hall : forall e1 e2,
    e1 ∈ List.filter P (sched_queue w) ->
    e2 ∈ List.filter P (sched_queue w) -> e1 = e2).
  { intros e1 e2 H1 H2.
    apply list_elem_of_In, List.filter_In in H1 as [H1 P1].
    apply list_elem_of_In, List.filter_In in H2 as [H2 P2].
    unfold P in P1, P2.
    apply andb_prop in P1 as [S1 F1]. apply andb_prop in P2 as [S2 F2].
    apply bool_decide_eq_true_1 in S1, F1, S2, F2.
    destruct (Hrec e1 (proj2 (list_elem_of_In _ _) H1)) as (d1 & L1 & G1).
    destruct (Hrec e2 (proj2 (list_elem_of_In _ _) H2)) as (d2 & L2 & G2).
    rewrite S1 in L1. rewrite S2 in L2. rewrite F1 in G1. rewrite F2 in G2.
    congruence. }
  pose proof (NoDup_list_filter P _ Hnd) as Hnd'.
  destruct (List.filter P (sched_queue w)) as [|a [|b l]]; simpl; try lia.
  exfalso. apply NoDup_cons in Hnd' as [Ha _]. apply Ha.
  rewrite (Hall a b); [left | left | right; left].
Qed.

Lemma new_registry_timers_ok net : timers_ok (new_registry net).
Proof.
  split; simpl.
  - intros e He. inversion He.
  - intros e He. inversion He.
  - constructor.
Qed.

Lemma same_registry_refl w : same_registry w w.
Proof. repeat split; reflexivity. Qed.

Lemma same_registry_trans w1 w2 w3 :
  same_registry w1 w2 -> same_registry w2 w3 -> same_registry w1 w3.
Proof.
  intros (Hd1 & Hc1 & Hh1 & He1 & Hq1 & Hk1)
    (Hd2 & Hc2 & Hh2 & He2 & Hq2 & Hk2).
  repeat split; congruence.
Qed.

Lemma enters_at_most_one_from device url_fn w1 w w' :
  same_registry w1 w ->
  enters_at_most_one device url_fn w1 w' ->
  enters_at_most_one device url_fn w w'.
Proof.
  intros Hs [Hsame | (delay & sid & retry & Ht & Hd & Hc & Hh & Hq & He & Hk)].
  - left. eapply same_registry_trans; eassumption.
  - destruct Hs as (Hd0 & Hc0 & Hh0 & D & E & F).
    right. exists delay, sid, retry.
    unfold timer_entry, next_event in *. rewrite D, E, F in *.
    repeat split; congruence.
Qed.

Lemma after_request_same a w : same_registry (after_request a w) w.
Proof. repeat split; reflexivity. Qed.

Lemma after_reconnect_same device w :
  same_registry (after_reconnect device w) w.
Proof. repeat split; reflexivity. Qed.

Lemma after_schedule_enters delay device url_fn sid retry w :
  timer_entry w device url_fn = true ->
  enters_at_most_one device url_fn w
    (after_schedule (next_event w delay device url_fn sid retry) w).
Proof.
  intros Ht. right. exists delay, sid, retry. repeat split; auto.
Qed.

Lemma retry_handler_enters device url_fn sid retry w :
  exists w',
    retry_handler device url_fn sid retry w = (Ok tt, w')
    /\ enters_at_most_one device url_fn w w'.
Proof.
  rewrite retry_handler_eval. eexists. split; [reflexivity|]. cbv zeta.
  destruct ((1 <? retry + 1) && rediscovery_enabled device).
  - destruct (timer_entry w device url_fn) eqn:Et.
    + apply enters_at_most_one_from with (w1 := after_reconnect device w);
        [apply after_reconnect_same|].
      apply after_schedule_enters. exact Et.
    + left. apply after_reconnect_same.
  - destruct (timer_entry w device url_fn) eqn:Et.
    + apply after_schedule_enters. exact Et.
    + left. apply same_registry_refl.
Qed.

Lemma call_url_fn_raises url_fn device e :
  call_url_fn url_fn device = Raise e -> e = AttributeError.
Proof.
  destruct url_fn; simpl; [discriminate|].
  destruct (insight device); [discriminate|]. intros [= <-]. reflexivity.
Qed.

Lemma url_resubscribe_enters rec device hdrs sid url_fn w url :
  call_url_fn url_fn device = Ok url ->
  Dict.get "TIMEOUT" hdrs = Some "Second-300" ->
  (forall w0, exists res w',
      rec device url_fn None 0 w0 = (res, w')
      /\ res <> Raise RequestException
      /\ enters_at_most_one device url_fn w0 w') ->
  exists res w',
    _url_resubscribe rec device hdrs sid url_fn w = (res, w')
    /\ ((res = Raise RequestException /\ same_registry w' w)
        \/ (res <> Raise RequestException
            /\ enters_at_most_one device url_fn w w')).
Proof.
  intros Hu Hh Hrec.
  destruct (network w (requests_made w)) as [r|] eqn:Hn.
  - destruct (if status_code r =? 412 then truthy sid else None)
      as [stale|] eqn:Hs.
    + assert (H412 : status_code r = 412 /\ truthy sid = Some stale).
      { destruct (status_code r =? 412) eqn:E; [|discriminate].
        split; [apply Z.eqb_eq; exact E|exact Hs]. }
      destruct H412 as [H412 Ht].
      rewrite (url_resubscribe_stale _ _ _ _ _ _ _ _ _ Hu Hn H412 Ht).
      unfold bind at 1. rewrite requests_request_eval.
      set (w1 := after_request (HttpRequest "SUBSCRIBE" url hdrs) w).
      set (w2 := after_request _ w1).
      assert (Hsame : same_registry w2 w) by (repeat split; reflexivity).
      destruct (network w1 (requests_made w1)).
      * destruct (Hrec w2) as (res & w' & Hr & Hne & He).
        exists res, w'. split; [exact Hr|]. right. split; [exact Hne|].
        eapply enters_at_most_one_from; eassumption.
      * do 2 eexists. split; [reflexivity|]. left. split; [reflexivity|].
        exact Hsame.
    + assert (Hg : exists g, granted_timeout hdrs r = Some g).
      { unfold granted_timeout.
        destruct (header_get "TIMEOUT" (response_headers r)); eauto. }
      destruct Hg as [g Hg].
      rewrite (url_resubscribe_accepted _ _ _ _ _ _ _ _ g Hu Hn Hs Hg).
      cbv zeta.
      set (w1 := after_request (HttpRequest "SUBSCRIBE" url hdrs) w).
      assert (Hsame : same_registry w1 w) by (repeat split; reflexivity).
      destruct (Py.int (Py.replace "Second-" "" g)) as [t|e] eqn:Ei.
      * destruct (timer_entry w device url_fn) eqn:Et.
        -- destruct (three_quarters t) as [d|e] eqn:Eq.
           ++ do 2 eexists. split; [reflexivity|]. right.
              split; [discriminate|].
              eapply enters_at_most_one_from; [exact Hsame|].
              apply after_schedule_enters. exact Et.
           ++ do 2 eexists. split; [reflexivity|]. right. split.
              ** destruct (three_quarters_raises _ _ Eq) as [-> | ->];
                   discriminate.
              ** left. exact Hsame.
        -- do 2 eexists. split; [reflexivity|]. right.
           split; [discriminate|]. left. exact Hsame.
      * do 2 eexists. split; [reflexivity|]. right. split.
        -- rewrite (Py_int_raises _ _ Ei). discriminate.
        -- left. exact Hsame.
  - rewrite (url_resubscribe_fails _ _ _ _ _ _ _ Hu Hn).
    do 2 eexists. split; [reflexivity|]. left. split; [reflexivity|].
    apply after_request_same.
Qed.

Section TimerChain.
Variable get_ip_address : string -> string.

(** Whatever the network answers, a call of [_resubscribe] does not end
    with a transport error and enters at most one event, for its own
    device and endpoint. *)
Lemma resubscribe_enters_at_most_one fuel :
  forall device url_fn sid retry w,
  exists res w',
    _resubscribe get_ip_address fuel device url_fn sid retry w = (res, w')
    /\ res <> Raise RequestException
    /\ enters_at_most_one device url_fn w w'.
Proof.
  induction fuel as [|fuel IH]; intros device url_fn sid retry w.
  - do 2 eexists. split; [reflexivity|]. split; [discriminate|].
    left. apply same_registry_refl.
  - destruct (call_url_fn url_fn device) as [url|e] eqn:Hu.
    + assert (Hcase :
        (sid = None /\ _httpd w = None)
        \/ exists hdrs,
             Dict.get "TIMEOUT" hdrs = Some "Second-300"
             /\ _resubscribe get_ip_address (S fuel) device url_fn sid retry w
                = try_except
                    (_url_resubscribe (_resubscribe get_ip_address fuel)
                       device hdrs sid url_fn)
                    RequestException
                    (retry_handler device url_fn sid retry) w).
      { destruct sid as [s|].
        - right. eexists. split; [|cbn [_resubscribe]; unfold bind at 1;
            unfold lift at 1; rewrite Hu; reflexivity]. reflexivity.
        - destruct (_httpd w) as [p|] eqn:Hp.
          + right. exists (subscribe_headers get_ip_address p device url None).
            split; [reflexivity|].
            apply (resubscribe_unfold _ _ _ _ _ _ _ _ p Hu Hp).
          + left. split; reflexivity. }
      destruct Hcase as [[-> Hp] | (hdrs & Hh & ->)].
      * cbn [_resubscribe]. unfold bind at 1. unfold lift at 1. rewrite Hu.
        unfold bind at 1. unfold port, bind, get_world. rewrite Hp.
        do 2 eexists. split; [reflexivity|]. split; [discriminate|].
        left. apply same_registry_refl.
      * unfold try_except.
        destruct (url_resubscribe_enters (_resubscribe get_ip_address fuel)
                    device hdrs sid url_fn w url Hu Hh)
          as (res & w1 & -> & [[-> Hsame] | [Hne He]]).
        -- intros w0. apply IH.
        -- rewrite decide_True by reflexivity.
           destruct (retry_handler_enters device url_fn sid retry w1)
             as (w' & -> & He).
           do 2 eexists. split; [reflexivity|]. split; [discriminate|].
           eapply enters_at_most_one_from; eassumption.
        -- exists res, w1. split.
           ++ destruct res as [[]|e]; [reflexivity|].
              rewrite decide_False by congruence. reflexivity.
           ++ split; assumption.
    + cbn [_resubscribe]. unfold bind at 1. unfold lift at 1. rewrite Hu.
      do 2 eexists. split; [reflexivity|]. split.
      * rewrite (call_url_fn_raises _ _ _ Hu). discriminate.
      * left. apply same_registry_refl.
Qed.

End TimerChain.

Lemma timers_ok_fields w1 w2 :
  _events w1 = _events w2 ->
  sched_queue w1 = sched_queue w2 ->
  sched_counter w1 = sched_counter w2 ->
  timers_ok w2 -> timers_ok w1.
Proof.
  intros He Hq Hk [Hrec Hnum Hnd]. split.
  - intros e Hin. rewrite Hq in Hin. destruct (Hrec e Hin) as (d & L & G).
    exists d. rewrite He. split; assumption.
  - intros e Hin. rewrite Hq in Hin. rewrite Hk. apply Hnum. exact Hin.
  - rewrite Hq. exact Hnd.
Qed.

Lemma timers_ok_same w1 w :
  same_registry w1 w -> timers_ok w -> timers_ok w1.
Proof.
  intros (_ & _ & _ & He & Hq & Hk). apply timers_ok_fields; assumption.
Qed.

(** Entering and recording an event for a device and endpoint that have no
    pending event keeps the timers in order. *)
Lemma after_schedule_timers_ok w delay device url_fn sid retry :
  timers_ok w ->
  is_Some (_events w !! serialnumber device) ->
  (forall e, e ∈ sched_queue w ->
             serialnumber (ev_device e) = serialnumber device ->
             ev_url_fn e <> url_fn) ->
  timers_ok (after_schedule (next_event w delay device url_fn sid retry) w).
Proof.
  intros [Hrec Hnum Hnd] [d Hd] Hfree.
  set (e := next_event w delay device url_fn sid retry).
  split; simpl.
  - intros x Hx. apply elem_of_app in Hx as [Hx | Hx].
    + destruct (Hrec x Hx) as (dx & Lx & Gx).
      destruct (decide (serialnumber (ev_device x) = serialnumber device))
        as [Hs | Hs].
      * exists (Dict.set url_fn e d). simpl. rewrite Hs, lookup_insert_eq, Hd.
        split; [reflexivity|]. simpl.
        rewrite dict_get_set_ne by (apply Hfree; assumption).
        rewrite Hs, Hd in Lx. injection Lx as ->. exact Gx.
      * exists dx. simpl. rewrite lookup_insert_ne by congruence.
        split; assumption.
    + apply list_elem_of_singleton in Hx. subst x.
      exists (Dict.set url_fn e d). simpl. rewrite lookup_insert_eq, Hd.
      split; [reflexivity|]. apply dict_get_set_eq.
  - intros x Hx. apply elem_of_app in Hx as [Hx | Hx].
    + specialize (Hnum x Hx). lia.
    + apply list_elem_of_singleton in Hx. subst x. simpl. lia.
  - apply NoDup_app. split; [exact Hnd|]. split; [|apply NoDup_singleton].
    intros x Hx Hx'. apply list_elem_of_singleton in Hx'. subst x.
    specialize (Hnum e Hx). simpl in Hnum. lia.
Qed.

Lemma timers_ok_enters device url_fn w w' :
  timers_ok w ->
  (forall e, e ∈ sched_queue w ->
             serialnumber (ev_device e) = serialnumber device ->
             ev_url_fn e <> url_fn) ->
  enters_at_most_one device url_fn w w' ->
  timers_ok w'.
Proof.
  intros Hok Hfree
    [Hsame | (delay & sid & retry & Ht & _ & _ & _ & Hq & He & Hk)].
  - eapply timers_ok_same; eassumption.
  - destruct (timer_entry_lookup _ _ _ Ht) as [d Hd].
    eapply timers_ok_fields;
      [| | | apply (after_schedule_timers_ok w delay device url_fn sid retry
                      Hok (ex_intro _ d Hd) Hfree)]; assumption.
Qed.

Lemma list_remove_none e q : list_remove e q = None -> e ∉ q.
Proof.
  induction q as [|x r IH]; simpl; intros H Hin.
  - inversion Hin.
  - destruct (decide (x = e)) as [->|Hne]; [discriminate|].
    destruct (list_remove e r); [discriminate|].
    apply elem_of_cons in Hin as [->|Hin]; [congruence|].
    apply IH; [reflexivity|exact Hin].
Qed.

Lemma list_remove_some e q q' :
  list_remove e q = Some q' ->
  NoDup q ->
  NoDup q' /\ forall x, x ∈ q' <-> x ∈ q /\ x <> e.
Proof.
  revert q'. induction q as [|y r IH]; simpl; intros q' H Hnd; [discriminate|].
  apply NoDup_cons in Hnd as [Hy Hr].
  destruct (decide (y = e)) as [->|Hne].
  - injection H as <-. split; [exact Hr|]. intros x. split.
    + intros Hx. split; [right; exact Hx|]. intros ->. contradiction.
    + intros [Hx Hxe]. apply elem_of_cons in Hx as [->|Hx];
        [congruence|exact Hx].
  - destruct (list_remove e r) as [r'|] eqn:Er; [|discriminate].
    injection H as <-. destruct (IH r' eq_refl Hr) as [Hnd' Hiff].
    split.
    + apply NoDup_cons. split; [|exact Hnd'].
      intros Hin. apply Hiff in Hin as [Hin _]. contradiction.
    + intros x. rewrite !elem_of_cons, Hiff. split.
      * intros [-> | [Hx Hxe]]; split; auto.
      * intros [[-> | Hx] Hxe]; auto.
Qed.

Lemma list_remove_elem e q q' : list_remove e q = Some q' -> e ∈ q.
Proof.
  revert q'. induction q as [|y r IH]; simpl; intros q' H; [discriminate|].
  destruct (decide (y = e)) as [->|Hne]; [left|].
  destruct (list_remove e r) as [r'|]; [|discriminate].
  right. eapply IH. reflexivity.
Qed.

Lemma schedule_eval_some delay device url_fn sid retry w d :
  _events w !! serialnumber device = Some d ->
  _schedule delay device url_fn sid retry w
  = (Ok tt, after_schedule (next_event w delay device url_fn sid retry) w).
Proof.
  intros Hd.
  unfold _schedule, sched_enter, bind, get_world, modify, log_action, ret.
  simpl. rewrite Hd. unfold after_schedule. simpl. rewrite Hd. reflexivity.
Qed.

(** The events of a dictionary leave the queue; the other events stay. *)
Lemma cancel_events_queue events w :
  NoDup (sched_queue w) ->
  exists w',
    _cancel_events events w = (Ok tt, w')
    /\ _events w' = _events w
    /\ sched_counter w' = sched_counter w
    /\ NoDup (sched_queue w')
    /\ forall x, x ∈ sched_queue w' <-> x ∈ sched_queue w /\ x ∉ events.
Proof.
  revert w. induction events as [|e rest IH]; intros w Hnd.
  - exists w. split; [reflexivity|]. split; [reflexivity|].
    split; [reflexivity|]. split; [exact Hnd|]. intros x. split.
    + intros Hx. split; [exact Hx|]. intros H. inversion H.
    + intros [Hx _]. exact Hx.
  - simpl. unfold bind at 1. unfold try_except, sched_cancel.
    unfold bind at 1. unfold log_action, modify. unfold bind at 1.
    unfold get_world. simpl.
    destruct (list_remove e (sched_queue w)) as [q|] eqn:Er.
    + destruct (list_remove_some _ _ _ Er Hnd) as [Hq Hiff].
      destruct (IH (with_sched q (sched_counter w)
                      (with_trace (trace w ++ [SchedCancel e])%list w)) Hq)
        as (w' & H & He & Hk & Hnd' & Hmem).
      exists w'. simpl in *. rewrite H. split; [reflexivity|].
      split; [exact He|]. split; [exact Hk|]. split; [exact Hnd'|].
      intros x. rewrite Hmem, Hiff, elem_of_cons. split.
      * intros [[Hx Hne] Hr]. split; [exact Hx|]. intros [->|Hin]; auto.
      * intros [Hx Hnot]. split; [split; [exact Hx|]|]; intros H0;
          apply Hnot; [left; exact H0|right; exact H0].
    + unfold raise. rewrite decide_True by reflexivity. unfold ret.
      pose proof (list_remove_none _ _ Er) as Hne.
      destruct (IH (with_trace (trace w ++ [SchedCancel e])%list w) Hnd)
        as (w' & H & He & Hk & Hnd' & Hmem).
      exists w'. simpl in *. rewrite H. split; [reflexivity|].
      split; [exact He|]. split; [exact Hk|]. split; [exact Hnd'|].
      intros x. rewrite Hmem, elem_of_cons. split.
      * intros [Hx Hr]. split; [exact Hx|]. intros [->|Hin]; auto.
      * intros [Hx Hnot]. split; [exact Hx|]. intros H0. apply Hnot.
        right. exact H0.
Qed.

Section TimerInvariant.
Variable get_ip_address : string -> string.
Variable bindable : Z -> bool.

Lemma run_event_timers_ok fuel e w :
  timers_ok w -> timers_ok (snd (run_event get_ip_address fuel e w)).
Proof.
  intros Hok. unfold run_event, bind, get_world.
  destruct (list_remove e (sched_queue w)) as [q|] eqn:Er; [|exact Hok].
  destruct Hok as [Hrec Hnum Hnd].
  destruct (list_remove_some _ _ _ Er Hnd) as [Hq Hiff].
  pose proof (list_remove_elem _ _ _ Er) as Hin.
  unfold modify. set (w1 := with_sched q (sched_counter w) w).
  destruct (resubscribe_enters_at_most_one get_ip_address fuel (ev_device e)
              (ev_url_fn e) (ev_sid e) (ev_retry e) w1)
    as (res & w' & Hr & _ & He).
  rewrite Hr. simpl.
  apply (timers_ok_enters (ev_device e) (ev_url_fn e) w1 w'); [| |exact He].
  - split; simpl.
    + intros x Hx. apply Hiff in Hx as [Hx _]. exact (Hrec x Hx).
    + intros x Hx. apply Hiff in Hx as [Hx _]. exact (Hnum x Hx).
    + exact Hq.
  - simpl. intros x Hx Hs Hf. apply Hiff in Hx as [Hx Hne]. apply Hne.
    destruct (Hrec x Hx) as (dx & Lx & Gx).
    destruct (Hrec e Hin) as (de & Le & Ge).
    rewrite Hs in Lx. rewrite Hf in Gx. congruence.
Qed.

Lemma register_timers_ok device w :
  timers_ok w ->
  _events w !! serialnumber device = None ->
  timers_ok (snd (register (Some device) w)).
Proof.
  intros Hok Hnone. unfold register.
  unfold bind at 1. unfold modify at 1.
  unfold bind at 1. unfold modify at 1.
  set (w1 := with_events (insert (serialnumber device) [])
               (with_devices (insert (host device) device) w)).
  assert (Hfresh : forall e, e ∈ sched_queue w ->
                     serialnumber (ev_device e) <> serialnumber device).
  { intros e He Hs. destruct (pending_recorded _ Hok e He) as (d & L & _).
    rewrite Hs in L. congruence. }
  assert (Hok1 : timers_ok w1).
  { destruct Hok as [Hrec Hnum Hnd]. split; simpl.
    - intros e He. destruct (Hrec e He) as (d & L & G). exists d. simpl.
      rewrite lookup_insert_ne by (intros Heq; apply (Hfresh e He); auto).
      split; assumption.
    - exact Hnum.
    - exact Hnd. }
  assert (H1 : _events w1 !! serialnumber device = Some [])
    by (simpl; apply lookup_insert_eq).
  unfold bind at 1. rewrite (schedule_eval_some _ _ _ _ _ _ _ H1).
  set (w2 := after_schedule _ w1).
  assert (Hok2 : timers_ok w2).
  { apply after_schedule_timers_ok; [exact Hok1|eauto|].
    intros e He Hs. exfalso. exact (Hfresh e He Hs). }
  destruct (insight device); [|exact Hok2].
  assert (H2 : is_Some (_events w2 !! serialnumber device))
    by (simpl; rewrite lookup_insert_eq; eauto).
  destruct H2 as [d2 H2]. rewrite (schedule_eval_some _ _ _ _ _ _ _ H2).
  simpl. apply after_schedule_timers_ok; [exact Hok2|eauto|].
  intros e He Hs. simpl in He. apply elem_of_app in He as [He | He].
  - exfalso. exact (Hfresh e He Hs).
  - apply list_elem_of_singleton in He. subst e. discriminate.
Qed.

Lemma unregister_timers_ok device w :
  timers_ok w -> timers_ok (snd (unregister (Some device) w)).
Proof.
  intros Hok.
  assert (Hmid : exists w1,
    unregister (Some device) w
    = (devices_getitem (host device) ;;
       modify (with_devices (delete (host device)))) w1
    /\ timers_ok w1).
  { unfold unregister.
    assert (H1 : exists r wa,
      callbacks_getitem (serialnumber device) w = (Ok r, wa)
      /\ _events wa = _events w /\ sched_queue wa = sched_queue w
      /\ sched_counter wa = sched_counter w).
    { unfold callbacks_getitem, bind, get_world.
      destruct (_callbacks w !! serialnumber device);
        do 2 eexists; (split; [reflexivity|]); repeat split; reflexivity. }
    destruct H1 as (r & wa & Ha & Hea & Hqa & Hka).
    rewrite (bind_ok _ _ _ _ _ Ha).
    unfold bind at 1. unfold modify at 1.
    unfold bind at 1. unfold get_world at 1.
    unfold bind at 1.
    set (wb := with_callbacks (delete (serialnumber device)) wa).
    assert (Hokb : timers_ok wb)
      by (apply (timers_ok_fields wb w); assumption).
    change (_events wb) with (_events wa). rewrite Hea.
    destruct (_events w !! serialnumber device) as [events|] eqn:Ee.
    - unfold bind at 1.
      destruct (cancel_events_queue (Dict.values events) wb
                  (pending_once _ Hokb))
        as (wc & Hc & Hec & Hkc & Hndc & Hmem).
      rewrite Hc. unfold modify at 1.
      eexists. split; [reflexivity|].
      destruct Hokb as [Hrec Hnum Hnd]. split; simpl.
      + intros x Hx. apply Hmem in Hx as [Hx Hnot].
        destruct (Hrec x Hx) as (d & L & G).
        change (_events wb) with (_events wa) in L. rewrite Hea in L.
        destruct (decide (serialnumber (ev_device x) = serialnumber device))
          as [Hs|Hs].
        * exfalso. apply Hnot. rewrite Hs, Ee in L. injection L as <-.
          eapply dict_get_values. exact G.
        * exists d. simpl. rewrite Hec. change (_events wb) with (_events wa).
          rewrite Hea. rewrite lookup_delete_ne by congruence.
          split; assumption.
      + intros x Hx. apply Hmem in Hx as [Hx _]. rewrite Hkc.
        exact (Hnum x Hx).
      + exact Hndc.
    - unfold ret at 1. eexists. split; [reflexivity|]. exact Hokb. }
  destruct Hmid as (w1 & -> & Hok1).
  unfold bind, devices_getitem, get_world, bind.
  destruct (devices w1 !! host device); simpl; [|exact Hok1].
  apply (timers_ok_fields _ w1); auto.
Qed.

(** Every operation keeps the timers in order, [register] on the condition
    that the serial number has no timer dictionary yet. *)
Theorem perform_timers_ok fuel op w :
  timers_ok w ->
  first_registration w op ->
  timers_ok (snd (perform get_ip_address bindable fuel op w)).
Proof.
  intros Hok Hfirst. destruct op as [d|d|d f cb|d t v| |e]; simpl.
  - apply register_timers_ok; assumption.
  - apply unregister_timers_ok; assumption.
  - unfold on, callbacks_getitem, bind, get_world.
    destruct (_callbacks w !! serialnumber d); simpl;
      apply (timers_ok_fields _ w); auto.
  - unfold event, bind, get_world. rewrite invoke_matching_trace. simpl.
    apply (timers_ok_fields _ w); auto.
  - unfold start. destruct (_start_server bindable); simpl;
      [apply (timers_ok_fields _ w); auto|exact Hok].
  - apply run_event_timers_ok; assumption.
Qed.

(** Along a run from a new registry in which calls of [register],
    [unregister], [on], [event] and [start] and whole attempts of fired
    timers follow one another, and which registers no serial number that
    has a timer dictionary, no serial number and endpoint has more than
    one pending timer. *)
Theorem one_timer_when_registered_once fuel ops net serial url_fn :
  first_registrations get_ip_address bindable fuel ops (new_registry net) ->
  (length
     (pending (perform_all get_ip_address bindable fuel ops
                 (new_registry net)) serial url_fn) <= 1)%nat.
Proof.
  intros Hfirst. apply timers_ok_at_most_one.
  pose proof (new_registry_timers_ok net) as Hok.
  revert Hfirst Hok. generalize (new_registry net).
  induction ops as [|op rest IH]; intros w Hfirst Hok; [exact Hok|].
  destruct Hfirst as [H1 Hrest]. simpl. apply IH; [exact Hrest|].
  apply perform_timers_ok; assumption.
Qed.

End TimerInvariant.

(** X3: after [register] on a registry whose scheduler holds no timer of
    the serial number, each endpoint of the device has one pending timer,
    and the insight endpoint has one exactly when the device has the
    insight service. *)
Lemma register_schedules_each_endpoint_once device w :
  (forall e, e ∈ sched_queue w ->
             serialnumber (ev_device e) <> serialnumber device) ->
  exists w',
    register (Some device) w = (Ok tt, w')
    /\ length (pending w' (serialnumber device) _basic_event_subscription_url)
       = 1%nat
    /\ length (pending w' (serialnumber device)
                 _insight_event_subscription_url)
       = match insight device with Some _ => 1%nat | None => 0%nat end
    /\ timer_entry w' device _basic_event_subscription_url = true
    /\ timer_entry w' device _insight_event_subscription_url
       = match insight device with Some _ => true | None => false end.
Proof.
  intros Hfresh.
  assert (Hnone : forall f,
    List.filter
      (fun e => bool_decide (serialnumber (ev_device e) = serialnumber device)
                && bool_decide (ev_url_fn e = f)) (sched_queue w) = []).
  { intros f. induction (sched_queue w) as [|e q IH]; [reflexivity|].
    simpl. rewrite bool_decide_eq_false_2.
    - apply IH. intros e' He'. apply Hfresh. right. exact He'.
    - apply Hfresh. left. }
  unfold register, _schedule, sched_enter, bind, modify, get_world,
    log_action, ret. simpl.
  rewrite !lookup_insert_eq. simpl.
  destruct (insight device) as [u|] eqn:Ei; simpl.
  - rewrite !lookup_insert_eq. simpl.
    eexists. split; [reflexivity|]. unfold pending, timer_entry. simpl.
    rewrite !lookup_insert_eq. rewrite <- !app_assoc.
    rewrite !List.filter_app, !Hnone. simpl.
    rewrite !bool_decide_eq_true_2 by reflexivity. simpl.
    repeat split; reflexivity.
  - eexists. split; [reflexivity|]. unfold pending, timer_entry. simpl.
    rewrite !lookup_insert_eq.
    rewrite !List.filter_app, !Hnone. simpl.
    rewrite !bool_decide_eq_true_2 by reflexivity. simpl.
    repeat split; reflexivity.
Qed.

(** C6: a second [register] of a device replaces its timer dictionary
    without cancelling the events in it: the scheduler then holds two
    pending timers for the basic-event endpoint of the serial number, of
    which [_events] records one; the other still fires, and enters a timer
    of its own. *)
Theorem register_twice_leaves_two_pending_timers :
  pending registered_twice (serialnumber plug) _basic_event_subscription_url
  = [first_timer; second_timer]
  /\ _events registered_twice !! serialnumber plug
     = Some [(_basic_event_subscription_url, second_timer)]
  /\ length
       (pending
          (snd (run_event local_ip 2 first_timer registered_twice))
          (serialnumber plug) _basic_event_subscription_url)
     = 2%nat.
Proof. repeat split; vm_compute; reflexivity. Qed.

(** ** The request handlers *)

Lemma send_response_eval c b t w :
  _send_response c b t w
  = (Ok {| code := c;
           sent_headers :=
             [("Content-Type", t);
              ("Content-Length", Py.str_of_int (Z.of_nat (String.length b)));
              ("Connection", "close")];
           body := b |}, w).
Proof. reflexivity. Qed.

Lemma then_send_response (m : M unit) c b t w resp w' :
  (m ;; _send_response c b t) w = (Ok resp, w') ->
  resp = {| code := c;
            sent_headers :=
              [("Content-Type", t);
               ("Content-Length", Py.str_of_int (Z.of_nat (String.length b)));
               ("Connection", "close")];
            body := b |}.
Proof.
  unfold bind. destruct (m w) as [[[]|e] w1]; [|discriminate].
  rewrite send_response_eval. intros [= <- _]. reflexivity.
Qed.

Section HandlerProps.
Variable allocates : Z -> bool.
Variable fromstring : string -> option element.
Variable VIRTUAL_DEVICE_UDN : string.

(** C8 (amended): every response of the handlers sets [Content-Length]
    (to the length of the body) and [Connection: close]; every response
    sets a content type ([text/xml] for the device description,
    [text/html] otherwise) except the 200 response to SUBSCRIBE, which has
    no [Content-Type] header.  SUBSCRIBE is answered 200 exactly for a
    path that ends in [/upnp/event/basicevent1], and that response has an
    empty body and the headers [CONTENT-LENGTH: 0],
    [TIMEOUT: Second-1801], [SID] and [Connection: close], in this order
    and no others. *)
Theorem responses_set_length_and_close
    (v : verb) (req : Request) (w w' : World) (resp : HttpResponse) :
  handle allocates fromstring VIRTUAL_DEVICE_UDN v req w = (Ok resp, w') ->
  header_get "Content-Length" (sent_headers resp)
  = Some (Py.str_of_int (Z.of_nat (String.length (body resp))))
  /\ header_get "Connection" (sent_headers resp) = Some "close"
  /\ header_get "Content-Type" (sent_headers resp) = content_type_of v resp
  /\ (v = SUBSCRIBE ->
      (Py.endswith (path req) "/upnp/event/basicevent1" = true
       <-> code resp = 200)
      /\ (code resp = 200 ->
          body resp = ""
          /\ sent_headers resp
             = [("CONTENT-LENGTH", "0");
                ("TIMEOUT", "Second-1801");
                ("SID", "uuid:a74b23d5-34b9-4f71-9f87-bed24353f304");
                ("Connection", "close")])).
Proof.
  destruct v; simpl.
  - unfold do_NOTIFY. unfold bind at 1. unfold get_world.
    intros H. apply then_send_response in H. subst resp.
    repeat split; try reflexivity; discriminate.
  - unfold do_GET. destruct (Py.endswith (path req) "/setup.xml");
      rewrite send_response_eval; intros [= <- _];
      repeat split; try reflexivity; discriminate.
  - unfold do_POST.
    destruct (Py.endswith (path req) "/upnp/control/basicevent1").
    + unfold bind at 1. unfold get_world.
      intros H. apply then_send_response in H. subst resp.
      repeat split; try reflexivity; discriminate.
    + rewrite send_response_eval. intros [= <- _].
      repeat split; try reflexivity; discriminate.
  - unfold do_SUBSCRIBE.
    destruct (Py.endswith (path req) "/upnp/event/basicevent1").
    + intros [= <- _]. repeat split; reflexivity.
    + rewrite send_response_eval. intros [= <- _].
      repeat split; try reflexivity; simpl; discriminate.
Qed.

Lemma get_xml_keeps_world req w :
  snd (_get_xml_from_http_body allocates fromstring req w) = w.
Proof.
  unfold _get_xml_from_http_body, bind, lift, ret, raise.
  destruct (header_get "content-length" (request_headers req)) as [v|].
  - destruct (Py.int v) as [n|]; [|reflexivity].
    destruct (rfile_read allocates n (rfile req)); [|reflexivity].
    destruct (fromstring _); reflexivity.
  - destruct (rfile_read allocates 0 (rfile req)); [|reflexivity].
    destruct (fromstring _); reflexivity.
Qed.

Lemma for_each_nil {A} (f : A -> M unit) w : for_each [] f w = (Ok tt, w).
Proof. reflexivity. Qed.

(** C2 (amended): a NOTIFY, or a POST to the control path, from a
    registered sender whose body parses but has no [property] child (no
    [BinaryState] descendant for POST) is answered 200, calls no callback
    and changes nothing; when reading or parsing the body raises (a
    [Content-Length] that [int] refuses, a length that [read] refuses or
    that cannot be allocated, a body that is not XML) the error leaves
    the handler: no response is sent, no callback is called and nothing
    changes.  From a sender that is not registered the body is not read
    and the answer is 200. *)
Theorem payload_without_events_or_not_parsed (req : Request) (w : World) :
  (devices w !! client_address req = None ->
   do_NOTIFY allocates fromstring req w = (Ok success_response, w)
   /\ (Py.endswith (path req) "/upnp/control/basicevent1" = true ->
       do_POST allocates fromstring req w = (Ok success_response, w)))
  /\ (forall device doc,
         devices w !! client_address req = Some device ->
         fst (_get_xml_from_http_body allocates fromstring req w) = Ok doc ->
         (findall_children (String.append NS "property") doc = [] ->
          do_NOTIFY allocates fromstring req w = (Ok success_response, w))
         /\ (find_descendant "BinaryState" doc = None ->
             Py.endswith (path req) "/upnp/control/basicevent1" = true ->
             do_POST allocates fromstring req w = (Ok success_response, w)))
  /\ (forall device e,
         devices w !! client_address req = Some device ->
         fst (_get_xml_from_http_body allocates fromstring req w) = Raise e ->
         do_NOTIFY allocates fromstring req w = (Raise e, w)
         /\ (Py.endswith (path req) "/upnp/control/basicevent1" = true ->
             do_POST allocates fromstring req w = (Raise e, w))).
Proof.
  split; [|split].
  - intros Hd. split.
    + unfold do_NOTIFY, bind, get_world. rewrite Hd. reflexivity.
    + intros Hp. unfold do_POST. rewrite Hp.
      unfold bind, get_world. rewrite Hd. reflexivity.
  - intros device doc Hd Hx.
    pose proof (get_xml_keeps_world req w) as Hw.
    destruct (_get_xml_from_http_body allocates fromstring req w) as [rx wx] eqn:Ex.
    simpl in Hx, Hw. subst rx wx. split.
    + intros Hf. unfold do_NOTIFY, bind, get_world. rewrite Hd, Ex, Hf.
      reflexivity.
    + intros Hf Hp. unfold do_POST. rewrite Hp.
      unfold bind, get_world. rewrite Hd, Ex, Hf. reflexivity.
  - intros device e Hd Hx.
    pose proof (get_xml_keeps_world req w) as Hw.
    destruct (_get_xml_from_http_body allocates fromstring req w) as [rx wx] eqn:Ex.
    simpl in Hx, Hw. subst rx wx. split.
    + unfold do_NOTIFY, bind, get_world. rewrite Hd, Ex. reflexivity.
    + intros Hp. unfold do_POST. rewrite Hp.
      unfold bind, get_world. rewrite Hd, Ex. reflexivity.
Qed.

End HandlerProps.

(** *** The handlers at concrete inputs *)

(** The 200 answer to a SUBSCRIBE for the event path of the virtual
    device. *)
Lemma responses_set_length_and_close_witness :
  handle roomy no_document "uuid:virtual" SUBSCRIBE subscribe_virtual
    (new_registry unreachable)
  = (Ok subscribed_response, new_registry unreachable)
  /\ header_get "Content-Length" (sent_headers subscribed_response)
     = Some "0"
  /\ header_get "Connection" (sent_headers subscribed_response)
     = Some "close"
  /\ header_get "Content-Type" (sent_headers subscribed_response) = None
  /\ header_get "TIMEOUT" (sent_headers subscribed_response)
     = Some "Second-1801"
  /\ header_get "SID" (sent_headers subscribed_response)
     = Some "uuid:a74b23d5-34b9-4f71-9f87-bed24353f304"
  /\ body subscribed_response = "".
Proof.
  destruct (responses_set_length_and_close roomy no_document "uuid:virtual"
              SUBSCRIBE subscribe_virtual
              (new_registry unreachable) (new_registry unreachable)
              subscribed_response eq_refl)
    as (Hlen & Hclose & Htype & Hsub).
  destruct (Hsub eq_refl) as (_ & H200).
  destruct (H200 eq_refl) as (Hbody & _).
  split; [reflexivity|]. split; [exact Hlen|]. split; [exact Hclose|].
  split; [exact Htype|]. split; [reflexivity|]. split; [reflexivity|].
  exact Hbody.
Defined.

(** C8 as stated fails for the 200 answer to SUBSCRIBE: it has no
    content-type header. *)
Lemma subscribe_response_has_no_content_type :
  exists resp,
    do_SUBSCRIBE subscribe_virtual (new_registry unreachable)
    = (Ok resp, new_registry unreachable)
    /\ code resp = 200
    /\ header_get "Content-Type" (sent_headers resp) = None.
Proof. eexists. split; [reflexivity|]. split; reflexivity. Qed.

(** A NOTIFY from a registered device with an empty property set. *)
Lemma payload_without_events_or_not_parsed_witness :
  do_NOTIFY roomy one_document notify_empty (registered unreachable)
  = (Ok success_response, registered unreachable)
  /\ do_NOTIFY roomy one_document notify_garbage (registered unreachable)
     = (Raise XMLSyntaxError, registered unreachable).
Proof.
  destruct (payload_without_events_or_not_parsed roomy one_document notify_empty
              (registered unreachable)) as (_ & Hparsed & _).
  destruct (payload_without_events_or_not_parsed roomy one_document notify_garbage
              (registered unreachable)) as (_ & _ & Hfailed).
  split.
  - apply (proj1 (Hparsed plug empty_propertyset eq_refl eq_refl)).
    reflexivity.
  - apply (proj1 (Hfailed plug XMLSyntaxError eq_refl eq_refl)).
Defined.

(** C2 as stated fails for a NOTIFY from a registered device whose body is
    not XML: the handler ends with the parser's error and sends no
    response. *)
Lemma notify_unparsable_body_sends_no_response :
  devices (registered unreachable) !! client_address notify_garbage
  = Some plug
  /\ do_NOTIFY roomy no_document notify_garbage (registered unreachable)
     = (Raise XMLSyntaxError, registered unreachable).
Proof. split; reflexivity. Qed.

(** The same for a body that cannot be read: [read] refuses the length
    [-2], and a length of 2^63 does not fit an index. *)
Lemma notify_refused_length_sends_no_response :
  do_NOTIFY roomy one_document (notify_of_length "-2")
    (registered unreachable)
  = (Raise ValueError, registered unreachable)
  /\ do_NOTIFY roomy one_document (notify_of_length "9223372036854775808")
       (registered unreachable)
     = (Raise OverflowError, registered unreachable)
  /\ do_NOTIFY roomy one_document (notify_of_length "4 kB")
       (registered unreachable)
     = (Raise ValueError, registered unreachable).
Proof. repeat split; vm_compute; reflexivity. Qed.
(** * Further properties of the module *)

(** ** [_cancel_events] *)

Lemma list_remove_app_fresh e q r :
  e ∉ q -> list_remove e (q ++ e :: r) = Some (q ++ r)%list.
Proof.
  induction q as [|x q IH]; simpl; intros Hnot.
  - rewrite decide_True by reflexivity. reflexivity.
  - rewrite decide_False.
    + rewrite IH; [reflexivity|]. intros H. apply Hnot. right. exact H.
    + intros ->. apply Hnot. left.
Qed.

(** X4: [_cancel_events] never raises, also when a listed event is not
    pending: it calls [cancel] once for each listed event, in order; the
    events that are pending afterwards are those that were pending and are
    not listed; the registry tables are as they were. *)
Theorem cancel_events_removes_the_listed_events events w :
  NoDup (sched_queue w) ->
  exists w',
    _cancel_events events w = (Ok tt, w')
    /\ trace w' = (trace w ++ map SchedCancel events)%list
    /\ devices w' = devices w
    /\ _callbacks w' = _callbacks w
    /\ _events w' = _events w
    /\ forall x, x ∈ sched_queue w' <-> x ∈ sched_queue w /\ x ∉ events.
Proof.
  intros Hnd.
  destruct (cancel_events_queue events w Hnd) as (w' & H & He & _ & _ & Hmem).
  destruct (cancel_events_ok events w) as (w2 & H2 & Hd & Hc & _).
  rewrite H in H2. injection H2 as <-.
  exists w'. split; [exact H|]. split; [|auto].
  clear - H. revert w w' H. induction events as [|e rest IH]; intros w w' H.
  - injection H as <-. simpl. rewrite app_nil_r. reflexivity.
  - simpl in H. unfold bind at 1 in H. unfold try_except, sched_cancel in H.
    unfold bind at 1 in H. unfold log_action, modify in H.
    unfold bind at 1 in H. unfold get_world in H. simpl in H.
    destruct (list_remove e (sched_queue w)) as [q|].
    + simpl in H. apply IH in H. simpl in H. rewrite H, <- app_assoc.
      reflexivity.
    + unfold raise in H. rewrite decide_True in H by reflexivity.
      unfold ret in H. apply IH in H. simpl in H. rewrite H, <- app_assoc.
      reflexivity.
Qed.

(** ** [register] and [unregister], continued *)

Lemma dict_values_set {K V} `{EqDecision K} (k : K) (v x : V) d :
  x ∈ Dict.values (Dict.set k v d) -> x = v \/ x ∈ Dict.values d.
Proof.
  unfold Dict.values. induction d as [|[k' v'] r IH]; simpl.
  - intros Hx. apply list_elem_of_singleton in Hx. left. exact Hx.
  - destruct (decide (k = k')) as [->|Hne]; simpl; intros Hx.
    + apply elem_of_cons in Hx as [->|Hx]; [left; reflexivity|].
      right. right. exact Hx.
    + apply elem_of_cons in Hx as [->|Hx]; [right; left|].
      destruct (IH Hx) as [->|Hin]; [left; reflexivity|right; right; exact Hin].
Qed.

Lemma filed_by_serial_fields w1 w2 :
  _events w1 = _events w2 -> filed_by_serial w2 -> filed_by_serial w1.
Proof. intros He H s d e. rewrite He. apply H. Qed.

Lemma new_registry_filed net : filed_by_serial (new_registry net).
Proof. intros s d e H. simpl in H. rewrite lookup_empty in H. discriminate. Qed.

Lemma after_schedule_filed e w :
  filed_by_serial w -> filed_by_serial (after_schedule e w).
Proof.
  intros H s d x. simpl.
  destruct (decide (s = serialnumber (ev_device e))) as [->|Hne].
  - rewrite lookup_insert_eq. intros [= <-] Hx.
    apply dict_values_set in Hx as [->|Hx]; [reflexivity|].
    destruct (_events w !! serialnumber (ev_device e)) as [d0|] eqn:E.
    + simpl in Hx. exact (H _ _ _ E Hx).
    + simpl in Hx. inversion Hx.
  - rewrite lookup_insert_ne by congruence. apply H.
Qed.

Lemma enters_filed device url_fn w w' :
  filed_by_serial w ->
  enters_at_most_one device url_fn w w' ->
  filed_by_serial w'.
Proof.
  intros H [Hsame | (delay & sid & retry & _ & _ & _ & _ & _ & He & _)].
  - destruct Hsame as (_ & _ & _ & He & _). eapply filed_by_serial_fields; eauto.
  - apply (filed_by_serial_fields _
             (after_schedule (next_event w delay device url_fn sid retry) w)).
    + rewrite He. reflexivity.
    + apply after_schedule_filed. exact H.
Qed.

Lemma register_eval device w :
  let w1 := with_events (insert (serialnumber device) [])
              (with_devices (insert (host device) device) w) in
  let w2 := after_schedule
              (next_event w1 0 device _basic_event_subscription_url None 0)
              w1 in
  register (Some device) w
  = (Ok tt,
     match insight device with
     | Some _ =>
         after_schedule
           (next_event w2 0 device _insight_event_subscription_url None 0) w2
     | None => w2
     end).
Proof.
  intros w1 w2. unfold register.
  unfold bind at 1. unfold modify at 1.
  unfold bind at 1. unfold modify at 1. fold w1.
  assert (H1 : _events w1 !! serialnumber device = Some [])
    by (simpl; apply lookup_insert_eq).
  unfold bind at 1. rewrite (schedule_eval_some _ _ _ _ _ _ _ H1). fold w2.
  destruct (insight device); [|reflexivity].
  assert (H2 : is_Some (_events w2 !! serialnumber device))
    by (simpl; rewrite lookup_insert_eq; eauto).
  destruct H2 as [d2 H2]. rewrite (schedule_eval_some _ _ _ _ _ _ _ H2).
  reflexivity.
Qed.

Section Filed.
Variable get_ip_address : string -> string.
Variable bindable : Z -> bool.

Lemma perform_filed fuel op w :
  filed_by_serial w ->
  filed_by_serial (snd (perform get_ip_address bindable fuel op w)).
Proof.
  intros H. destruct op as [d|d|d f cb|d t v| |e]; cbn [perform].
  - rewrite register_eval. cbv zeta. cbn [snd].
    assert (H1 : filed_by_serial
                   (with_events (insert (serialnumber d) [])
                      (with_devices (insert (host d) d) w))).
    { intros s dd x. simpl.
      destruct (decide (s = serialnumber d)) as [->|Hne].
      - rewrite lookup_insert_eq. intros [= <-] Hx. inversion Hx.
      - rewrite lookup_insert_ne by congruence. apply H. }
    destruct (insight d); repeat apply after_schedule_filed; exact H1.
  - destruct (unregister_prefix d w) as (w1 & -> & _ & _ & He).
    assert (H1 : filed_by_serial w1).
    { intros s dd x. rewrite He.
      destruct (decide (s = serialnumber d)) as [->|Hne].
      - rewrite lookup_delete_eq. discriminate.
      - rewrite lookup_delete_ne by congruence. apply H. }
    unfold bind, devices_getitem, get_world, bind.
    destruct (devices w1 !! host d); simpl; [|exact H1].
    apply (filed_by_serial_fields _ w1); auto.
  - unfold on, callbacks_getitem, bind, get_world.
    destruct (_callbacks w !! serialnumber d); simpl;
      apply (filed_by_serial_fields _ w); auto.
  - unfold event, bind, get_world. rewrite invoke_matching_trace. simpl.
    apply (filed_by_serial_fields _ w); auto.
  - unfold start. destruct (_start_server bindable); simpl;
      [apply (filed_by_serial_fields _ w); auto|exact H].
  - unfold run_event, bind, get_world.
    destruct (list_remove e (sched_queue w)) as [q|]; [|exact H].
    unfold modify. set (w1 := with_sched q (sched_counter w) w).
    destruct (resubscribe_enters_at_most_one get_ip_address fuel (ev_device e)
                (ev_url_fn e) (ev_sid e) (ev_retry e) w1)
      as (res & w' & Hr & _ & He).
    rewrite Hr. simpl. eapply enters_filed; [|exact He].
    apply (filed_by_serial_fields _ w); auto.
Qed.

Lemma perform_all_invariants fuel ops w :
  timers_ok w -> filed_by_serial w ->
  first_registrations get_ip_address bindable fuel ops w ->
  timers_ok (perform_all get_ip_address bindable fuel ops w)
  /\ filed_by_serial (perform_all get_ip_address bindable fuel ops w).
Proof.
  revert w. induction ops as [|op rest IH]; intros w Hok Hf Hfirst.
  - split; assumption.
  - destruct Hfirst as [H1 Hrest]. simpl. apply IH; [| |exact Hrest].
    + apply perform_timers_ok; assumption.
    + apply perform_filed; assumption.
Qed.

End Filed.

(** The queue after [unregister]: the events of the timer dictionary of
    the serial number have left it. *)
Lemma unregister_queue device w :
  NoDup (sched_queue w) ->
  forall x,
    x ∈ sched_queue (snd (unregister (Some device) w))
    <-> x ∈ sched_queue w
        /\ x ∉ Dict.values (default [] (_events w !! serialnumber device)).
Proof.
  intros Hnd x. unfold unregister.
  assert (H1 : exists r wa,
    callbacks_getitem (serialnumber device) w = (Ok r, wa)
    /\ _events wa = _events w /\ sched_queue wa = sched_queue w).
  { unfold callbacks_getitem, bind, get_world.
    destruct (_callbacks w !! serialnumber device);
      do 2 eexists; (split; [reflexivity|]); repeat split; reflexivity. }
  destruct H1 as (r & wa & Ha & Hea & Hqa).
  rewrite (bind_ok _ _ _ _ _ Ha).
  unfold bind at 1. unfold modify at 1.
  unfold bind at 1. unfold get_world at 1.
  unfold bind at 1.
  set (wb := with_callbacks (delete (serialnumber device)) wa).
  change (_events wb) with (_events wa). rewrite Hea.
  assert (Hndb : NoDup (sched_queue wb)) by (simpl; rewrite Hqa; exact Hnd).
  destruct (_events w !! serialnumber device) as [events|] eqn:Ee.
  - unfold bind at 1.
    destruct (cancel_events_queue (Dict.values events) wb Hndb)
      as (wc & Hc & Hec & Hkc & Hndc & Hmem).
    rewrite Hc. unfold modify at 1.
    unfold bind, devices_getitem, get_world, bind. simpl.
    assert (Hq : x ∈ sched_queue wc
                 <-> x ∈ sched_queue w /\ x ∉ Dict.values events).
    { rewrite Hmem. simpl. rewrite Hqa. reflexivity. }
    destruct (devices wc !! host device); simpl; exact Hq.
  - unfold ret at 1.
    unfold bind, devices_getitem, get_world, bind. simpl.
    assert (Hq : x ∈ sched_queue wa <-> x ∈ sched_queue w /\ x ∉ []).
    { rewrite Hqa. split; [intros Hx; split; [exact Hx|]|intros [Hx _]; exact Hx].
      intros Hin. inversion Hin. }
    destruct (devices wa !! host device); simpl; exact Hq.
Qed.

(** X5: [unregister(device)] cancels the pending timers of the serial
    number of the device and no other: the events pending afterwards are
    the events that were pending for the other serial numbers.  This holds
    also when [unregister] ends with [KeyError]. *)
Theorem unregister_cancels_the_timers_of_the_device device w :
  timers_ok w ->
  filed_by_serial w ->
  forall e,
    e ∈ sched_queue (snd (unregister (Some device) w))
    <-> e ∈ sched_queue w
        /\ serialnumber (ev_device e) <> serialnumber device.
Proof.
  intros Hok Hfiled e.
  rewrite (unregister_queue device w (pending_once _ Hok)). split.
  - intros [He Hnot]. split; [exact He|]. intros Hs. apply Hnot.
    destruct (pending_recorded _ Hok e He) as (d & L & G).
    rewrite Hs in L. rewrite L. simpl. eapply dict_get_values. exact G.
  - intros [He Hs]. split; [exact He|]. intros Hin. apply Hs.
    destruct (_events w !! serialnumber device) as [d|] eqn:Ed.
    + exact (Hfiled _ _ _ Ed Hin).
    + inversion Hin.
Qed.

Lemma cancel_events_eval events w :
  _cancel_events events w
  = (Ok tt,
     with_sched (without_events events (sched_queue w)) (sched_counter w)
       (with_trace (trace w ++ map SchedCancel events)%list w)).
Proof.
  revert w. induction events as [|e rest IH]; intros w.
  - simpl. rewrite app_nil_r. destruct w; reflexivity.
  - simpl. unfold bind at 1. unfold try_except, sched_cancel.
    unfold bind at 1. unfold log_action, modify. unfold bind at 1.
    unfold get_world. simpl.
    destruct (list_remove e (sched_queue w)) as [q|].
    + simpl. rewrite IH. simpl. rewrite <- app_assoc. reflexivity.
    + unfold raise. rewrite decide_True by reflexivity. unfold ret.
      rewrite IH. simpl. rewrite <- app_assoc. reflexivity.
Qed.

(** What [unregister] does, step by step. *)
Lemma unregister_eval device w :
  let evs := Dict.values (default [] (_events w !! serialnumber device)) in
  let w2 :=
    with_events (delete (serialnumber device))
      (with_sched (without_events evs (sched_queue w)) (sched_counter w)
         (with_trace (trace w ++ map SchedCancel evs)%list
            (with_callbacks (delete (serialnumber device)) w))) in
  unregister (Some device) w
  = match devices w !! host device with
    | Some _ => (Ok tt, with_devices (delete (host device)) w2)
    | None => (Raise KeyError, w2)
    end.
Proof.
  intros evs w2. unfold unregister.
  assert (H1 : (callbacks_getitem (serialnumber device) ;;
                modify (with_callbacks (delete (serialnumber device)))) w
               = (Ok tt, with_callbacks (delete (serialnumber device)) w)).
  { unfold callbacks_getitem, bind, get_world, modify, ret.
    destruct (_callbacks w !! serialnumber device) as [l|] eqn:E;
      [reflexivity|].
    f_equal. unfold with_callbacks. simpl. rewrite delete_insert_eq.
    reflexivity. }
  unfold bind at 1.
  unfold bind at 1 in H1.
  destruct (callbacks_getitem (serialnumber device) w) as [[l|e] wa];
    [|discriminate].
  unfold bind at 1. rewrite H1.
  unfold bind at 1. unfold get_world at 1.
  unfold bind at 1.
  change (_events (with_callbacks (delete (serialnumber device)) w))
    with (_events w).
  assert (H2 :
    match _events w !! serialnumber device with
    | Some events =>
        _cancel_events (Dict.values events);;
        modify (with_events (delete (serialnumber device)))
    | None => ret tt
    end (with_callbacks (delete (serialnumber device)) w) = (Ok tt, w2)).
  { subst w2 evs. destruct (_events w !! serialnumber device) as [events|] eqn:Ee.
    - unfold bind. rewrite cancel_events_eval. reflexivity.
    - unfold ret. f_equal. simpl. rewrite app_nil_r.
      unfold with_events, with_sched, with_trace, with_callbacks. simpl.
      rewrite (delete_id _ _ Ee). reflexivity. }
  rewrite H2.
  unfold bind, devices_getitem, get_world, bind, modify.
  assert (Hd : devices w2 = devices w) by reflexivity. rewrite Hd.
  destruct (devices w !! host device); reflexivity.
Qed.

Lemma without_events_suffix events q :
  NoDup events ->
  (forall e, e ∈ events -> e ∉ q) ->
  without_events events (q ++ events) = q.
Proof.
  revert q. induction events as [|e rest IH]; intros q Hnd Hnot.
  - simpl. apply app_nil_r.
  - simpl. rewrite list_remove_app_fresh by (apply Hnot; left). simpl.
    apply NoDup_cons in Hnd as [_ Hnd]. apply IH; [exact Hnd|].
    intros x Hx. apply Hnot. right. exact Hx.
Qed.

(** X6: [register(device)] followed by [unregister(device)] returns
    normally and undoes the registration: the scheduler holds the events
    it held before, and the three tables are as before, without the entries
    of the host and of the serial number of the device. *)
Theorem register_then_unregister_restores device w :
  timers_ok w ->
  exists w',
    (register (Some device) ;; unregister (Some device)) w = (Ok tt, w')
    /\ devices w' = delete (host device) (devices w)
    /\ _callbacks w' = delete (serialnumber device) (_callbacks w)
    /\ _events w' = delete (serialnumber device) (_events w)
    /\ sched_queue w' = sched_queue w.
Proof.
  intros Hok. unfold bind at 1. rewrite register_eval. cbv zeta.
  set (w1 := with_events (insert (serialnumber device) [])
               (with_devices (insert (host device) device) w)).
  set (e1 := next_event w1 0 device _basic_event_subscription_url None 0).
  set (w2 := after_schedule e1 w1).
  set (e2 := next_event w2 0 device _insight_event_subscription_url None 0).
  assert (Hfresh1 : e1 ∉ sched_queue w).
  { intros Hin. pose proof (pending_numbered _ Hok e1 Hin) as Hlt.
    simpl in Hlt. lia. }
  assert (Hfresh2 : e2 ∉ sched_queue w).
  { intros Hin. pose proof (pending_numbered _ Hok e2 Hin) as Hlt.
    simpl in Hlt. lia. }
  destruct (insight device) as [u|].
  - rewrite unregister_eval. cbv zeta.
    replace (devices (after_schedule e2 w2) !! host device)
      with (Some device) by (simpl; rewrite lookup_insert_eq; reflexivity).
    eexists. split; [reflexivity|]. simpl.
    rewrite !lookup_insert_eq. simpl.
    rewrite !delete_insert_eq.
    repeat split; try reflexivity.
    rewrite <- (app_assoc (sched_queue w) [e1] [e2]).
    refine (without_events_suffix [e1; e2] (sched_queue w) _ _).
    + apply NoDup_cons. split; [|apply NoDup_singleton].
      intros Hin. apply list_elem_of_singleton in Hin. discriminate.
    + intros x Hx. apply elem_of_cons in Hx as [->|Hx]; [exact Hfresh1|].
      apply list_elem_of_singleton in Hx. subst x. exact Hfresh2.
  - rewrite unregister_eval. cbv zeta.
    replace (devices w2 !! host device)
      with (Some device) by (simpl; rewrite lookup_insert_eq; reflexivity).
    eexists. split; [reflexivity|]. simpl.
    rewrite !lookup_insert_eq. simpl.
    rewrite !delete_insert_eq.
    repeat split; try reflexivity.
    refine (without_events_suffix [e1] (sched_queue w) _ _).
    + apply NoDup_singleton.
    + intros x Hx. apply list_elem_of_singleton in Hx. subst x. exact Hfresh1.
Qed.

(** X7: once [unregister(device)] was called, whether it ended normally
    or with [KeyError], an event for the device calls no callback. *)
Theorem event_after_unregister_calls_nothing
    (device : Device) (type_ : string) (value : option string) (w : World) :
  let w' := snd (unregister (Some device) w) in
  event device type_ value w' = (Ok tt, w').
Proof.
  cbv zeta. rewrite unregister_eval. cbv zeta.
  set (w2 := with_events _ _).
  assert (Hc : forall w0, _callbacks w0 = _callbacks w2 ->
                 event device type_ value w0 = (Ok tt, w0)).
  { intros w0 H0. unfold event, bind, get_world. rewrite H0. simpl.
    rewrite lookup_delete_eq. simpl. reflexivity. }
  destruct (devices w !! host device); simpl; apply Hc; reflexivity.
Qed.

(** ** The resubscription protocol, continued *)

Lemma url_resubscribe_url_raises rec device hdrs sid url_fn w e :
  call_url_fn url_fn device = Raise e ->
  _url_resubscribe rec device hdrs sid url_fn w = (Raise AttributeError, w).
Proof.
  intros Hu. unfold _url_resubscribe, bind, lift. rewrite Hu.
  rewrite (call_url_fn_raises _ _ _ Hu). reflexivity.
Qed.

Lemma retry_handler_requests device url_fn sid retry w :
  requests_made (snd (retry_handler device url_fn sid retry w))
  = requests_made w.
Proof.
  rewrite retry_handler_eval. cbv zeta. simpl.
  destruct ((1 <? retry + 1) && rediscovery_enabled device),
    (timer_entry w device url_fn); reflexivity.
Qed.

(** The requests of [_url_resubscribe]: one, or, after a 412 answer while
    a SID is held, two and those of the call it makes. *)
Lemma url_resubscribe_requests rec device hdrs sid url_fn w k :
  Dict.get "TIMEOUT" hdrs = Some "Second-300" ->
  (forall w0,
      (requests_made w0 <= requests_made (snd (rec device url_fn None 0%Z w0))
       <= requests_made w0 + k)%nat) ->
  let w' := snd (_url_resubscribe rec device hdrs sid url_fn w) in
  (requests_made w <= requests_made w' <= requests_made w + 2 + k)%nat
  /\ (truthy sid = None -> (requests_made w' <= requests_made w + 1)%nat).
Proof.
  intros Hh Hrec. cbv zeta.
  destruct (call_url_fn url_fn device) as [url|e] eqn:Hu.
  2:{ rewrite (url_resubscribe_url_raises _ _ _ _ _ _ _ Hu). simpl.
      split; [lia|intros _; lia]. }
  destruct (network w (requests_made w)) as [r|] eqn:Hn.
  - destruct (if status_code r =? 412 then truthy sid else None)
      as [stale|] eqn:Hs.
    + assert (H412 : status_code r = 412 /\ truthy sid = Some stale).
      { destruct (status_code r =? 412) eqn:E; [|discriminate].
        split; [apply Z.eqb_eq; exact E|exact Hs]. }
      destruct H412 as [H412 Ht].
      rewrite (url_resubscribe_stale _ _ _ _ _ _ _ _ _ Hu Hn H412 Ht).
      unfold bind. rewrite requests_request_eval.
      set (w1 := after_request (HttpRequest "SUBSCRIBE" url hdrs) w).
      set (w2 := after_request _ w1).
      assert (H2 : requests_made w2 = S (S (requests_made w))) by reflexivity.
      split; [|rewrite Ht; discriminate].
      destruct (network w1 (requests_made w1)).
      * specialize (Hrec w2). rewrite H2 in Hrec. lia.
      * simpl snd. rewrite H2. lia.
    + assert (Hg : exists g, granted_timeout hdrs r = Some g).
      { unfold granted_timeout.
        destruct (header_get "TIMEOUT" (response_headers r)); eauto. }
      destruct Hg as [g Hg].
      rewrite (url_resubscribe_accepted _ _ _ _ _ _ _ _ g Hu Hn Hs Hg).
      cbv zeta.
      destruct (Py.int (Py.replace "Second-" "" g)) as [t|e];
        [destruct (timer_entry w device url_fn);
         [destruct (three_quarters t)|]|];
        simpl; (split; [lia|intros _; lia]).
  - rewrite (url_resubscribe_fails _ _ _ _ _ _ _ Hu Hn). simpl.
    split; [lia|intros _; lia].
Qed.

Lemma url_resubscribe_no_recursion_error rec device hdrs sid url_fn w :
  Dict.get "TIMEOUT" hdrs = Some "Second-300" ->
  (forall w0, fst (rec device url_fn None 0 w0) <> Raise RecursionError) ->
  fst (_url_resubscribe rec device hdrs sid url_fn w) <> Raise RecursionError.
Proof.
  intros Hh Hrec.
  destruct (call_url_fn url_fn device) as [url|e] eqn:Hu.
  2:{ rewrite (url_resubscribe_url_raises _ _ _ _ _ _ _ Hu). discriminate. }
  destruct (network w (requests_made w)) as [r|] eqn:Hn.
  - destruct (if status_code r =? 412 then truthy sid else None)
      as [stale|] eqn:Hs.
    + assert (H412 : status_code r = 412 /\ truthy sid = Some stale).
      { destruct (status_code r =? 412) eqn:E; [|discriminate].
        split; [apply Z.eqb_eq; exact E|exact Hs]. }
      destruct H412 as [H412 Ht].
      rewrite (url_resubscribe_stale _ _ _ _ _ _ _ _ _ Hu Hn H412 Ht).
      unfold bind at 1. rewrite requests_request_eval.
      set (w1 := after_request (HttpRequest "SUBSCRIBE" url hdrs) w).
      destruct (network w1 (requests_made w1)); [apply Hrec|discriminate].
    + assert (Hg : exists g, granted_timeout hdrs r = Some g).
      { unfold granted_timeout.
        destruct (header_get "TIMEOUT" (response_headers r)); eauto. }
      destruct Hg as [g Hg].
      rewrite (url_resubscribe_accepted _ _ _ _ _ _ _ _ g Hu Hn Hs Hg).
      cbv zeta.
      destruct (Py.int (Py.replace "Second-" "" g)) as [t|e] eqn:Ei.
      * destruct (timer_entry w device url_fn); [|discriminate].
        destruct (three_quarters t) as [d|e] eqn:Eq; [discriminate|].
        destruct (three_quarters_raises _ _ Eq) as [-> | ->]; discriminate.
      * rewrite (Py_int_raises _ _ Ei). discriminate.
  - rewrite (url_resubscribe_fails _ _ _ _ _ _ _ Hu Hn). discriminate.
Qed.

Section ProtocolBounds.
Variable get_ip_address : string -> string.

(** The shape of a call of [_resubscribe]: it ends with [AttributeError]
    at once, or it is the [try] statement with the headers it built. *)
Lemma resubscribe_cases fuel device url_fn sid retry w :
  _resubscribe get_ip_address (S fuel) device url_fn sid retry w
  = (Raise AttributeError, w)
  \/ exists hdrs,
       Dict.get "TIMEOUT" hdrs = Some "Second-300"
       /\ _resubscribe get_ip_address (S fuel) device url_fn sid retry w
          = try_except
              (_url_resubscribe (_resubscribe get_ip_address fuel)
                 device hdrs sid url_fn)
              RequestException
              (retry_handler device url_fn sid retry) w.
Proof.
  destruct (call_url_fn url_fn device) as [url|e] eqn:Hu.
  - destruct sid as [s|].
    + right. eexists. split; [|cbn [_resubscribe]; unfold bind at 1;
        unfold lift at 1; rewrite Hu; reflexivity]. reflexivity.
    + destruct (_httpd w) as [p|] eqn:Hp.
      * right. exists (subscribe_headers get_ip_address p device url None).
        split; [reflexivity|].
        apply (resubscribe_unfold get_ip_address _ _ _ _ _ _ _ p Hu Hp).
      * left. cbn [_resubscribe]. unfold bind at 1. unfold lift at 1.
        rewrite Hu. unfold bind at 1. unfold port, bind, get_world.
        rewrite Hp. reflexivity.
  - left. cbn [_resubscribe]. unfold bind at 1. unfold lift at 1. rewrite Hu.
    rewrite (call_url_fn_raises _ _ _ Hu). reflexivity.
Qed.

Lemma try_except_requests (m handler : M unit) w (lo hi : nat) :
  (lo <= requests_made (snd (m w)) <= hi)%nat ->
  (forall w0, requests_made (snd (handler w0)) = requests_made w0) ->
  (lo <= requests_made (snd (try_except m RequestException handler w))
   <= hi)%nat.
Proof.
  intros Hm Hh. unfold try_except. destruct (m w) as [[[]|e] w1]; [exact Hm|].
  destruct (decide (e = RequestException)); [|exact Hm].
  rewrite Hh. exact Hm.
Qed.

Lemma resubscribe_requests_without_sid fuel device url_fn sid retry w :
  truthy sid = None ->
  (requests_made w
   <= requests_made
        (snd (_resubscribe get_ip_address fuel device url_fn sid retry w))
   <= requests_made w + 1)%nat.
Proof.
  intros Ht. destruct fuel as [|fuel]; [simpl; lia|].
  destruct (resubscribe_cases fuel device url_fn sid retry w)
    as [-> | (hdrs & Hh & ->)]; [simpl; lia|].
  apply try_except_requests;
    [|intros w0; apply retry_handler_requests].
  (* the call that [_url_resubscribe] would make is not reached *)
  destruct (url_resubscribe_requests (fun _ _ _ _ => ret tt) device hdrs sid
              url_fn w 0 Hh) as [Hlo Hhi]; [intros w0; simpl; lia|].
  cbv zeta in Hlo, Hhi. specialize (Hhi Ht).
  assert (Heq : _url_resubscribe (_resubscribe get_ip_address fuel) device
                  hdrs sid url_fn w
                = _url_resubscribe (fun _ _ _ _ => ret tt) device hdrs sid
                    url_fn w).
  { unfold _url_resubscribe, bind, lift.
    destruct (call_url_fn url_fn device); [|reflexivity].
    destruct (requests_request _ _ _ w) as [[r|e] w1]; [|reflexivity].
    rewrite Ht. destruct (status_code r =? 412); reflexivity. }
  rewrite Heq. lia.
Qed.

(** X8: a call of [_resubscribe] makes at most three requests (the
    SUBSCRIBE, and after a 412 answer the UNSUBSCRIBE and one more
    SUBSCRIBE), and at most one when it holds no SID or an empty one. *)
Theorem resubscribe_makes_at_most_three_requests
    (fuel : nat) (device : Device) (url_fn : SubscribeUrlFn)
    (sid : option string) (retry : Z) (w : World) :
  let w' :=
    snd (_resubscribe get_ip_address fuel device url_fn sid retry w) in
  (requests_made w <= requests_made w' <= requests_made w + 3)%nat
  /\ (truthy sid = None -> (requests_made w' <= requests_made w + 1)%nat).
Proof.
  cbv zeta. split;
    [|intros Ht;
      apply (resubscribe_requests_without_sid fuel device url_fn sid retry w
               Ht)].
  destruct fuel as [|fuel]; [simpl; lia|].
  destruct (resubscribe_cases fuel device url_fn sid retry w)
    as [-> | (hdrs & Hh & ->)]; [simpl; lia|].
  apply try_except_requests;
    [|intros w0; apply retry_handler_requests].
  destruct (url_resubscribe_requests (_resubscribe get_ip_address fuel)
              device hdrs sid url_fn w 1 Hh) as [Hb _]; [|lia].
  intros w0. apply resubscribe_requests_without_sid. reflexivity.
Qed.

Lemma resubscribe_without_sid_no_recursion_error
    fuel device url_fn retry w :
  fst (_resubscribe get_ip_address (S fuel) device url_fn None retry w)
  <> Raise RecursionError.
Proof.
  destruct (resubscribe_cases fuel device url_fn None retry w)
    as [-> | (hdrs & Hh & ->)]; [discriminate|].
  unfold try_except.
  rewrite (url_resubscribe_no_sid _ (fun _ _ _ _ => ret tt)).
  pose proof (url_resubscribe_no_recursion_error (fun _ _ _ _ => ret tt)
                device hdrs None url_fn w Hh) as Hne.
  destruct (_url_resubscribe _ device hdrs None url_fn w) as [[[]|e] w1];
    [discriminate|].
  destruct (decide (e = RequestException)).
  - rewrite retry_handler_eval. discriminate.
  - apply Hne. intros w0. discriminate.
Qed.

(** X9: [_resubscribe] calls itself at most once, from the 412 path, and
    that call makes no further one: with room for two nested calls it
    never ends with [RecursionError], and more room changes nothing. *)
Theorem resubscribe_recursion_is_bounded
    (fuel : nat) (device : Device) (url_fn : SubscribeUrlFn)
    (sid : option string) (retry : Z) (w : World) :
  _resubscribe get_ip_address (S (S fuel)) device url_fn sid retry w
  = _resubscribe get_ip_address 2 device url_fn sid retry w
  /\ fst (_resubscribe get_ip_address 2 device url_fn sid retry w)
     <> Raise RecursionError.
Proof.
  split; [apply resubscribe_fuel|].
  destruct (resubscribe_cases 1 device url_fn sid retry w)
    as [-> | (hdrs & Hh & ->)]; [discriminate|].
  unfold try_except.
  pose proof (url_resubscribe_no_recursion_error
                (_resubscribe get_ip_address 1) device hdrs sid url_fn w Hh)
    as Hne.
  destruct (_url_resubscribe _ device hdrs sid url_fn w) as [[[]|e] w1];
    [discriminate|].
  destruct (decide (e = RequestException)).
  - rewrite retry_handler_eval. discriminate.
  - apply Hne. intros w0.
    apply resubscribe_without_sid_no_recursion_error.
Qed.

(** X10: whatever the network answers, a call of [_resubscribe] does not
    end with a transport error; it leaves the device table, the callbacks
    and the listener as they are; and either it leaves the timers as they
    are, or it enters one event, for its own device and endpoint, and
    records it in the timer dictionary of the device. *)
Theorem resubscribe_contains_transport_errors
    (fuel : nat) (device : Device) (url_fn : SubscribeUrlFn)
    (sid : option string) (retry : Z) (w : World) :
  let out := _resubscribe get_ip_address fuel device url_fn sid retry w in
  fst out <> Raise RequestException
  /\ enters_at_most_one device url_fn w (snd out).
Proof.
  cbv zeta.
  destruct (resubscribe_enters_at_most_one get_ip_address fuel device url_fn
              sid retry w) as (res & w' & -> & Hne & He).
  split; assumption.
Qed.

(** X11: a 412 answer to a SUBSCRIBE made without a SID, or with an empty
    one, is not taken for a stale subscription: no UNSUBSCRIBE is sent,
    the [TIMEOUT] of the answer, a decimal numeral of at most 4300
    digits, is parsed and the next attempt is scheduled as after any
    other answer. *)
Theorem resubscribe_412_without_sid_is_accepted
    (fuel : nat) (w : World) (device : Device) (url_fn : SubscribeUrlFn)
    (sid : option string) (retry : Z) (url : string) (p : Z)
    (r : Response) (n : uint) (delay : Z) :
  call_url_fn url_fn device = Ok url ->
  _httpd w = Some p ->
  network w (requests_made w) = Responds r ->
  status_code r = 412 ->
  truthy sid = None ->
  n <> Nil ->
  (Decimal.nb_digits n <= Py.max_str_digits)%nat ->
  header_get "TIMEOUT" (response_headers r)
  = Some (String.append "Second-" (NilEmpty.string_of_uint n)) ->
  three_quarters (Z.of_uint n) = Ok delay ->
  timer_entry w device url_fn = true ->
  let request :=
    HttpRequest "SUBSCRIBE" url
      (subscribe_headers get_ip_address p device url sid) in
  let e := {| ev_delay := delay; ev_seq := sched_counter w;
              ev_device := device; ev_url_fn := url_fn;
              ev_sid := carried_sid r sid; ev_retry := 0 |} in
  exists w',
    _resubscribe get_ip_address (S fuel) device url_fn sid retry w
    = (Ok tt, w')
    /\ trace w' = (trace w ++ [request; SchedEnter e])%list
    /\ sched_queue w' = (sched_queue w ++ [e])%list.
Proof.
  intros Hu Hp Hn Hs Ht Hnil Hlen Hh Hd Hentry request e.
  rewrite (resubscribe_unfold get_ip_address _ _ _ _ _ _ _ p Hu Hp).
  unfold try_except.
  rewrite (url_resubscribe_accepted _ _ _ _ _ _ _ _
             (String.append "Second-" (NilEmpty.string_of_uint n)) Hu Hn).
  - cbv zeta. rewrite (int_of_granted_timeout n Hnil Hlen). rewrite Hentry, Hd.
    eexists. split; [reflexivity|]. split; [|reflexivity].
    simpl. rewrite <- app_assoc. reflexivity.
  - unfold accepted. rewrite Ht. destruct (status_code r =? 412); reflexivity.
  - unfold granted_timeout. rewrite Hh. reflexivity.
Qed.

End ProtocolBounds.

(** ** The delay of the renewal *)

(** X12: for a granted timeout below 2^51 seconds the delay
    [int(timeout * 0.75)] is the integer part of three quarters of the
    timeout, computed without rounding; for a timeout of one second or more
    the next attempt is therefore due before the subscription expires. *)
Theorem renewal_delay_precedes_expiry (n : Z) :
  0 <= n < 2 ^ 51 ->
  three_quarters n = Ok (3 * n / 4)
  /\ (0 < n -> 0 <= 3 * n / 4 < n).
Proof.
  intros Hn. split; [apply three_quarters_exact; exact Hn|].
  intros Hpos. split.
  - apply Z.div_pos; lia.
  - apply Z.div_lt_upper_bound; lia.
Qed.

(** ** The request handlers, continued *)

Lemma string_length_app (p s : string) :
  String.length (String.append p s) = (String.length p + String.length s)%nat.
Proof.
  induction p as [|c p IH]; [reflexivity|].
  change (String.append (String c p) s) with (String c (String.append p s)).
  simpl. rewrite IH. reflexivity.
Qed.

Lemma substring_whole (s : string) :
  String.substring 0 (String.length s) s = s.
Proof. induction s as [|c s IH]; simpl; [reflexivity|rewrite IH; reflexivity]. Qed.

Lemma substring_after (p s : string) (k : nat) :
  String.substring (String.length p) k (String.append p s)
  = String.substring 0 k s.
Proof.
  induction p as [|c p IH]; [reflexivity|].
  change (String.append (String c p) s) with (String c (String.append p s)).
  simpl. exact IH.
Qed.

Lemma substring_split (m : nat) (s : string) :
  (m <= String.length s)%nat ->
  s = String.append (String.substring 0 m s)
        (String.substring m (String.length s - m) s).
Proof.
  revert s. induction m as [|m IH]; intros s Hm.
  - rewrite Nat.sub_0_r, substring_whole.
    destruct s; reflexivity.
  - destruct s as [|c s]; [simpl in Hm; lia|].
    simpl in Hm. simpl String.length. simpl Nat.sub.
    change (String.substring 0 (S m) (String c s))
      with (String c (String.substring 0 m s)).
    change (String.substring (S m) (String.length s - m) (String c s))
      with (String.substring m (String.length s - m) s).
    change (String.append (String c (String.substring 0 m s))
              (String.substring m (String.length s - m) s))
      with (String c (String.append (String.substring 0 m s)
                        (String.substring m (String.length s - m) s))).
    f_equal. apply IH. lia.
Qed.

(** [s.endswith(suffix)] holds exactly when [s] is some prefix followed by
    the suffix. *)
Lemma endswith_iff (s suffix : string) :
  Py.endswith s suffix = true
  <-> exists prefix, s = String.append prefix suffix.
Proof.
  unfold Py.endswith. split.
  - intros H. apply andb_prop in H as [Hk He].
    apply Nat.leb_le in Hk. apply String.eqb_eq in He.
    exists (String.substring 0 (String.length s - String.length suffix) s).
    pose proof (substring_split (String.length s - String.length suffix) s
                  ltac:(lia)) as Hsplit.
    replace (String.length s - (String.length s - String.length suffix))%nat
      with (String.length suffix) in Hsplit by lia.
    rewrite He in Hsplit. exact Hsplit.
  - intros [prefix ->]. rewrite string_length_app.
    replace (String.length prefix + String.length suffix
             - String.length suffix)%nat
      with (String.length prefix) by lia.
    rewrite substring_after, substring_whole, String.eqb_refl.
    rewrite andb_true_r. apply Nat.leb_le. lia.
Qed.

Lemma with_trace_twice t1 t2 w :
  with_trace t2 (with_trace t1 w) = with_trace t2 w.
Proof. reflexivity. Qed.

Lemma event_eval device type_ value w :
  event device type_ value w
  = (Ok tt, with_trace (trace w ++ calls_for w device type_ value)%list w).
Proof.
  unfold event, bind, get_world. rewrite invoke_matching_trace. reflexivity.
Qed.

(** A loop whose body only calls callbacks: the calls of the elements, in
    order. *)
Lemma for_each_calls {A} (l : list A) (f : A -> M unit)
    (g : World -> A -> list action) w :
  (forall x w0, f x w0 = (Ok tt, with_trace (trace w0 ++ g w0 x)%list w0)) ->
  (forall x t w0, g (with_trace t w0) x = g w0 x) ->
  for_each l f w
  = (Ok tt, with_trace (trace w ++ List.flat_map (g w) l)%list w).
Proof.
  intros Hf Hg. revert w. induction l as [|x r IH]; intros w.
  - simpl. rewrite app_nil_r, with_trace_id. reflexivity.
  - simpl. unfold bind. rewrite Hf, IH. simpl.
    rewrite <- app_assoc.
    replace (List.flat_map (g (with_trace (trace w ++ g w x)%list w)) r)
      with (List.flat_map (g w) r); [reflexivity|].
    apply List.flat_map_ext. intros a. symmetry. apply Hg.
Qed.

Lemma calls_for_with_trace t w device type_ value :
  calls_for (with_trace t w) device type_ value
  = calls_for w device type_ value.
Proof. reflexivity. Qed.

Section HandlerDispatch.
Variable allocates : Z -> bool.
Variable fromstring : string -> option element.
Variable VIRTUAL_DEVICE_UDN : string.

Lemma get_xml_result req w doc :
  fst (_get_xml_from_http_body allocates fromstring req w) = Ok doc ->
  _get_xml_from_http_body allocates fromstring req w = (Ok doc, w).
Proof.
  intros H. pose proof (get_xml_keeps_world allocates fromstring req w) as Hw.
  destruct (_get_xml_from_http_body allocates fromstring req w) as [rx wx].
  simpl in H, Hw. subst. reflexivity.
Qed.

Lemma notify_loop_eval device doc w :
  for_each (findall_children (String.append NS "property") doc)
    (fun propnode =>
       for_each (children propnode)
         (fun property_ => event device (tag property_) (text property_))) w
  = (Ok tt, with_trace (trace w ++ notify_calls w device doc)%list w).
Proof.
  unfold notify_calls.
  apply (for_each_calls _ _
           (fun w0 propnode =>
              List.flat_map
                (fun property_ =>
                   calls_for w0 device (tag property_) (text property_))
                (children propnode))).
  - intros propnode w0.
    apply (for_each_calls _ _
             (fun w1 property_ =>
                calls_for w1 device (tag property_) (text property_))).
    + intros property_ w1. apply event_eval.
    + intros property_ t w1. reflexivity.
  - intros propnode t w0. reflexivity.
Qed.

(** X13: a NOTIFY from a registered sender whose body parses is answered
    200 after the callbacks were called: for each [property] child of the
    root, in document order, and each child of it, in document order, the
    event whose type is the tag of that element and whose value is its
    text goes to the callbacks registered for the sender's device. *)
Theorem notify_dispatches_properties_in_document_order
    (req : Request) (w : World) (device : Device) (doc : element) :
  devices w !! client_address req = Some device ->
  fst (_get_xml_from_http_body allocates fromstring req w) = Ok doc ->
  do_NOTIFY allocates fromstring req w
  = (Ok success_response,
     with_trace (trace w ++ notify_calls w device doc)%list w).
Proof.
  intros Hd Hx. unfold do_NOTIFY.
  unfold bind at 1. unfold bind at 1. unfold get_world at 1. rewrite Hd.
  unfold bind at 1. rewrite (get_xml_result _ _ _ Hx).
  rewrite notify_loop_eval. reflexivity.
Qed.

(** X14: a POST to the control path from a registered sender whose body
    parses and has a [BinaryState] element, at any depth, is answered 200
    after one [LongPress] event, whose value is the text of the first such
    element, went to the callbacks registered for the sender's device. *)
Theorem post_dispatches_one_long_press
    (req : Request) (w : World) (device : Device) (doc : element)
    (binary_state : element) (prefix : string) :
  path req = String.append prefix "/upnp/control/basicevent1" ->
  devices w !! client_address req = Some device ->
  fst (_get_xml_from_http_body allocates fromstring req w) = Ok doc ->
  find_descendant "BinaryState" doc = Some binary_state ->
  do_POST allocates fromstring req w
  = (Ok success_response,
     with_trace
       (trace w ++ calls_for w device "LongPress" (text binary_state))%list w).
Proof.
  intros Hp Hd Hx Hb. unfold do_POST.
  rewrite (proj2 (endswith_iff _ _) (ex_intro _ prefix Hp)).
  unfold bind at 1. unfold bind at 1. unfold get_world at 1. rewrite Hd.
  unfold bind at 1. rewrite (get_xml_result _ _ _ Hx). rewrite Hb.
  rewrite event_eval. reflexivity.
Qed.

(** X15: GET, POST and SUBSCRIBE requests for a path that does not end
    with the path the method is served under are answered 404 with the
    fixed body; the body of the request is not read, no callback is called
    and nothing changes. *)
Theorem other_paths_are_not_found (v : verb) (req : Request) (w : World) :
  v <> NOTIFY ->
  (forall prefix, path req <> String.append prefix (served_suffix v)) ->
  handle allocates fromstring VIRTUAL_DEVICE_UDN v req w = (Ok not_found_response, w).
Proof.
  intros Hv Hp.
  assert (He : Py.endswith (path req) (served_suffix v) = false).
  { destruct (Py.endswith (path req) (served_suffix v)) eqn:E; [|reflexivity].
    apply endswith_iff in E as [prefix E]. exfalso. exact (Hp prefix E). }
  destruct v; [congruence| | |]; simpl in He |- *.
  - unfold do_GET. rewrite He. reflexivity.
  - unfold do_POST. rewrite He. reflexivity.
  - unfold do_SUBSCRIBE. rewrite He. reflexivity.
Qed.

(** X16: a GET for a path that ends with [/setup.xml] is answered 200
    with the description of the virtual device as [text/xml]; the
    description names the UDN of the virtual device. *)
Theorem get_serves_the_device_description
    (req : Request) (w : World) (prefix : string) :
  path req = String.append prefix "/setup.xml" ->
  exists resp before after,
    do_GET VIRTUAL_DEVICE_UDN req w = (Ok resp, w)
    /\ code resp = 200
    /\ header_get "Content-Type" (sent_headers resp) = Some "text/xml"
    /\ body resp = VIRTUAL_SETUP_XML VIRTUAL_DEVICE_UDN
    /\ body resp
       = String.append before
           (String.append "<UDN>"
              (String.append VIRTUAL_DEVICE_UDN
                 (String.append "</UDN>" after))).
Proof.
  intros Hp. unfold do_GET.
  rewrite (proj2 (endswith_iff _ _) (ex_intro _ prefix Hp)).
  rewrite send_response_eval.
  pose (template := VIRTUAL_SETUP_XML "").
  pose (at_ := match String.index 0 "<UDN>" template with
               | Some n => n | None => O end).
  eexists.
  exists (String.substring 0 at_ template).
  exists (String.substring (at_ + 11) (String.length template) template).
  split; [reflexivity|]. split; [reflexivity|]. split; [reflexivity|].
  split; [reflexivity|].
  vm_compute. reflexivity.
Qed.

(** X17: a request handler changes nothing but the trace of calls, and
    the calls it makes are calls of callbacks with the device registered
    for the address of the sender: it makes no request and touches no
    timer, also when it ends with an error. *)
Theorem handlers_only_call_callbacks (v : verb) (req : Request) (w : World) :
  exists calls,
    snd (handle allocates fromstring VIRTUAL_DEVICE_UDN v req w)
    = with_trace (trace w ++ calls)%list w
    /\ forall a, a ∈ calls ->
         exists device,
           devices w !! client_address req = Some device
           /\ is_callback_for device a.
Proof.
  assert (Hnone : forall w', w' = w ->
            exists calls, w' = with_trace (trace w ++ calls)%list w
              /\ forall a, a ∈ calls ->
                   exists device,
                     devices w !! client_address req = Some device
                     /\ is_callback_for device a).
  { intros w' ->. exists []. split; [symmetry; apply with_trace_app_nil|].
    intros a Ha. inversion Ha. }
  assert (Hcalls : forall device type_ value a,
            a ∈ calls_for w device type_ value -> is_callback_for device a).
  { intros device type_ value a Ha. unfold calls_for in Ha.
    apply list_elem_of_fmap in Ha as (entry & -> & _).
    exists (snd entry), type_, value. reflexivity. }
  destruct v; simpl.
  - unfold do_NOTIFY.
    unfold bind at 1. unfold bind at 1. unfold get_world at 1.
    destruct (devices w !! client_address req) as [device|] eqn:Hd.
    + unfold bind at 1.
      pose proof (get_xml_keeps_world allocates fromstring req w) as Hw.
      destruct (_get_xml_from_http_body allocates fromstring req w) as [[doc|e] wx];
        simpl in Hw; subst wx.
      * rewrite notify_loop_eval. simpl.
        exists (notify_calls w device doc). split; [reflexivity|].
        intros a Ha. exists device. split; [reflexivity|].
        unfold notify_calls in Ha.
        apply list_elem_of_In, List.in_flat_map in Ha as (pn & _ & Ha).
        apply List.in_flat_map in Ha as (pr & _ & Ha).
        apply list_elem_of_In in Ha. eapply Hcalls. exact Ha.
      * apply Hnone. reflexivity.
    + apply Hnone. reflexivity.
  - unfold do_GET. destruct (Py.endswith (path req) "/setup.xml");
      apply Hnone; reflexivity.
  - unfold do_POST.
    destruct (Py.endswith (path req) "/upnp/control/basicevent1");
      [|apply Hnone; reflexivity].
    unfold bind at 1. unfold bind at 1. unfold get_world at 1.
    destruct (devices w !! client_address req) as [device|] eqn:Hd.
    + unfold bind at 1.
      pose proof (get_xml_keeps_world allocates fromstring req w) as Hw.
      destruct (_get_xml_from_http_body allocates fromstring req w) as [[doc|e] wx];
        simpl in Hw; subst wx.
      * destruct (find_descendant "BinaryState" doc) as [bs|].
        -- rewrite event_eval. simpl.
           exists (calls_for w device EVENT_TYPE_LONG_PRESS (text bs)).
           split; [reflexivity|].
           intros a Ha. exists device. split; [reflexivity|].
           eapply Hcalls. exact Ha.
        -- apply Hnone. reflexivity.
      * apply Hnone. reflexivity.
    + apply Hnone. reflexivity.
  - unfold do_SUBSCRIBE.
    destruct (Py.endswith (path req) "/upnp/event/basicevent1");
      apply Hnone; reflexivity.
Qed.

End HandlerDispatch.

(** ** [stop] *)

Lemma cancel_events_app a b w :
  _cancel_events (a ++ b) w = (_cancel_events a ;; _cancel_events b) w.
Proof.
  rewrite cancel_events_eval. unfold bind. rewrite cancel_events_eval.
  rewrite cancel_events_eval. simpl. f_equal.
  rewrite map_app, app_assoc.
  replace (without_events (a ++ b) (sched_queue w))
    with (without_events b (without_events a (sched_queue w)));
    [reflexivity|].
  generalize (sched_queue w). induction a as [|e a IH]; intros q;
    [reflexivity|].
  simpl. apply IH.
Qed.

(** The loop of [stop] cancels the events of the dictionaries it visits,
    one dictionary after the other. *)
Lemma stop_loop_eval (visited : list (list (SubscribeUrlFn * Event))) w :
  for_each visited
    (fun device_events => _cancel_events (Dict.values device_events)) w
  = _cancel_events (List.flat_map Dict.values visited) w.
Proof.
  revert w. induction visited as [|d rest IH]; intros w; [reflexivity|].
  simpl. rewrite cancel_events_app. unfold bind.
  destruct (_cancel_events (Dict.values d) w) as [[[]|e] w1];
    [apply IH|reflexivity].
Qed.

(** X18: [stop] on a started registry whose timers are in order cancels
    every pending timer, in whatever order it visits the timer
    dictionaries: the scheduler is left with no event, the flag for the
    event thread is set, and the device table, the callbacks and the timer
    dictionaries stay as they are.  On a registry that was not started
    [stop] ends with [AttributeError] and changes nothing. *)
Theorem stop_cancels_every_pending_timer
    (visited : list (list (SubscribeUrlFn * Event))) (r : RegistryState) :
  (forall p,
      _httpd (world r) = Some p ->
      timers_ok (world r) ->
      Permutation visited (map snd (map_to_list (_events (world r)))) ->
      exists w',
        stop visited r = (Ok tt, {| world := w'; _exiting := true |})
        /\ sched_queue w' = []
        /\ devices w' = devices (world r)
        /\ _callbacks w' = _callbacks (world r)
        /\ _events w' = _events (world r)
        /\ _httpd w' = _httpd (world r))
  /\ (_httpd (world r) = None -> stop visited r = (Raise AttributeError, r)).
Proof.
  split.
  - intros p Hp Hok Hperm. unfold stop. rewrite Hp, stop_loop_eval.
    destruct (cancel_events_queue (List.flat_map Dict.values visited)
                (world r) (pending_once _ Hok))
      as (w' & Hc & He & _ & _ & Hmem).
    pose proof (cancel_events_eval (List.flat_map Dict.values visited)
                  (world r)) as Hev.
    rewrite Hc in Hev. injection Hev as Hw'.
    rewrite Hc. exists w'. split; [reflexivity|].
    split; [|rewrite Hw'; simpl; repeat split; auto].
    destruct (sched_queue w') as [|x q] eqn:Eq; [reflexivity|].
    exfalso.
    assert (Hx : x ∈ x :: q) by left.
    apply Hmem in Hx as [Hx Hnot]. apply Hnot.
    destruct (pending_recorded _ Hok x Hx) as (d & L & G).
    apply list_elem_of_In, List.in_flat_map. exists d. split.
    + apply (Permutation_in _ (Permutation_sym Hperm)).
      apply List.in_map_iff. exists (serialnumber (ev_device x), d).
      split; [reflexivity|].
      apply list_elem_of_In, elem_of_map_to_list. exact L.
    + apply list_elem_of_In. eapply dict_get_values. exact G.
  - intros Hp. unfold stop. rewrite Hp. reflexivity.
Qed.

(** ** [SOAPFault] *)

(** X19: a [SOAPFault] made from a fault element of the usual layout has
    the texts of [faultcode], [faultstring] and of the [errorCode] and
    [errorDescription] of the UPnP error as its four attributes (the empty
    string for an element without text), whatever other elements follow,
    and its message is [SOAP Fault code:string, errorCode:description];
    made from an element without children, its four attributes are [None]
    and its message prints them as [None]. *)
Theorem soap_fault_reads_the_fault_element
    (c s ec ed : option string) (others : list element)
    (tag_ : string) (text_ : option string) :
  SOAPFault_init (upnp_fault c s ec ed others)
  = {| fault_code := Some (default "" c);
       fault_string := Some (default "" s);
       error_code := Some (default "" ec);
       error_description := Some (default "" ed);
       args :=
         String.concat ""
           ["SOAP Fault "; default "" c; ":"; default "" s; ", ";
            default "" ec; ":"; default "" ed] |}
  /\ SOAPFault_init (Element tag_ text_ [])
     = {| fault_code := None; fault_string := None; error_code := None;
          error_description := None;
          args := "SOAP Fault None:None, None:None" |}.
Proof. split; reflexivity. Qed.

(** ** The path of the callback URL *)

Lemma split_not_nil sep s : Py.split sep s <> [].
Proof.
  destruct s as [|c r]; simpl; [discriminate|].
  destruct (Ascii.eqb c sep); [discriminate|].
  destruct (Py.split sep r); discriminate.
Qed.

Lemma split_without_separator sep s :
  occurs sep s = false -> Py.split sep s = [s].
Proof.
  induction s as [|c r IH]; simpl; [reflexivity|].
  intros H. apply orb_false_iff in H as [Hc Hr].
  rewrite Hc, (IH Hr). reflexivity.
Qed.

Lemma split_app sep a b :
  Py.split sep (String.append a (String sep b))
  = (Py.split sep a ++ Py.split sep b)%list.
Proof.
  induction a as [|c a IH].
  - change (String.append "" (String sep b)) with (String sep b).
    simpl. rewrite Ascii.eqb_refl. reflexivity.
  - change (String.append (String c a) (String sep b))
      with (String c (String.append a (String sep b))).
    simpl. rewrite IH. destruct (Ascii.eqb c sep); [reflexivity|].
    pose proof (split_not_nil sep a) as Hne.
    destruct (Py.split sep a) as [|h t]; [congruence|reflexivity].
Qed.

Lemma last_app_not_nil {A} (l l' : list A) d :
  l' <> [] -> List.last (l ++ l') d = List.last l' d.
Proof.
  intros Hne. induction l as [|x l IH]; [reflexivity|].
  simpl. rewrite IH.
  destruct (l ++ l')%list eqn:E; [|reflexivity].
  apply app_eq_nil in E as [_ E]. congruence.
Qed.

(** X20: the path that [_resubscribe] puts in the callback URL,
    [url.rsplit('/')[-1]], is what follows the last slash of the event
    URL, and the whole URL when it has no slash. *)
Theorem callback_path_is_the_last_segment (base segment : string) :
  occurs "/" segment = false ->
  Py.last_item (Py.rsplit "/" (String.append base (String "/" segment)))
  = segment
  /\ Py.last_item (Py.rsplit "/" segment) = segment.
Proof.
  intros H. unfold Py.last_item, Py.rsplit. split.
  - rewrite split_app, last_app_not_nil by apply split_not_nil.
    rewrite (split_without_separator _ _ H). reflexivity.
  - rewrite (split_without_separator _ _ H). reflexivity.
Qed.

(** ** The chain of timers of an endpoint *)

(** How many events a call entered, by its result: one when it ends
    normally and the timer entry exists, none otherwise. *)
Lemma url_resubscribe_entered rec device hdrs sid url_fn w :
  Dict.get "TIMEOUT" hdrs = Some "Second-300" ->
  (forall w0,
      let out := rec device url_fn None 0 w0 in
      (fst out = Ok tt
       /\ length (sched_queue (snd out))
          = (length (sched_queue w0)
             + if timer_entry w0 device url_fn then 1 else 0)%nat)
      \/ (exists e, fst out = Raise e /\ e <> RequestException
                    /\ sched_queue (snd out) = sched_queue w0)) ->
  let out := _url_resubscribe rec device hdrs sid url_fn w in
  (fst out = Raise RequestException /\ same_registry (snd out) w)
  \/ (fst out = Ok tt
      /\ length (sched_queue (snd out))
         = (length (sched_queue w)
            + if timer_entry w device url_fn then 1 else 0)%nat)
  \/ (exists e, fst out = Raise e /\ e <> RequestException
                /\ sched_queue (snd out) = sched_queue w).
Proof.
  intros Hh Hrec. cbv zeta.
  destruct (call_url_fn url_fn device) as [url|e] eqn:Hu.
  2:{ rewrite (url_resubscribe_url_raises _ _ _ _ _ _ _ Hu).
      right. right. exists AttributeError. repeat split. discriminate. }
  destruct (network w (requests_made w)) as [r|] eqn:Hn.
  - destruct (if status_code r =? 412 then truthy sid else None)
      as [stale|] eqn:Hs.
    + assert (H412 : status_code r = 412 /\ truthy sid = Some stale).
      { destruct (status_code r =? 412) eqn:E; [|discriminate].
        split; [apply Z.eqb_eq; exact E|exact Hs]. }
      destruct H412 as [H412 Ht].
      rewrite (url_resubscribe_stale _ _ _ _ _ _ _ _ _ Hu Hn H412 Ht).
      unfold bind. rewrite requests_request_eval.
      set (w1 := after_request (HttpRequest "SUBSCRIBE" url hdrs) w).
      set (w2 := after_request _ w1).
      destruct (network w1 (requests_made w1)).
      * right. exact (Hrec w2).
      * left. split; [reflexivity|]. repeat split; reflexivity.
    + assert (Hg : exists g, granted_timeout hdrs r = Some g).
      { unfold granted_timeout.
        destruct (header_get "TIMEOUT" (response_headers r)); eauto. }
      destruct Hg as [g Hg].
      rewrite (url_resubscribe_accepted _ _ _ _ _ _ _ _ g Hu Hn Hs Hg).
      cbv zeta. right.
      destruct (Py.int (Py.replace "Second-" "" g)) as [t|e] eqn:Ei.
      * destruct (timer_entry w device url_fn) eqn:Et.
        -- destruct (three_quarters t) as [d|e] eqn:Eq.
           ++ left. split; [reflexivity|]. simpl.
              rewrite length_app. reflexivity.
           ++ right. exists e. split; [reflexivity|]. split; [|reflexivity].
              destruct (three_quarters_raises _ _ Eq) as [-> | ->];
                discriminate.
        -- left. split; [reflexivity|]. simpl. lia.
      * right. exists e. split; [reflexivity|]. split; [|reflexivity].
        rewrite (Py_int_raises _ _ Ei). discriminate.
  - rewrite (url_resubscribe_fails _ _ _ _ _ _ _ Hu Hn).
    left. split; [reflexivity|]. apply after_request_same.
Qed.

Lemma list_remove_in e q : e ∈ q -> is_Some (list_remove e q).
Proof.
  intros Hin. destruct (list_remove e q) eqn:E; [eauto|].
  exfalso. exact (list_remove_none _ _ E Hin).
Qed.

Lemma filter_nil_iff {A} (P : A -> bool) (l : list A) :
  (forall x, x ∈ l -> P x = false) -> List.filter P l = [].
Proof.
  induction l as [|a l IH]; intros H; [reflexivity|].
  simpl. rewrite (H a) by left. apply IH. intros x Hx. apply H. right.
  exact Hx.
Qed.

Section TimerLife.
Variable get_ip_address : string -> string.

Lemma resubscribe_entered fuel :
  forall device url_fn sid retry w,
  let out := _resubscribe get_ip_address fuel device url_fn sid retry w in
  (fst out = Ok tt
   /\ length (sched_queue (snd out))
      = (length (sched_queue w)
         + if timer_entry w device url_fn then 1 else 0)%nat)
  \/ (exists e, fst out = Raise e /\ e <> RequestException
                /\ sched_queue (snd out) = sched_queue w).
Proof.
  induction fuel as [|fuel IH]; intros device url_fn sid retry w; cbv zeta.
  - right. exists RecursionError. repeat split. discriminate.
  - destruct (resubscribe_cases get_ip_address fuel device url_fn sid retry w)
      as [-> | (hdrs & Hh & ->)].
    + right. exists AttributeError. repeat split. discriminate.
    + unfold try_except.
      destruct (url_resubscribe_entered (_resubscribe get_ip_address fuel)
                  device hdrs sid url_fn w Hh)
        as [[Hr Hsame] | [[Hr Hlen] | (e & Hr & Hne & Hq)]].
      * intros w0. apply IH.
      * destruct (_url_resubscribe _ device hdrs sid url_fn w) as [res w1].
        simpl in Hr, Hsame. subst res.
        rewrite decide_True by reflexivity.
        rewrite retry_handler_eval. cbv zeta. left. split; [reflexivity|].
        destruct Hsame as (_ & _ & _ & He & Hq & _).
        assert (Ht : timer_entry w1 device url_fn = timer_entry w device url_fn)
          by (unfold timer_entry; rewrite He; reflexivity).
        rewrite Ht.
        destruct ((1 <? retry + 1) && rediscovery_enabled device),
          (timer_entry w device url_fn); simpl;
          rewrite ?length_app, Hq; simpl; lia.
      * destruct (_url_resubscribe _ device hdrs sid url_fn w) as [res w1].
        simpl in Hr, Hlen. subst res. left. split; [reflexivity|exact Hlen].
      * destruct (_url_resubscribe _ device hdrs sid url_fn w) as [res w1].
        simpl in Hr, Hq. subst res.
        rewrite decide_False by exact Hne.
        right. exists e. repeat split; assumption.
Qed.

(** X21: when the scheduler runs a pending timer of a registry whose
    timers are in order, the attempt decides whether the subscription is
    kept up: after an attempt that ends normally the device and endpoint
    have one pending timer again, and after an attempt that ends with an
    error they have none, so that no further attempt is made for them. *)
Theorem fired_timer_is_replaced_unless_the_attempt_raises
    (fuel : nat) (e : Event) (w : World) :
  timers_ok w ->
  e ∈ sched_queue w ->
  let out := run_event get_ip_address fuel e w in
  length (pending (snd out) (serialnumber (ev_device e)) (ev_url_fn e))
  = match fst out with Ok _ => 1%nat | Raise _ => 0%nat end.
Proof.
  intros Hok Hin. cbv zeta. unfold run_event, bind, get_world.
  destruct (list_remove_in _ _ Hin) as [q Er]. rewrite Er.
  destruct (list_remove_some _ _ _ Er (pending_once _ Hok)) as [Hq Hiff].
  unfold modify. set (w1 := with_sched q (sched_counter w) w).
  set (P := fun x : Event =>
              bool_decide (serialnumber (ev_device x)
                           = serialnumber (ev_device e))
              && bool_decide (ev_url_fn x = ev_url_fn e)).
  assert (Hnone : List.filter P q = []).
  { apply filter_nil_iff. intros x Hx. apply Hiff in Hx as [Hx Hne].
    destruct (P x) eqn:Px; [|reflexivity]. exfalso. apply Hne.
    unfold P in Px. apply andb_prop in Px as [S1 F1].
    apply bool_decide_eq_true_1 in S1, F1.
    destruct (pending_recorded _ Hok x Hx) as (dx & Lx & Gx).
    destruct (pending_recorded _ Hok e Hin) as (de & Le & Ge).
    rewrite S1 in Lx. rewrite F1 in Gx. congruence. }
  assert (Hentry : timer_entry w1 (ev_device e) (ev_url_fn e) = true).
  { destruct (pending_recorded _ Hok e Hin) as (de & Le & Ge).
    unfold timer_entry, Dict.mem. simpl. rewrite Le. simpl. rewrite Ge.
    reflexivity. }
  destruct (resubscribe_enters_at_most_one get_ip_address fuel (ev_device e)
              (ev_url_fn e) (ev_sid e) (ev_retry e) w1)
    as (res & w' & Hr & _ & Hent).
  pose proof (resubscribe_entered fuel (ev_device e) (ev_url_fn e) (ev_sid e)
                (ev_retry e) w1) as Hlen.
  cbv zeta in Hlen. rewrite Hr in Hlen |- *. simpl in Hlen |- *.
  rewrite Hentry in Hlen. unfold pending. fold P.
  destruct Hlen as [[-> Hlen] | (x & -> & _ & Hsame)].
  - destruct Hent
      as [Hsame | (delay & sid & retry & _ & _ & _ & _ & Hq' & _)].
    + destruct Hsame as (_ & _ & _ & _ & Hq' & _). rewrite Hq' in Hlen.
      simpl in Hlen. lia.
    + rewrite Hq'. simpl. rewrite List.filter_app, Hnone. simpl.
      unfold P. simpl. rewrite !bool_decide_eq_true_2 by reflexivity.
      reflexivity.
  - rewrite Hsame. simpl. rewrite Hnone. reflexivity.
Qed.

End TimerLife.

(** ** An attempt in two parts *)

Lemma bind_assoc {A B C} (m : M A) (k : A -> M B) (h : B -> M C) w :
  bind (bind m k) h w = bind m (fun a => bind (k a) h) w.
Proof. unfold bind. destruct (m w) as [[a|e] w1]; reflexivity. Qed.

Lemma bind_ext {A B} (m : M A) (k k' : A -> M B) w :
  (forall a w', k a w' = k' a w') -> bind m k w = bind m k' w.
Proof.
  intros H. unfold bind. destruct (m w) as [[a|e] w1]; [apply H|reflexivity].
Qed.

Lemma try_except_ext {A} (m m' h h' : M A) E w :
  (forall w', m w' = m' w') -> (forall w', h w' = h' w') ->
  try_except m E h w = try_except m' E h' w.
Proof.
  intros Hm Hh. unfold try_except. rewrite Hm.
  destruct (m' w) as [[a|e] w1]; [reflexivity|].
  destruct (decide (e = E)); [apply Hh|reflexivity].
Qed.

(** A continuation that does not raise the exception of an [except] clause
    can be moved out of the [try] statement. *)
Lemma try_except_bind {A B} (m h : M A) (k : A -> M B) E w :
  (forall a w', fst (k a w') <> Raise E) ->
  try_except (bind m k) E (bind h k) w = bind (try_except m E h) k w.
Proof.
  intros Hk. unfold try_except, bind.
  destruct (m w) as [[a|e] w1].
  - destruct (k a w1) as [[b|e'] w2] eqn:Ek; [reflexivity|].
    destruct (decide (e' = E)) as [->|]; [|reflexivity].
    exfalso. apply (Hk a w1). rewrite Ek. reflexivity.
  - destruct (decide (e = E)); reflexivity.
Qed.

(** The locked block, evaluated. *)
Lemma resubscribe_locked_eval device url_fn r w :
  _resubscribe_locked device url_fn r w
  = if timer_entry w device url_fn then
      match r with
      | Renew timeout sid =>
          match three_quarters timeout with
          | Ok delay =>
              (Ok tt,
               after_schedule (next_event w delay device url_fn sid 0) w)
          | Raise e => (Raise e, w)
          end
      | Retry sid retry =>
          (Ok tt,
           after_schedule
             (next_event w SUBSCRIPTION_RETRY device url_fn sid retry) w)
      end
    else (Ok tt, w).
Proof.
  unfold _resubscribe_locked, timer_entry_exists. unfold bind at 1.
  unfold bind at 1. unfold get_world at 1. unfold ret at 1.
  fold (timer_entry w device url_fn).
  destruct (timer_entry w device url_fn) eqn:Et; [|reflexivity].
  destruct r as [timeout sid|sid retry].
  - unfold bind, lift. destruct (three_quarters timeout); [|reflexivity].
    apply schedule_eval. exact Et.
  - apply schedule_eval. exact Et.
Qed.

(** The locked block raises no transport error. *)
Lemma resubscribe_locked_no_transport_error device url_fn r w :
  fst (_resubscribe_locked device url_fn r w) <> Raise RequestException.
Proof.
  rewrite resubscribe_locked_eval.
  destruct (timer_entry w device url_fn); [|discriminate].
  destruct r as [timeout sid|sid retry]; [|discriminate].
  destruct (three_quarters timeout) as [delay|e] eqn:E; [discriminate|].
  simpl. destruct (three_quarters_raises _ _ E) as [-> | ->]; discriminate.
Qed.

(** The locked block enters at most one event, for its device and
    endpoint. *)
Lemma resubscribe_locked_enters device url_fn r w :
  enters_at_most_one device url_fn w
    (snd (_resubscribe_locked device url_fn r w)).
Proof.
  rewrite resubscribe_locked_eval.
  destruct (timer_entry w device url_fn) eqn:Et;
    [|left; apply same_registry_refl].
  destruct r as [timeout sid|sid retry].
  - destruct (three_quarters timeout); simpl.
    + apply after_schedule_enters. exact Et.
    + left. apply same_registry_refl.
  - apply after_schedule_enters. exact Et.
Qed.

Lemma url_resubscribe_split rec rec_requests device hdrs sid url_fn w :
  (forall w',
     rec device url_fn None 0 w'
     = bind (rec_requests device url_fn None 0)
         (_resubscribe_locked device url_fn) w') ->
  _url_resubscribe rec device hdrs sid url_fn w
  = bind (_url_resubscribe_requests rec_requests device hdrs sid url_fn)
      (_resubscribe_locked device url_fn) w.
Proof.
  intros Hrec. unfold _url_resubscribe, _url_resubscribe_requests.
  rewrite bind_assoc. apply bind_ext. intros url w1.
  rewrite bind_assoc. apply bind_ext. intros response w2.
  destruct (if status_code response =? 412 then truthy sid else None).
  - rewrite bind_assoc. apply bind_ext. intros _ w3. apply Hrec.
  - rewrite bind_assoc. apply bind_ext. intros granted w3.
    rewrite bind_assoc. apply bind_ext. intros timeout w4.
    reflexivity.
Qed.

Section TwoParts.
Variable get_ip_address : string -> string.

(** An attempt is its requests followed by its locked block. *)
Lemma resubscribe_split fuel :
  forall device url_fn sid retry w,
    _resubscribe get_ip_address fuel device url_fn sid retry w
    = bind (_resubscribe_requests get_ip_address fuel device url_fn sid retry)
        (_resubscribe_locked device url_fn) w.
Proof.
  induction fuel as [|fuel IH]; intros device url_fn sid retry w;
    [reflexivity|].
  cbn [_resubscribe _resubscribe_requests].
  rewrite bind_assoc. apply bind_ext. intros url w1.
  rewrite bind_assoc. apply bind_ext. intros hdrs w2.
  rewrite <- try_except_bind
    by (intros a w'; apply resubscribe_locked_no_transport_error).
  apply try_except_ext.
  - intros w'. apply url_resubscribe_split. intros w''. apply IH.
  - intros w'. cbv zeta. rewrite bind_assoc. apply bind_ext.
    intros _ w''. reflexivity.
Qed.

(** The requests of an attempt leave the registry and the scheduler as
    they are. *)
Lemma url_resubscribe_requests_same rec device hdrs sid url_fn w :
  (forall w', same_registry (snd (rec device url_fn None 0 w')) w') ->
  same_registry
    (snd (_url_resubscribe_requests rec device hdrs sid url_fn w)) w.
Proof.
  intros Hrec. unfold _url_resubscribe_requests, bind, lift.
  destruct (call_url_fn url_fn device) as [url|e];
    [|apply same_registry_refl].
  rewrite requests_request_eval.
  destruct (network w (requests_made w)) as [r|];
    [|apply after_request_same].
  destruct (if status_code r =? 412 then truthy sid else None) as [stale|].
  - rewrite requests_request_eval.
    set (w1 := after_request _ w).
    destruct (network w1 (requests_made w1)).
    + eapply same_registry_trans; [apply Hrec|].
      eapply same_registry_trans; apply after_request_same.
    + eapply same_registry_trans; apply after_request_same.
  - destruct (header_get "TIMEOUT" (response_headers r)) as [v|].
    + unfold ret. destruct (Py.int _); apply after_request_same.
    + destruct (Dict.get "TIMEOUT" hdrs) as [v|].
      * unfold ret. destruct (Py.int _); apply after_request_same.
      * apply after_request_same.
Qed.

Lemma resubscribe_requests_same fuel :
  forall device url_fn sid retry w,
    same_registry
      (snd (_resubscribe_requests get_ip_address fuel device url_fn sid
              retry w)) w.
Proof.
  induction fuel as [|fuel IH]; intros device url_fn sid retry w;
    [apply same_registry_refl|].
  cbn [_resubscribe_requests]. unfold bind at 1. unfold lift at 1.
  destruct (call_url_fn url_fn device) as [url|e];
    [|apply same_registry_refl].
  unfold bind at 1.
  assert (Hh : forall (m : M (list (string * string))),
    (forall r w', m w = (r, w') -> w' = w) ->
    same_registry
      (snd (match m w with
            | (Ok a, w') =>
                try_except
                  (_url_resubscribe_requests
                     (_resubscribe_requests get_ip_address fuel)
                     device a sid url_fn)
                  RequestException
                  (let retry0 := retry + 1 in
                   (if 1 <? retry0
                    then if rediscovery_enabled device
                         then reconnect_with_device device else ret tt
                    else ret tt) ;; ret (Retry sid retry0)) w'
            | (Raise e, w') => (Raise e, w')
            end)) w).
  { intros m Hm. destruct (m w) as [[hdrs|e] w'] eqn:Em;
      pose proof (Hm _ _ eq_refl) as ->; [|apply same_registry_refl].
    unfold try_except.
    pose proof (url_resubscribe_requests_same
                  (_resubscribe_requests get_ip_address fuel)
                  device hdrs sid url_fn w
                  (fun w' => IH device url_fn None 0 w')) as Hs.
    destruct (_url_resubscribe_requests _ device hdrs sid url_fn w)
      as [[r|e] w1]; [exact Hs|].
    destruct (decide (e = RequestException)); [|exact Hs].
    cbv zeta. unfold bind, ret.
    destruct (1 <? retry + 1); [destruct (rediscovery_enabled device)|];
      simpl; exact Hs. }
  apply Hh. intros r w'. destruct sid as [s|].
  - intros [= _ <-]. reflexivity.
  - unfold bind, port, get_world, bind. destruct (_httpd w); intros [= _ <-];
      reflexivity.
Qed.

End TwoParts.

(** ** The invariant of the timers along the steps of the threads *)

Lemma register_queue device w x :
  x ∈ sched_queue (snd (register (Some device) w)) ->
  x ∈ sched_queue w \/ ev_device x = device.
Proof.
  rewrite register_eval. cbv zeta.
  destruct (insight device); simpl; intros Hx;
    repeat (apply elem_of_app in Hx as [Hx | Hx];
            [|apply list_elem_of_singleton in Hx; subst x; right;
              reflexivity]);
    left; exact Hx.
Qed.

Section ThreadsInvariant.
Variable get_ip_address : string -> string.
Variable bindable : Z -> bool.

(** A call keeps the queue or removes events from it, [register] apart,
    which adds events of its device. *)
Lemma perform_queue fuel op w x :
  match op with RunEvent _ => False | _ => True end ->
  timers_ok w ->
  x ∈ sched_queue (snd (perform get_ip_address bindable fuel op w)) ->
  x ∈ sched_queue w
  \/ exists device, op = Register device /\ ev_device x = device.
Proof.
  intros Hop Hok. destruct op as [d|d|d f cb|d t v| |e]; simpl.
  - intros Hx. apply register_queue in Hx as [Hx | Hx]; eauto.
  - intros Hx. apply (unregister_queue d w (pending_once _ Hok)) in Hx.
    left. exact (proj1 Hx).
  - unfold on, callbacks_getitem, bind, get_world.
    destruct (_callbacks w !! serialnumber d); simpl; auto.
  - unfold event, bind, get_world. rewrite invoke_matching_trace. simpl.
    auto.
  - unfold start. destruct (_start_server bindable); simpl; auto.
  - destruct Hop.
Qed.

(** Every step in turn keeps the timers in order and the attempt under way
    alone. *)
Lemma run_step_invariant fuel s t :
  timers_ok (registry t) -> attempt_alone t ->
  in_turn t s ->
  timers_ok (registry (run_step get_ip_address bindable fuel s t))
  /\ attempt_alone (run_step get_ip_address bindable fuel s t).
Proof.
  intros Hok Halone Hturn. destruct s as [op| e | |].
  - (* a call *)
    assert (Hfirst : first_registration (registry t) op).
    { destruct op; simpl in *; try exact I. exact (proj1 Hturn). }
    split.
    + unfold run_step. destruct (event_thread t);
        apply perform_timers_ok; assumption.
    + unfold attempt_alone, run_step in *.
      destruct (event_thread t) as [|e|e r] eqn:Ea; simpl; [exact I| |];
        intros x Hx Hs;
        (apply perform_queue in Hx as [Hx | (d & -> & Hd)];
         [exact (Halone x Hx Hs)
         |exfalso; simpl in Hturn; rewrite Ea in Hturn; simpl in Hturn;
          apply (proj2 Hturn); rewrite <- Hs, Hd; reflexivity
         |destruct op; simpl in Hturn; try exact I;
          rewrite Ea in Hturn; discriminate
         |exact Hok]).
  - (* an event is taken from the queue *)
    unfold run_step.
    destruct (event_thread t) eqn:Ea; try (split; assumption).
    destruct (list_remove e (sched_queue (registry t))) as [q|] eqn:Er;
      [|split; assumption].
    destruct Hok as [Hrec Hnum Hnd].
    destruct (list_remove_some _ _ _ Er Hnd) as [Hq Hiff].
    pose proof (list_remove_elem _ _ _ Er) as Hin.
    split.
    + split; simpl.
      * intros x Hx. apply Hiff in Hx as [Hx _]. exact (Hrec x Hx).
      * intros x Hx. apply Hiff in Hx as [Hx _]. exact (Hnum x Hx).
      * exact Hq.
    + unfold attempt_alone. simpl. intros x Hx Hs Hf.
      apply Hiff in Hx as [Hx Hne]. apply Hne.
      destruct (Hrec x Hx) as (dx & Lx & Gx).
      destruct (Hrec e Hin) as (de & Le & Ge).
      rewrite Hs in Lx. rewrite Hf in Gx. congruence.
  - (* the requests of the attempt *)
    unfold run_step.
    destruct (event_thread t) as [|e|e r] eqn:Ea; try (split; assumption).
    pose proof (resubscribe_requests_same get_ip_address fuel (ev_device e)
                  (ev_url_fn e) (ev_sid e) (ev_retry e) (registry t)) as Hs.
    destruct (_resubscribe_requests get_ip_address fuel (ev_device e)
                (ev_url_fn e) (ev_sid e) (ev_retry e) (registry t))
      as [[r|ex] w'].
    + simpl in Hs. split; [eapply timers_ok_same; eassumption|].
      unfold attempt_alone in *. rewrite Ea in Halone. simpl.
      destruct Hs as (_ & _ & _ & _ & Hq & _). rewrite Hq. exact Halone.
    + simpl in Hs. split; [eapply timers_ok_same; eassumption|exact I].
  - (* the locked block *)
    unfold run_step.
    destruct (event_thread t) as [|e|e r] eqn:Ea; try (split; assumption).
    split; [|exact I]. simpl.
    unfold attempt_alone in Halone. rewrite Ea in Halone.
    eapply timers_ok_enters;
      [exact Hok | exact Halone | apply resubscribe_locked_enters].
Qed.

Lemma run_steps_invariant fuel steps :
  forall t,
    timers_ok (registry t) -> attempt_alone t ->
    all_in_turn get_ip_address bindable fuel steps t ->
    timers_ok (registry (run_steps get_ip_address bindable fuel steps t)).
Proof.
  induction steps as [|s rest IH]; intros t Hok Halone Hturn; [exact Hok|].
  destruct Hturn as [H1 Hrest]. simpl.
  destruct (run_step_invariant fuel s t Hok Halone H1) as [Hok' Halone'].
  apply IH; assumption.
Qed.

(** X2: along the steps of the threads of a new registry - calls of
    [register], [unregister], [on], [event] and [start], and the event
    thread taking a pending event, making the requests of the attempt and
    running its locked block, with calls coming between these - no serial
    number and endpoint has more than one pending timer, as long as
    [register] is called only for a serial number that has no timer
    dictionary and no attempt under way, and [start] only on a registry
    that is not listening. *)
Theorem one_timer_along_interleaved_runs fuel steps net serial url_fn :
  all_in_turn get_ip_address bindable fuel steps (new_threads net) ->
  (length
     (pending
        (registry
           (run_steps get_ip_address bindable fuel steps (new_threads net)))
        serial url_fn) <= 1)%nat.
Proof.
  intros Hturn. apply timers_ok_at_most_one.
  apply run_steps_invariant; [apply new_registry_timers_ok|exact I|exact Hturn].
Qed.

(** A fired timer as one operation is the three steps of the event
    thread with no call between them. *)
Lemma run_event_as_steps fuel e w :
  registry
    (run_steps get_ip_address bindable fuel [Pop e; Requests; Finish]
       {| registry := w; event_thread := Idle |})
  = snd (run_event get_ip_address fuel e w).
Proof.
  unfold run_event. unfold bind at 1. unfold get_world at 1.
  cbn [run_steps run_step registry event_thread].
  destruct (list_remove e (sched_queue w)) as [q|]; [|reflexivity].
  unfold bind at 1. unfold modify at 1.
  cbn [registry event_thread].
  set (w1 := with_sched q (sched_counter w) w).
  rewrite resubscribe_split. unfold bind.
  destruct (_resubscribe_requests get_ip_address fuel (ev_device e)
              (ev_url_fn e) (ev_sid e) (ev_retry e) w1) as [[r|ex] w2];
    reflexivity.
Qed.

End ThreadsInvariant.

(** A call of [register] for a device whose attempt is under way: the
    attempt finds the timer entry of the new registration and enters a
    second timer. *)
Lemma register_during_an_attempt_leaves_two_timers :
  length
    (pending
       (registry
          (run_steps local_ip (fun _ => true) 2 racing_run
             (new_threads grants_400)))
       (serialnumber plug) _basic_event_subscription_url)
  = 2%nat.
Proof. vm_compute. reflexivity. Qed.

(** ** Notifications after [unregister] *)

(** X22: once [unregister(device)] was called, whether it ended normally
    or with [KeyError], a NOTIFY from the address of the device, and a
    POST from it to the control path, are answered 200 without a look at
    the body: no callback is called and nothing changes. *)
Theorem notify_after_unregister_is_ignored
    (allocates : Z -> bool) (fromstring : string -> option element)
    (req : Request)
    (device : Device) (w : World) :
  client_address req = host device ->
  let w' := snd (unregister (Some device) w) in
  do_NOTIFY allocates fromstring req w' = (Ok success_response, w')
  /\ forall prefix,
       path req = String.append prefix "/upnp/control/basicevent1" ->
       do_POST allocates fromstring req w' = (Ok success_response, w').
Proof.
  intros Ha. cbv zeta.
  assert (Hd : devices (snd (unregister (Some device) w))
               !! client_address req = None).
  { rewrite Ha, unregister_eval. cbv zeta.
    destruct (devices w !! host device) eqn:E; simpl.
    - apply lookup_delete_eq.
    - exact E. }
  split.
  - unfold do_NOTIFY, bind, get_world. rewrite Hd. reflexivity.
  - intros prefix Hp. unfold do_POST.
    rewrite (proj2 (endswith_iff _ _) (ex_intro _ prefix Hp)).
    unfold bind, get_world. rewrite Hd. reflexivity.
Qed.

(** X23: once [register(device)] was called, a NOTIFY from the address
    of the device whose body parses is dispatched to the callbacks of that
    device, whichever device was registered for the address before. *)
Theorem notify_after_register_is_dispatched
    (allocates : Z -> bool) (fromstring : string -> option element)
    (req : Request)
    (device : Device) (doc : element) (w : World) :
  client_address req = host device ->
  let w' := snd (register (Some device) w) in
  fst (_get_xml_from_http_body allocates fromstring req w') = Ok doc ->
  do_NOTIFY allocates fromstring req w'
  = (Ok success_response,
     with_trace (trace w' ++ notify_calls w' device doc)%list w').
Proof.
  intros Ha. cbv zeta. intros Hx.
  assert (Hd : devices (snd (register (Some device) w))
               !! client_address req = Some device).
  { rewrite Ha, register_eval. cbv zeta.
    destruct (insight device); simpl; apply lookup_insert_eq. }
  unfold do_NOTIFY.
  unfold bind at 1. unfold bind at 1. unfold get_world at 1. rewrite Hd.
  unfold bind at 1. rewrite (get_xml_result _ _ _ _ _ Hx).
  rewrite notify_loop_eval. reflexivity.
Qed.

(** ** The further properties at concrete inputs *)

Lemma started_timers_ok net : timers_ok (started net).
Proof.
  apply (timers_ok_fields _ (new_registry net)); try reflexivity.
  apply new_registry_timers_ok.
Qed.

Lemma registered_timers_ok net : timers_ok (registered net).
Proof.
  apply register_timers_ok; [apply started_timers_ok|reflexivity].
Qed.

Lemma registered_filed net : filed_by_serial (registered net).
Proof.
  apply (perform_filed local_ip (fun _ => true) 0 (Register plug)).
  apply (filed_by_serial_fields _ (new_registry net)); [reflexivity|].
  apply new_registry_filed.
Qed.

Lemma endswith_false (s suffix : string) :
  Py.endswith s suffix = false ->
  forall prefix, s <> String.append prefix suffix.
Proof.
  intros H prefix Hs.
  rewrite (proj2 (endswith_iff s suffix) (ex_intro _ prefix Hs)) in H.
  discriminate.
Qed.

(** Cancelling the timer of the plug and an event that is not pending. *)
Lemma cancel_events_removes_the_listed_events_witness :
  exists w',
    _cancel_events [first_timer; second_timer] (registered unreachable)
    = (Ok tt, w')
    /\ trace w'
       = (trace (registered unreachable)
          ++ [SchedCancel first_timer; SchedCancel second_timer])%list
    /\ (first_timer ∈ sched_queue w'
        <-> first_timer ∈ sched_queue (registered unreachable)
            /\ first_timer ∉ [first_timer; second_timer]).
Proof.
  destruct (cancel_events_removes_the_listed_events
              [first_timer; second_timer] (registered unreachable))
    as (w' & H & Ht & _ & _ & _ & Hmem).
  - vm_compute. apply NoDup_singleton.
  - exists w'. split; [exact H|]. split; [exact Ht|]. apply Hmem.
Defined.

(** The first registration of the plug, which has no insight service. *)
Lemma register_schedules_each_endpoint_once_witness :
  exists w',
    register (Some plug) (started unreachable) = (Ok tt, w')
    /\ length (pending w' (serialnumber plug) _basic_event_subscription_url)
       = 1%nat
    /\ length (pending w' (serialnumber plug)
                 _insight_event_subscription_url) = 0%nat.
Proof.
  destruct (register_schedules_each_endpoint_once plug (started unreachable))
    as (w' & H & Hb & Hi & _).
  - intros e He. vm_compute in He. inversion He.
  - exists w'. split; [exact H|]. split; [exact Hb|exact Hi].
Defined.

(** Unregistering the registered plug. *)
Lemma unregister_removes_witness :
  exists w',
    unregister (Some plug) (registered unreachable) = (Ok tt, w')
    /\ devices w' = delete (host plug) (devices (registered unreachable))
    /\ _callbacks w'
       = delete (serialnumber plug) (_callbacks (registered unreachable))
    /\ _events w'
       = delete (serialnumber plug) (_events (registered unreachable)).
Proof.
  exact (unregister_removes plug (registered unreachable) plug eq_refl).
Defined.

(** The timer of the plug does not outlive [unregister(plug)]. *)
Lemma unregister_cancels_the_timers_of_the_device_witness :
  first_timer ∈ sched_queue (snd (unregister (Some plug)
                                    (registered unreachable)))
  <-> first_timer ∈ sched_queue (registered unreachable)
      /\ serialnumber (ev_device first_timer) <> serialnumber plug.
Proof.
  exact (unregister_cancels_the_timers_of_the_device plug
           (registered unreachable) (registered_timers_ok unreachable)
           (registered_filed unreachable) first_timer).
Defined.

(** Registering and unregistering the plug on a started registry. *)
Lemma register_then_unregister_restores_witness :
  exists w',
    (register (Some plug) ;; unregister (Some plug)) (started unreachable)
    = (Ok tt, w')
    /\ sched_queue w' = sched_queue (started unreachable).
Proof.
  destruct (register_then_unregister_restores plug (started unreachable)
              (started_timers_ok unreachable))
    as (w' & H & _ & _ & _ & Hq).
  exists w'. split; [exact H|exact Hq].
Defined.

(** A NOTIFY from the plug after it was unregistered. *)
Lemma notify_after_unregister_is_ignored_witness :
  do_NOTIFY roomy (parses state_change_body state_change) notify_state_change
    (snd (unregister (Some plug) listening))
  = (Ok success_response, snd (unregister (Some plug) listening)).
Proof.
  exact (proj1 (notify_after_unregister_is_ignored
                  roomy (parses state_change_body state_change)
                  notify_state_change plug listening eq_refl)).
Defined.

(** The run [interleaved_run]: the plug is unregistered while an attempt
    for it is under way and registered again when the attempt is over. *)
Lemma one_timer_along_interleaved_runs_witness :
  (length
     (pending
        (registry
           (run_steps local_ip (fun _ => true) 2 interleaved_run
              (new_threads grants_400)))
        (serialnumber plug) _basic_event_subscription_url) <= 1)%nat.
Proof.
  apply (one_timer_along_interleaved_runs local_ip (fun _ => true) 2
           interleaved_run grants_400).
  vm_compute. repeat split; try reflexivity; discriminate.
Defined.

(** The first timer of the plug fires. *)
Lemma fired_timer_is_replaced_unless_the_attempt_raises_witness :
  length
    (pending (snd (run_event local_ip 1 first_timer (registered grants_400)))
       (serialnumber (ev_device first_timer)) (ev_url_fn first_timer))
  = match fst (run_event local_ip 1 first_timer (registered grants_400)) with
    | Ok _ => 1%nat
    | Raise _ => 0%nat
    end.
Proof.
  apply (fired_timer_is_replaced_unless_the_attempt_raises local_ip 1
           first_timer (registered grants_400)
           (registered_timers_ok grants_400)).
  vm_compute. left.
Defined.

(** A first SUBSCRIBE, without SID, that is answered 412. *)
Lemma resubscribe_412_without_sid_is_accepted_witness :
  exists w',
    _resubscribe local_ip 1 plug _basic_event_subscription_url None 0
      (registered answers_412) = (Ok tt, w')
    /\ sched_queue w'
       = (sched_queue (registered answers_412)
          ++ [{| ev_delay := 1350; ev_seq := 1; ev_device := plug;
                 ev_url_fn := _basic_event_subscription_url;
                 ev_sid := None; ev_retry := 0 |}])%list.
Proof.
  destruct (resubscribe_412_without_sid_is_accepted
              local_ip 0 (registered answers_412) plug
              _basic_event_subscription_url None 0
              "http://192.168.1.20:49153/upnp/event/basicevent1" 8989
              response_412 (D1 (D8 (D0 (D0 Nil)))) 1350)
    as (w' & H & _ & Hq);
    [reflexivity | reflexivity | reflexivity | reflexivity | reflexivity
    | discriminate | apply Nat.leb_le; reflexivity | reflexivity
    | reflexivity | reflexivity |].
  exists w'. split; [exact H|exact Hq].
Defined.

(** A timeout of 400 seconds is renewed after 300. *)
Lemma renewal_delay_precedes_expiry_witness :
  three_quarters 400 = Ok 300 /\ (0 < 400 -> 0 <= 3 * 400 / 4 < 400).
Proof. exact (renewal_delay_precedes_expiry 400 ltac:(lia)). Defined.

(** The event URL of the plug. *)
Lemma callback_path_is_the_last_segment_witness :
  Py.last_item
    (Py.rsplit "/" "http://192.168.1.20:49153/upnp/event/basicevent1")
  = "basicevent1".
Proof.
  exact (proj1 (callback_path_is_the_last_segment
                  "http://192.168.1.20:49153/upnp/event" "basicevent1"
                  eq_refl)).
Defined.

(** Two state changes reach the callback for every event, the first one
    also the callback for [BinaryState]. *)
Lemma notify_dispatches_properties_in_document_order_witness :
  do_NOTIFY roomy (parses state_change_body state_change) notify_state_change
    listening
  = (Ok success_response,
     with_trace
       (trace listening
        ++ [Callback 1%nat plug "BinaryState" (Some "1");
            Callback 2%nat plug "BinaryState" (Some "1");
            Callback 1%nat plug "Brightness" (Some "80")])%list listening).
Proof.
  exact (notify_dispatches_properties_in_document_order
           roomy (parses state_change_body state_change) notify_state_change
           listening plug state_change eq_refl eq_refl).
Defined.

(** A long press reaches the callback for every event and the one for
    [LongPress]. *)
Lemma post_dispatches_one_long_press_witness :
  do_POST roomy (parses long_press_body long_press) post_long_press listening
  = (Ok success_response,
     with_trace
       (trace listening
        ++ [Callback 1%nat plug "LongPress" (Some "1");
            Callback 3%nat plug "LongPress" (Some "1")])%list listening).
Proof.
  exact (post_dispatches_one_long_press
           roomy (parses long_press_body long_press) post_long_press listening
           plug long_press (Element "BinaryState" (Some "1") []) ""
           eq_refl eq_refl eq_refl eq_refl).
Defined.

(** A POST to the description path. *)
Lemma other_paths_are_not_found_witness :
  do_POST roomy no_document get_setup_xml listening
  = (Ok not_found_response, listening).
Proof.
  apply (other_paths_are_not_found roomy no_document "uuid:virtual" POST
           get_setup_xml listening).
  - discriminate.
  - apply endswith_false. reflexivity.
Defined.

(** The description of the virtual device. *)
Lemma get_serves_the_device_description_witness :
  exists resp before after,
    do_GET "uuid:virtual" get_setup_xml listening = (Ok resp, listening)
    /\ code resp = 200
    /\ header_get "Content-Type" (sent_headers resp) = Some "text/xml"
    /\ body resp = VIRTUAL_SETUP_XML "uuid:virtual"
    /\ body resp
       = String.append before
           (String.append "<UDN>"
              (String.append "uuid:virtual" (String.append "</UDN>" after))).
Proof.
  exact (get_serves_the_device_description "uuid:virtual" get_setup_xml
           listening "" eq_refl).
Defined.

(** Stopping the registry that holds the plug. *)
Lemma stop_cancels_every_pending_timer_witness :
  exists w',
    stop [[(_basic_event_subscription_url, first_timer)]] running
    = (Ok tt, {| world := w'; _exiting := true |})
    /\ sched_queue w' = [].
Proof.
  destruct (proj1 (stop_cancels_every_pending_timer
                     [[(_basic_event_subscription_url, first_timer)]]
                     running)
              8989 eq_refl (registered_timers_ok unreachable))
    as (w' & H & Hq & _).
  - vm_compute. apply Permutation_refl.
  - exists w'. split; [exact H|exact Hq].
Defined.

(** A NOTIFY from the plug, just registered on a registry that has a
    callback for it. *)
Lemma notify_after_register_is_dispatched_witness :
  do_NOTIFY roomy (parses state_change_body state_change) notify_state_change
    (snd (register (Some plug) listening))
  = (Ok success_response,
     with_trace
       (trace (snd (register (Some plug) listening))
        ++ [Callback 1%nat plug "BinaryState" (Some "1");
            Callback 2%nat plug "BinaryState" (Some "1");
            Callback 1%nat plug "Brightness" (Some "80")])%list
       (snd (register (Some plug) listening))).
Proof.
  exact (notify_after_register_is_dispatched
           roomy (parses state_change_body state_change) notify_state_change
           plug state_change listening eq_refl eq_refl).
Defined.
